(** * The gkegateway backend-service data source

    A shallow embedding of [internal/provider/backend_service_data_source.go]
    (the [Read] method of [BackendServiceDataSource]) together with the parts
    of [GKEGatewayProviderData] it reads, and the properties of the
    multi-hop resolution it performs: forwarding rule, target proxy, URL map,
    backend service.

    Go strings are byte strings: they are modelled by [string], whose
    characters are the bytes.  The Google Cloud clients are external: they
    are fields of the provider data, modelled as functions from a request to
    its answer, and every invocation is recorded in a trace. *)

From Stdlib Require Import String Ascii List ZArith NArith Lia Bool DecimalString.
Import ListNotations.
Local Open Scope string_scope.
Local Open Scope list_scope.

(** ** The Go library functions used by [Read] *)

Definition byte (c : ascii) : N := N_of_ascii c.

Definition in_range (lo hi : N) (c : ascii) : bool :=
  (lo <=? byte c)%N && (byte c <=? hi)%N.

Module strings.

(** [strings.Split(s, sep)] for a separator of one byte, the only use in
    the data source ([sep = "/"]).  The result is never empty: a string
    without the separator gives the one-element slice holding it. *)
Fixpoint Split (s : string) (sep : ascii) : list string :=
  match s with
  | EmptyString => [EmptyString]
  | String c r =>
      if Ascii.eqb c sep then EmptyString :: Split r sep
      else match Split r sep with
           | h :: t => String c h :: t
           | [] => [String c EmptyString]
           end
  end.

(** Whether the byte [sep] occurs in [s]. *)
Fixpoint Contains (s : string) (sep : ascii) : bool :=
  match s with
  | EmptyString => false
  | String c r => Ascii.eqb c sep || Contains r sep
  end.

End strings.

Module strconv.

(** [strconv.FormatUint(n, 10)]. *)
Definition FormatUint (n : N) : string :=
  NilEmpty.string_of_uint (N.to_uint n).

End strconv.

Module utf8.

Definition cont (c : ascii) : bool := in_range 128 191 c.

(** Number of bytes of the well-formed UTF-8 sequence [s] starts with, or
    [0] when there is none ([utf8.DecodeRune] then answers
    [(RuneError, 1)]).  The ranges are those of [unicode/utf8]'s
    [acceptRanges]: no overlong forms, no surrogates, nothing above
    U+10FFFF. *)
Definition DecodeRune_size (s : string) : nat :=
  match s with
  | EmptyString => 0
  | String b0 r =>
      if (byte b0 <? 128)%N then 1
      else match r with
      | EmptyString => 0
      | String b1 r1 =>
          if in_range 194 223 b0 then (if cont b1 then 2 else 0)
          else match r1 with
          | EmptyString => 0
          | String b2 r2 =>
              let lo1 := if (byte b0 =? 224)%N then 160%N else 128%N in
              let hi1 := if (byte b0 =? 237)%N then 159%N else 191%N in
              if in_range 224 239 b0
              then (if in_range lo1 hi1 b1 && cont b2 then 3 else 0)
              else match r2 with
              | EmptyString => 0
              | String b3 _ =>
                  let lo := if (byte b0 =? 240)%N then 144%N else 128%N in
                  let hi := if (byte b0 =? 244)%N then 143%N else 191%N in
                  if in_range 240 244 b0 && in_range lo hi b1
                     && cont b2 && cont b3
                  then 4 else 0
              end
          end
      end
  end.

Definition RuneError : N := 65533.

Definition chr (n : N) : string := String (ascii_of_N n) EmptyString.

(** [utf8.AppendRune]: surrogates and values above U+10FFFF are written
    as U+FFFD. *)
Definition EncodeRune (r : N) : string :=
  let r := if ((55296 <=? r) && (r <=? 57343) || (1114111 <? r))%N
           then RuneError else r in
  if (r <? 128)%N then chr r
  else if (r <? 2048)%N then
    chr (192 + r / 64) ++ chr (128 + r mod 64)
  else if (r <? 65536)%N then
    chr (224 + r / 4096) ++ chr (128 + (r / 64) mod 64) ++ chr (128 + r mod 64)
  else
    chr (240 + r / 262144) ++ chr (128 + (r / 4096) mod 64)
      ++ chr (128 + (r / 64) mod 64) ++ chr (128 + r mod 64).

End utf8.

(** ** [encoding/json]

    [json.Unmarshal] as the data source uses it: the target is a struct with
    a single field of type [*string].  As in the library, the whole input is
    first checked to be one well-formed JSON text ([checkValid], here the
    scanner [lex] followed by the push-down check [valid]); only then is it
    decoded.  The scanner is a state machine stepping over the bytes, like
    [scanner.go]; the names of the number states are the library's. *)

Module json.

Inductive token :=
| TBeginObject | TEndObject | TBeginArray | TEndArray | TColon | TComma
| TString (raw : string)   (* bytes between the quotes, escapes untouched *)
| TNumber | TTrue | TFalse | TNull.

Inductive numstate :=
| stateNeg | state0 | state1 | stateDot | stateDot0
| stateE | stateESign | stateE0.

Inductive lexstate :=
| Between
| InString (raw : string)
| InStringEsc (raw : string)
| InStringEscU (raw : string) (more : nat)
| InLiteral (rest : string) (t : token)
| InNumber (n : numstate).

Definition dquote : ascii := ascii_of_N 34.

Definition isSpace (c : ascii) : bool :=
  (byte c =? 32)%N || (byte c =? 9)%N || (byte c =? 13)%N || (byte c =? 10)%N.

Definition isDigit (c : ascii) : bool := in_range 48 57 c.

Definition isHex (c : ascii) : bool :=
  isDigit c || in_range 97 102 c || in_range 65 70 c.

Definition snoc (s : string) (c : ascii) : string :=
  s ++ String c EmptyString.

(** A byte met between two tokens. *)
Definition begin_token (c : ascii) (out : list token)
  : option (lexstate * list token) :=
  if isSpace c then Some (Between, out)
  else if Ascii.eqb c "{" then Some (Between, out ++ [TBeginObject])
  else if Ascii.eqb c "}" then Some (Between, out ++ [TEndObject])
  else if Ascii.eqb c "[" then Some (Between, out ++ [TBeginArray])
  else if Ascii.eqb c "]" then Some (Between, out ++ [TEndArray])
  else if Ascii.eqb c ":" then Some (Between, out ++ [TColon])
  else if Ascii.eqb c "," then Some (Between, out ++ [TComma])
  else if Ascii.eqb c dquote then Some (InString EmptyString, out)
  else if Ascii.eqb c "-" then Some (InNumber stateNeg, out)
  else if Ascii.eqb c "0" then Some (InNumber state0, out)
  else if in_range 49 57 c then Some (InNumber state1, out)
  else if Ascii.eqb c "t" then Some (InLiteral "rue" TTrue, out)
  else if Ascii.eqb c "f" then Some (InLiteral "alse" TFalse, out)
  else if Ascii.eqb c "n" then Some (InLiteral "ull" TNull, out)
  else None.

(** The state after [c] when [c] continues the number, [None] when it
    does not. *)
Definition num_step (n : numstate) (c : ascii) : option numstate :=
  let isE := Ascii.eqb c "e" || Ascii.eqb c "E" in
  match n with
  | stateNeg =>
      if Ascii.eqb c "0" then Some state0
      else if in_range 49 57 c then Some state1 else None
  | state0 =>
      if Ascii.eqb c "." then Some stateDot
      else if isE then Some stateE else None
  | state1 =>
      if isDigit c then Some state1
      else if Ascii.eqb c "." then Some stateDot
      else if isE then Some stateE else None
  | stateDot => if isDigit c then Some stateDot0 else None
  | stateDot0 =>
      if isDigit c then Some stateDot0
      else if isE then Some stateE else None
  | stateE =>
      if Ascii.eqb c "+" || Ascii.eqb c "-" then Some stateESign
      else if isDigit c then Some stateE0 else None
  | stateESign => if isDigit c then Some stateE0 else None
  | stateE0 => if isDigit c then Some stateE0 else None
  end.

(** The states in which a number may end. *)
Definition num_complete (n : numstate) : bool :=
  match n with
  | state0 | state1 | stateDot0 | stateE0 => true
  | _ => false
  end.

Definition lex_step (st : lexstate) (out : list token) (c : ascii)
  : option (lexstate * list token) :=
  match st with
  | Between => begin_token c out
  | InString raw =>
      if Ascii.eqb c dquote then Some (Between, out ++ [TString raw])
      else if Ascii.eqb c "\" then Some (InStringEsc (snoc raw c), out)
      else if (byte c <? 32)%N then None
      else Some (InString (snoc raw c), out)
  | InStringEsc raw =>
      if Ascii.eqb c "b" || Ascii.eqb c "f" || Ascii.eqb c "n"
         || Ascii.eqb c "r" || Ascii.eqb c "t" || Ascii.eqb c "\"
         || Ascii.eqb c "/" || Ascii.eqb c dquote
      then Some (InString (snoc raw c), out)
      else if Ascii.eqb c "u" then Some (InStringEscU (snoc raw c) 4, out)
      else None
  | InStringEscU raw more =>
      if isHex c then
        match more with
        | S (S k) => Some (InStringEscU (snoc raw c) (S k), out)
        | _ => Some (InString (snoc raw c), out)
        end
      else None
  | InLiteral rest t =>
      match rest with
      | String e r =>
          if Ascii.eqb c e then
            match r with
            | EmptyString => Some (Between, out ++ [t])
            | _ => Some (InLiteral r t, out)
            end
          else None
      | EmptyString => None
      end
  | InNumber n =>
      match num_step n c with
      | Some n' => Some (InNumber n', out)
      | None =>
          if num_complete n then begin_token c (out ++ [TNumber]) else None
      end
  end.

Definition lex_end (st : lexstate) (out : list token) : option (list token) :=
  match st with
  | Between => Some out
  | InNumber n => if num_complete n then Some (out ++ [TNumber]) else None
  | _ => None
  end.

Fixpoint lex_from (st : lexstate) (out : list token) (s : string)
  : option (list token) :=
  match s with
  | EmptyString => lex_end st out
  | String c r =>
      match lex_step st out c with
      | Some (st', out') => lex_from st' out' r
      | None => None
      end
  end.

Definition lex (s : string) : option (list token) := lex_from Between [] s.

(** The scanner's stack of open containers and what it expects next. *)
Inductive parseState := parseObjectKey | parseObjectValue | parseArrayValue.

Inductive expect :=
| BeginValue | BeginValueOrEmpty | BeginStringOrEmpty | BeginString
| EndValue.

Definition maxNestingDepth : N := 10000.

Definition pushParseState (p : parseState) (e : expect)
  (stack : list parseState) : option (expect * list parseState) :=
  if (N.of_nat (List.length (p :: stack)) <=? maxNestingDepth)%N
  then Some (e, p :: stack) else None.

Definition begin_value (t : token) (stack : list parseState)
  : option (expect * list parseState) :=
  match t with
  | TBeginObject => pushParseState parseObjectKey BeginStringOrEmpty stack
  | TBeginArray => pushParseState parseArrayValue BeginValueOrEmpty stack
  | TString _ | TNumber | TTrue | TFalse | TNull => Some (EndValue, stack)
  | _ => None
  end.

Definition end_value (t : token) (stack : list parseState)
  : option (expect * list parseState) :=
  match stack, t with
  | parseObjectKey :: st, TColon => Some (BeginValue, parseObjectValue :: st)
  | parseObjectValue :: st, TComma => Some (BeginString, parseObjectKey :: st)
  | parseObjectValue :: st, TEndObject => Some (EndValue, st)
  | parseArrayValue :: st, TComma => Some (BeginValue, stack)
  | parseArrayValue :: st, TEndArray => Some (EndValue, st)
  | _, _ => None
  end.

Definition parse_step (e : expect) (stack : list parseState) (t : token)
  : option (expect * list parseState) :=
  match e, t with
  | BeginValue, _ => begin_value t stack
  | BeginValueOrEmpty, TEndArray => end_value t stack
  | BeginValueOrEmpty, _ => begin_value t stack
  | BeginStringOrEmpty, TEndObject => Some (EndValue, tl stack)
  | BeginStringOrEmpty, TString _ => Some (EndValue, stack)
  | BeginString, TString _ => Some (EndValue, stack)
  | EndValue, _ => end_value t stack
  | _, _ => None
  end.

Fixpoint valid_from (e : expect) (stack : list parseState) (ts : list token)
  : bool :=
  match ts with
  | [] => match e, stack with EndValue, [] => true | _, _ => false end
  | t :: r =>
      match parse_step e stack t with
      | Some (e', stack') => valid_from e' stack' r
      | None => false
      end
  end.

Definition valid (ts : list token) : bool := valid_from BeginValue [] ts.

(** [checkValid]: the tokens of a well-formed JSON text. *)
Definition checkValid (data : string) : option (list token) :=
  match lex data with
  | Some ts => if valid ts then Some ts else None
  | None => None
  end.

(** *** Unquoting a string literal ([unquoteBytes]) *)

Definition hexval (c : ascii) : N :=
  if isDigit c then byte c - 48
  else if in_range 97 102 c then byte c - 87
  else byte c - 55.

Fixpoint drop (n : nat) (s : string) : string :=
  match n, s with
  | S k, String _ r => drop k r
  | _, _ => s
  end.

Definition take (n : nat) (s : string) : string := substring 0 n s.

(** [getu4]: the value of the escape [\uXXXX] that [s] starts with,
    [None] (the library's [-1]) when it starts with none. *)
Definition getu4 (s : string) : option N :=
  match s with
  | String b (String u (String h1 (String h2 (String h3 (String h4 _))))) =>
      if Ascii.eqb b "\" && Ascii.eqb u "u"
         && isHex h1 && isHex h2 && isHex h3 && isHex h4
      then Some (hexval h1 * 4096 + hexval h2 * 256 + hexval h3 * 16 + hexval h4)%N
      else None
  | _ => None
  end.

Definition IsSurrogate (r : N) : bool := ((55296 <=? r) && (r <? 57344))%N.

(** [utf16.DecodeRune]: the code point of a surrogate pair, [None] (the
    library's U+FFFD) when the two halves do not form one. *)
Definition utf16_DecodeRune (r1 : N) (r2 : option N) : option N :=
  match r2 with
  | Some r2 =>
      if ((55296 <=? r1) && (r1 <? 56320) && (56320 <=? r2) && (r2 <? 57344))%N
      then Some ((r1 - 55296) * 1024 + (r2 - 56320) + 65536)%N
      else None
  | None => None
  end.

Definition escaped (e : ascii) : ascii :=
  if Ascii.eqb e "b" then ascii_of_N 8
  else if Ascii.eqb e "f" then ascii_of_N 12
  else if Ascii.eqb e "n" then ascii_of_N 10
  else if Ascii.eqb e "r" then ascii_of_N 13
  else if Ascii.eqb e "t" then ascii_of_N 9
  else e.

(** [skip] counts the bytes of [s] already consumed by the escape or the
    multi-byte sequence decoded just before.  Escapes are replaced by the
    bytes they stand for, a surrogate escape without its second half and
    every byte that is not part of well-formed UTF-8 by U+FFFD.  The
    literal has passed the scanner, so every backslash starts a
    well-formed escape. *)
Fixpoint unquote_from (skip : nat) (s : string) : string :=
  match s with
  | EmptyString => EmptyString
  | String c r =>
      match skip with
      | S k => unquote_from k r
      | O =>
          if Ascii.eqb c "\" then
            match r with
            | String e _ =>
                if Ascii.eqb e "u" then
                  match getu4 s with
                  | Some rr =>
                      if IsSurrogate rr then
                        match utf16_DecodeRune rr (getu4 (drop 6 s)) with
                        | Some dec => utf8.EncodeRune dec ++ unquote_from 11 r
                        | None =>
                            utf8.EncodeRune utf8.RuneError ++ unquote_from 5 r
                        end
                      else utf8.EncodeRune rr ++ unquote_from 5 r
                  | None => EmptyString
                  end
                else String (escaped e) (unquote_from 1 r)
            | EmptyString => EmptyString
            end
          else if (byte c <? 128)%N then String c (unquote_from 0 r)
          else
            match utf8.DecodeRune_size s with
            | O => utf8.EncodeRune utf8.RuneError ++ unquote_from 0 r
            | S k => take (S k) s ++ unquote_from k r
            end
      end
  end.

Definition unquote (raw : string) : string := unquote_from 0 raw.

(** *** Matching an object key with a field name

    A key selects the field whose name it equals, or else the one it
    equals under Unicode simple case folding ([foldName]).  The field
    names at hand are ASCII, and the only runes outside ASCII whose fold
    is an ASCII letter are U+017F (folded to S) and U+212A (folded to K):
    every other multi-byte sequence is kept as it is, which leaves the
    comparison with a folded ASCII name unchanged. *)
Fixpoint foldName_from (skip : nat) (s : string) : string :=
  match s with
  | EmptyString => EmptyString
  | String c r =>
      match skip with
      | S k => foldName_from k r
      | O =>
          if in_range 97 122 c
          then String (ascii_of_N (byte c - 32)) (foldName_from 0 r)
          else if String.eqb (take 2 s) (utf8.EncodeRune 383)
          then String "S" (foldName_from 1 r)
          else if String.eqb (take 3 s) (utf8.EncodeRune 8490)
          then String "K" (foldName_from 2 r)
          else String c (foldName_from 0 r)
      end
  end.

Definition foldName (s : string) : string := foldName_from 0 s.

Definition field_matches (name key : string) : bool :=
  String.eqb key name || String.eqb (foldName key) (foldName name).

(** *** Decoding into a struct whose only field is a [*string]

    The walk goes over the members of the top-level object.  [depth]
    counts the containers open inside the member value being skipped;
    [key] is [Some m] between a key and the end of its value, [m] telling
    whether the key selects the field.  [field] is the pointer decoded so
    far and [err] whether an [UnmarshalTypeError] has been saved. *)
Fixpoint object (name : string) (ts : list token) (depth : nat)
  (key : option bool) (field : option string) (err : bool)
  : option string * bool :=
  match ts with
  | [] => (field, err)
  | t :: r =>
      match depth with
      | S d =>
          match t with
          | TBeginObject | TBeginArray => object name r (S depth) key field err
          | TEndObject | TEndArray => object name r d key field err
          | _ => object name r depth key field err
          end
      | O =>
          match key with
          | None =>
              match t with
              | TString k =>
                  object name r 0
                    (Some (field_matches name (unquote k))) field err
              | TComma => object name r 0 None field err
              | _ => (field, err)
              end
          | Some m =>
              match t with
              | TColon => object name r 0 key field err
              | TString raw =>
                  object name r 0 None
                    (if m then Some (unquote raw) else field) err
              | TNull => object name r 0 None (if m then None else field) err
              | TBeginObject | TBeginArray =>
                  object name r 1 None field (err || m)
              | _ => object name r 0 None field (err || m)
              end
          end
      end
  end.

(** [json.Unmarshal(data, &v)] for [v] a struct whose only field is a
    [*string] named [name] in JSON: [Some p] is a nil error with the field
    left at [p], [None] any error.  A syntax error is reported before
    anything is decoded; a top-level [null] changes nothing; any other
    top-level value that is not an object, and any value for the field
    that is neither a string nor [null], is an [UnmarshalTypeError]. *)
Definition Unmarshal (name : string) (data : string) : option (option string) :=
  match checkValid data with
  | None => None
  | Some (TBeginObject :: members) =>
      match object name members 0 None None false with
      | (field, false) => Some field
      | (_, true) => None
      end
  | Some (TNull :: _) => Some None
  | Some _ => None
  end.

End json.

(** ** [fmt.Sprintf]

    The formats of the data source only splice strings ([%s]) and render
    an error ([%+v]); both are concatenations. *)

Definition nl : string := String (ascii_of_N 10) EmptyString.

(** ** Terraform plugin framework: attribute values and diagnostics *)

Module types.

(** [types.String]: null, unknown or a known value. *)
Inductive String := StringNull | StringUnknown | StringValue (s : string).

Definition IsNull (v : String) : bool :=
  match v with StringNull => true | _ => false end.

Definition IsUnknown (v : String) : bool :=
  match v with StringUnknown => true | _ => false end.

(** The empty string for a null or unknown value. *)
Definition ValueString (v : String) : string :=
  match v with StringValue s => s | _ => EmptyString end.

End types.

Module diag.

Inductive Severity := SeverityError | SeverityWarning.

Record Diagnostic := {
  severity : Severity;
  Summary : string;
  Detail : string
}.

Definition Diagnostics := list Diagnostic.

Definition Severity_eqb (a b : Severity) : bool :=
  match a, b with
  | SeverityError, SeverityError | SeverityWarning, SeverityWarning => true
  | _, _ => false
  end.

Definition Equal (a b : Diagnostic) : bool :=
  Severity_eqb (severity a) (severity b)
  && String.eqb (Summary a) (Summary b)
  && String.eqb (Detail a) (Detail b).

Definition Contains (diags : Diagnostics) (d : Diagnostic) : bool :=
  existsb (Equal d) diags.

(** [Diagnostics.Append]: a diagnostic already in the collection is not
    added again. *)
Definition Append (diags : Diagnostics) (new : list Diagnostic) : Diagnostics :=
  fold_left (fun acc d => if Contains acc d then acc else acc ++ [d]) new diags.

Definition NewErrorDiagnostic (summary detail : string) : Diagnostic :=
  {| severity := SeverityError; Summary := summary; Detail := detail |}.

Definition AddError (diags : Diagnostics) (summary detail : string) : Diagnostics :=
  Append diags [NewErrorDiagnostic summary detail].

Definition HasError (diags : Diagnostics) : bool :=
  existsb (fun d => Severity_eqb (severity d) SeverityError) diags.

End diag.

(** ** The Compute API resources ([computepb])

    Optional protobuf fields are pointers in Go, here options; a getter
    answers the zero value for an unset field. *)

Module computepb.

Definition get (o : option string) : string :=
  match o with Some s => s | None => EmptyString end.

Record ForwardingRule := {
  fr_Description : option string;
  fr_Name : option string;
  fr_Target : option string
}.
Definition GetDescription (r : ForwardingRule) := get (fr_Description r).
Definition GetName (r : ForwardingRule) := get (fr_Name r).
Definition GetTarget (r : ForwardingRule) := get (fr_Target r).

Record TargetHttpsProxy := { thp_UrlMap : option string }.
Definition GetUrlMap (p : TargetHttpsProxy) := get (thp_UrlMap p).

(** Only the presence of a fault injection policy is looked at. *)
Inductive HttpFaultInjection := FaultInjection.

Record WeightedBackendService := {
  wbs_BackendService : option string;
  Weight : option N
}.

Record HttpRouteAction := {
  FaultInjectionPolicy : option HttpFaultInjection;
  WeightedBackendServices : list WeightedBackendService
}.

Record HttpRouteRule := { RouteAction : option HttpRouteAction }.

Record PathMatcher := {
  pm_DefaultRouteAction : option HttpRouteAction;
  pm_DefaultService : option string;
  RouteRules : list HttpRouteRule
}.

Record UrlMap := {
  DefaultRouteAction : option HttpRouteAction;
  DefaultService : option string;
  PathMatchers : list PathMatcher
}.

Record BackendService := {
  bs_Id : option N;
  bs_Name : option string
}.
Definition GetId (b : BackendService) : N :=
  match bs_Id b with Some n => n | None => 0%N end.
Definition BackendService_GetName (b : BackendService) := get (bs_Name b).

End computepb.

(** ** Errors and the clients

    An [error] is told apart by whether its dynamic type is
    [*apierror.APIError], whose [HTTPCode] is then known; [text] is what
    [%+v] prints for it. *)

Inductive error :=
| APIError (HTTPCode : Z) (text : string)
| OtherError (text : string).

Definition error_text (e : error) : string :=
  match e with APIError _ t => t | OtherError t => t end.

Inductive result (A : Type) :=
| Ok (a : A)
| Err (e : error).
Arguments Ok {A} a.
Arguments Err {A} e.

(** What the successive calls of [Next] on a [ForwardingRuleIterator]
    answer: the rules, then either [iterator.Done] ([None]) or an error. *)
Record ForwardingRuleIterator := {
  rules : list computepb.ForwardingRule;
  failure : option error
}.

(** [GKEGatewayProviderData].  A client is the function from the fields of
    its request (project, region for a regional client, resource name for
    [Get]) to the answer of the API. *)
Record GKEGatewayProviderData := {
  backendServicesClient : string -> string -> result computepb.BackendService;
  forwardingRulesClient : string -> string -> ForwardingRuleIterator;
  globalForwardingRulesClient : string -> ForwardingRuleIterator;
  project : types.String;
  region : types.String;
  regionBackendServicesClient : string -> string -> string -> result computepb.BackendService;
  regionTargetHttpsProxiesClient :
    string -> string -> string -> result computepb.TargetHttpsProxy;
  regionUrlMapsClient : string -> string -> string -> result computepb.UrlMap;
  targetHttpsProxiesClient : string -> string -> result computepb.TargetHttpsProxy;
  urlMapsClient : string -> string -> result computepb.UrlMap
}.

(** One invocation of a client, with the fields of its request. *)
Inductive ClientCall :=
| GlobalForwardingRules_List (project : string)
| ForwardingRules_List (project region : string)
| TargetHttpsProxies_Get (project targetHttpsProxy : string)
| RegionTargetHttpsProxies_Get (project region targetHttpsProxy : string)
| UrlMaps_Get (project urlMap : string)
| RegionUrlMaps_Get (project region urlMap : string)
| BackendServices_Get (project backendService : string)
| RegionBackendServices_Get (project region backendService : string).

(** ** The data source *)

Record BackendServiceDataSource := {
  providerData : option GKEGatewayProviderData
}.

Record BackendServiceDataSourceModelBackendService := {
  ID : types.String;
  Name : types.String
}.

Record BackendServiceDataSourceModel := {
  BackendService : option BackendServiceDataSourceModelBackendService;
  Gateway : types.String;
  Namespace : types.String;
  Project : types.String;
  Region : types.String
}.

Record forwardingRuleDescription := { K8sResource : option string }.

(** [req.Config.Get(ctx, &data)]: the diagnostics of the decoding and the
    model it filled in. *)
Record ReadRequest := {
  Config_Get : diag.Diagnostics * BackendServiceDataSourceModel
}.

(** [State] is [None] until [resp.State.Set] stores the model. *)
Record ReadResponse := {
  Diagnostics : diag.Diagnostics;
  State : option BackendServiceDataSourceModel
}.

(** ** Executing [Read]

    [Read] appends diagnostics to its response, stores the state, invokes
    clients, returns early and can panic.  A [Run] holds the response built
    so far and the trace of client invocations; a computation either goes
    on with a value, has executed [return], or has panicked. *)

Record Run := {
  resp : ReadResponse;
  calls : list ClientCall
}.

Inductive panic :=
| IndexOutOfRange (index : Z) (len : nat)
| NilDereference.

Inductive Flow (A : Type) :=
| Continue (a : A)
| Returned
| Panicked (p : panic).
Arguments Continue {A} a.
Arguments Returned {A}.
Arguments Panicked {A} p.

Definition Exec (A : Type) : Type := Run -> Flow A * Run.

Definition ret {A} (a : A) : Exec A := fun w => (Continue a, w).

Definition bind {A B} (m : Exec A) (k : A -> Exec B) : Exec B :=
  fun w =>
    match m w with
    | (Continue a, w') => k a w'
    | (Returned, w') => (Returned, w')
    | (Panicked p, w') => (Panicked p, w')
    end.

Definition return_ {A} : Exec A := fun w => (Returned, w).

Definition throw {A} (p : panic) : Exec A := fun w => (Panicked p, w).

Declare Scope exec_scope.
Delimit Scope exec_scope with exec.
Notation "x <- m ;; k" := (bind m (fun x => k))
  (at level 61, m at next level, right associativity) : exec_scope.
Notation "m ;; k" := (bind m (fun _ => k))
  (at level 61, right associativity) : exec_scope.
Local Open Scope exec_scope.

Definition update_resp (f : ReadResponse -> ReadResponse) : Exec unit :=
  fun w => (Continue tt, {| resp := f (resp w); calls := calls w |}).

Definition Diagnostics_Append (new : diag.Diagnostics) : Exec unit :=
  update_resp (fun r =>
    {| Diagnostics := diag.Append (Diagnostics r) new; State := State r |}).

Definition Diagnostics_AddError (summary detail : string) : Exec unit :=
  update_resp (fun r =>
    {| Diagnostics := diag.AddError (Diagnostics r) summary detail;
       State := State r |}).

Definition Diagnostics_HasError : Exec bool :=
  fun w => (Continue (diag.HasError (Diagnostics (resp w))), w).

(** [resp.State.Set(ctx, &data)]: the model has the shape of the schema, so
    the state is stored and no diagnostic comes back. *)
Definition State_Set (data : BackendServiceDataSourceModel)
  : Exec diag.Diagnostics :=
  update_resp (fun r => {| Diagnostics := Diagnostics r; State := Some data |}) ;;
  ret [].

(** Invoking a client: the call is recorded, the API's answer is the
    result. *)
Definition invoke {A} (c : ClientCall) (answer : A) : Exec A :=
  fun w => (Continue answer, {| resp := resp w; calls := calls w ++ [c] |}).

(** [*p] *)
Definition deref {A} (p : option A) : Exec A :=
  match p with
  | Some a => ret a
  | None => throw NilDereference
  end.

Definition len {A} (l : list A) : Z := Z.of_nat (List.length l).

(** [l[i]] *)
Definition index (l : list string) (i : Z) : Exec string :=
  if (i <? 0)%Z || (len l <=? i)%Z
  then throw (IndexOutOfRange i (List.length l))
  else ret (nth (Z.to_nat i) l EmptyString).

(** ** [Read], stage by stage *)

Definition json_Unmarshal (data : string) : option forwardingRuleDescription :=
  match json.Unmarshal "k8sResource" data with
  | Some p => Some {| K8sResource := p |}
  | None => None
  end.

(** Lines 149-154: whether the description of [forwardingRule] names the
    gateway of [data]. *)
Definition matchesGateway (data : BackendServiceDataSourceModel)
  (forwardingRule : computepb.ForwardingRule) : bool :=
  match json_Unmarshal (computepb.GetDescription forwardingRule) with
  | Some frd =>
      match K8sResource frd with
      | Some k8sResource =>
          String.eqb k8sResource
            ("/namespaces/" ++ types.ValueString (Namespace data)
               ++ "/gateways/" ++ types.ValueString (Gateway data))
      | None => false
      end
  | None => false
  end.

Definition is404 (err : error) : bool :=
  match err with
  | APIError code _ => (code =? 404)%Z
  | OtherError _ => false
  end.

(** The loop over [forwardingRulesIterator.Next()]. *)
Fixpoint iterateForwardingRules (data : BackendServiceDataSourceModel)
  (remaining : list computepb.ForwardingRule) (failure : option error)
  (matchingForwardingRules : list computepb.ForwardingRule)
  : Exec (list computepb.ForwardingRule) :=
  match remaining with
  | forwardingRule :: remaining' =>
      iterateForwardingRules data remaining' failure
        (if matchesGateway data forwardingRule
         then matchingForwardingRules ++ [forwardingRule]
         else matchingForwardingRules)
  | [] =>
      match failure with
      | None => ret matchingForwardingRules
      | Some err =>
          if is404 err then return_
          else
            Diagnostics_AddError "Unable to iterate over forwarding rules"
              ("Error calling Google API: " ++ error_text err) ;;
            return_
      end
  end.

Definition listForwardingRules (pd : GKEGatewayProviderData)
  (project : string) (region : types.String) : Exec ForwardingRuleIterator :=
  if types.IsNull region
  then invoke (GlobalForwardingRules_List project)
         (globalForwardingRulesClient pd project)
  else invoke (ForwardingRules_List project (types.ValueString region))
         (forwardingRulesClient pd project (types.ValueString region)).

Definition getTargetHttpsProxy (pd : GKEGatewayProviderData)
  (project : string) (region : types.String) (name : string)
  : Exec (result computepb.TargetHttpsProxy) :=
  if types.IsNull region
  then invoke (TargetHttpsProxies_Get project name)
         (targetHttpsProxiesClient pd project name)
  else invoke (RegionTargetHttpsProxies_Get project (types.ValueString region) name)
         (regionTargetHttpsProxiesClient pd project (types.ValueString region) name).

Definition getUrlMap (pd : GKEGatewayProviderData)
  (project : string) (region : types.String) (name : string)
  : Exec (result computepb.UrlMap) :=
  if types.IsNull region
  then invoke (UrlMaps_Get project name) (urlMapsClient pd project name)
  else invoke (RegionUrlMaps_Get project (types.ValueString region) name)
         (regionUrlMapsClient pd project (types.ValueString region) name).

Definition getBackendService (pd : GKEGatewayProviderData)
  (project : string) (region : types.String) (name : string)
  : Exec (result computepb.BackendService) :=
  if types.IsNull region
  then invoke (BackendServices_Get project name)
         (backendServicesClient pd project name)
  else invoke (RegionBackendServices_Get project (types.ValueString region) name)
         (regionBackendServicesClient pd project (types.ValueString region) name).

(** Lines 160-163: the message listing the matching rules. *)
Definition forwardingRulesDebugMessage
  (matchingForwardingRules : list computepb.ForwardingRule) : string :=
  fold_left
    (fun debugMessage rule =>
       (debugMessage ++ "  - " ++ computepb.GetName rule ++ nl)%string)
    matchingForwardingRules
    ("The following forwarding rules matched:" ++ nl ++ nl)%string.

(** Lines 225-244: the default services of a URL map and of its path
    matchers, and the route actions gathered on the way. *)
Definition collectDefaults (urlMap : computepb.UrlMap)
  : list (option string) * list (option computepb.HttpRouteAction) :=
  let backendServicePaths := [] in
  let routeActions := [computepb.DefaultRouteAction urlMap] in
  let backendServicePaths :=
    match computepb.DefaultService urlMap with
    | Some _ => backendServicePaths ++ [computepb.DefaultService urlMap]
    | None => backendServicePaths
    end in
  fold_left
    (fun '(backendServicePaths, routeActions) matcher =>
       let routeActions :=
         routeActions ++ [computepb.pm_DefaultRouteAction matcher] in
       let backendServicePaths :=
         match computepb.pm_DefaultService matcher with
         | Some _ =>
             backendServicePaths ++ [computepb.pm_DefaultService matcher]
         | None => backendServicePaths
         end in
       let routeActions :=
         fold_left
           (fun routeActions rule => routeActions ++ [computepb.RouteAction rule])
           (computepb.RouteRules matcher) routeActions in
       (backendServicePaths, routeActions))
    (computepb.PathMatchers urlMap)
    (backendServicePaths, routeActions).

(** Lines 225-254: the backend service paths a URL map makes eligible. *)
Definition eligibleBackendServicePaths (urlMap : computepb.UrlMap)
  : list (option string) :=
  let '(backendServicePaths, routeActions) := collectDefaults urlMap in
  fold_left
    (fun backendServicePaths action =>
       match action with
       | None => backendServicePaths
       | Some action =>
           match computepb.FaultInjectionPolicy action with
           | Some _ => backendServicePaths
           | None =>
               fold_left
                 (fun backendServicePaths wbs =>
                    backendServicePaths ++ [computepb.wbs_BackendService wbs])
                 (computepb.WeightedBackendServices action)
                 backendServicePaths
           end
       end)
    routeActions backendServicePaths.

(** Lines 260-264: the message listing the backend services; a nil path
    panics when it is dereferenced. *)
Fixpoint backendServicesDebugMessage (paths : list (option string))
  (debugMessage : string) : Exec string :=
  match paths with
  | [] => ret debugMessage
  | path :: paths' =>
      p <- deref path ;;
      let components := strings.Split p "/" in
      name <- index components (len components - 1) ;;
      backendServicesDebugMessage paths'
        (debugMessage ++ "  - " ++ name ++ nl)%string
  end.

(** Lines 116-167: the one forwarding rule of the gateway. *)
Definition locateForwardingRule (pd : GKEGatewayProviderData)
  (data : BackendServiceDataSourceModel)
  (project : string) (region : types.String) : Exec computepb.ForwardingRule :=
  (* Loop over the forwarding rules. *)
  forwardingRulesIterator <- listForwardingRules pd project region ;;
  matchingForwardingRules <-
    iterateForwardingRules data (rules forwardingRulesIterator)
      (failure forwardingRulesIterator) [] ;;
  match matchingForwardingRules with
  | [] => return_
  | _ :: _ :: _ =>
      Diagnostics_AddError "Multiple matching forwarding rules found"
        (forwardingRulesDebugMessage matchingForwardingRules) ;;
      return_
  | [rule] => ret rule
  end.

(** Lines 169-200: the URL map its target proxy refers to. *)
Definition lookupTarget (pd : GKEGatewayProviderData)
  (project : string) (region : types.String)
  (rule : computepb.ForwardingRule) : Exec string :=
  let targetComponents := strings.Split (computepb.GetTarget rule) "/" in
  kind <- index targetComponents (len targetComponents - 2) ;;
  if String.eqb kind "targetHttpsProxies" then
    name <- index targetComponents (len targetComponents - 1) ;;
    answer <- getTargetHttpsProxy pd project region name ;;
    match answer with
    | Err err =>
        Diagnostics_AddError
          ("Error looking up HTTPS target proxy " ++ name)
          ("Error calling Google API: " ++ error_text err) ;;
        return_
    | Ok proxy => ret (computepb.GetUrlMap proxy)
    end
  else
    Diagnostics_AddError "Unsupported target type for forwarding rule"
      ("The " ++ computepb.GetName rule
         ++ " forwarding rule has a target with a type of " ++ kind
         ++ " which is currently unsupported by this provider.") ;;
    return_.

(** Lines 202-222. *)
Definition lookupUrlMap (pd : GKEGatewayProviderData)
  (project : string) (region : types.String)
  (urlMapResource : string) : Exec computepb.UrlMap :=
  let urlMapComponents := strings.Split urlMapResource "/" in
  name <- index urlMapComponents (len urlMapComponents - 1) ;;
  answer <- getUrlMap pd project region name ;;
  match answer with
  | Err err =>
      Diagnostics_AddError ("Error looking up URL map " ++ name)
        ("Error calling Google API: " ++ error_text err) ;;
      return_
  | Ok urlMap => ret urlMap
  end.

(** Lines 224-268: the one backend service path the URL map makes
    eligible. *)
Definition selectBackendServicePath (urlMap : computepb.UrlMap)
  : Exec (option string) :=
  let backendServicePaths := eligibleBackendServicePaths urlMap in
  match backendServicePaths with
  | [] =>
      Diagnostics_AddError "No backend services found" EmptyString ;;
      return_
  | _ :: _ :: _ =>
      debugMessage <-
        backendServicesDebugMessage backendServicePaths
          ("The following backend services matched:" ++ nl ++ nl) ;;
      Diagnostics_AddError "Multiple backend services found" debugMessage ;;
      return_
  | [path] => ret path
  end.

(** Lines 270-298: the backend service is looked up and stored. *)
Definition lookupBackendService (pd : GKEGatewayProviderData)
  (data : BackendServiceDataSourceModel)
  (project : string) (region : types.String)
  (path : option string) : Exec unit :=
  p <- deref path ;;
  let backendServiceComponents := strings.Split p "/" in
  name <- index backendServiceComponents (len backendServiceComponents - 1) ;;
  answer <- getBackendService pd project region name ;;
  match answer with
  | Err err =>
      Diagnostics_AddError ("Error looking up backend service " ++ name)
        ("Error calling Google API: " ++ error_text err) ;;
      return_
  | Ok backendService =>
      (* Save data into Terraform state. *)
      diags <-
        State_Set
          {| BackendService :=
               Some {| ID := types.StringValue
                               (strconv.FormatUint
                                  (computepb.GetId backendService));
                       Name := types.StringValue
                                 (computepb.BackendService_GetName
                                    backendService) |};
             Gateway := Gateway data;
             Namespace := Namespace data;
             Project := Project data;
             Region := Region data |} ;;
      Diagnostics_Append diags
  end.

(** Lines 116-299, once the project and the region are settled. *)
Definition resolve (pd : GKEGatewayProviderData)
  (data : BackendServiceDataSourceModel)
  (project : string) (region : types.String) : Exec unit :=
  rule <- locateForwardingRule pd data project region ;;
  urlMapResource <- lookupTarget pd project region rule ;;
  urlMap <- lookupUrlMap pd project region urlMapResource ;;
  path <- selectBackendServicePath urlMap ;;
  lookupBackendService pd data project region path.

(** Lines 100-103 and 111-114: the project and the region in force. *)
Definition effectiveProject (pd : GKEGatewayProviderData)
  (data : BackendServiceDataSourceModel) : string :=
  if negb (types.IsNull (Project data))
  then types.ValueString (Project data)
  else types.ValueString (project pd).

Definition effectiveRegion (pd : GKEGatewayProviderData)
  (data : BackendServiceDataSourceModel) : types.String :=
  if negb (types.IsNull (Region data)) then Region data else region pd.

(** [func (d *BackendServiceDataSource) Read(ctx, req, resp)] *)
Definition Read (d : BackendServiceDataSource) (req : ReadRequest) : Exec unit :=
  let '(diags, data) := Config_Get req in
  (* Read Terraform configuration data into the model. *)
  Diagnostics_Append diags ;;
  hasError <- Diagnostics_HasError ;;
  if hasError : bool then return_ else
  pd <- deref (providerData d) ;;
  (* project can be set at the provider or data source level, the latter
     taking precedence, but ultimately required. *)
  if types.IsNull (project pd) && types.IsNull (Project data) then
    Diagnostics_AddError "Missing project"
      "The project field must be set on either the provider or data source." ;;
    return_
  else
  if types.IsUnknown (Project data) then
    Diagnostics_AddError "Unknown project"
      "The project field on the data source cannot be set to an unknown value" ;;
    return_
  else
  let project := effectiveProject pd data in
  (* region can be set at the provider, data source level, or not at all. *)
  if types.IsUnknown (Region data) then
    Diagnostics_AddError "Unknown region"
      "The region field on the data source cannot be set to an unknown value" ;;
    return_
  else
  let region := effectiveRegion pd data in
  resolve pd data project region.

(** The response [Read] is handed, and a whole execution of [Read]. *)
Definition start : Run :=
  {| resp := {| Diagnostics := []; State := None |}; calls := [] |}.

Definition run_Read (d : BackendServiceDataSource) (req : ReadRequest)
  : Flow unit * Run :=
  Read d req start.

(** ** The clients seen without the trace

    Which call a lookup makes for a project and a region, and what the API
    answers to it. *)

Definition listCall (project : string) (region : types.String) : ClientCall :=
  if types.IsNull region then GlobalForwardingRules_List project
  else ForwardingRules_List project (types.ValueString region).

Definition listAnswer (pd : GKEGatewayProviderData)
  (project : string) (region : types.String) : ForwardingRuleIterator :=
  if types.IsNull region then globalForwardingRulesClient pd project
  else forwardingRulesClient pd project (types.ValueString region).

Definition proxyCall (project : string) (region : types.String)
  (name : string) : ClientCall :=
  if types.IsNull region then TargetHttpsProxies_Get project name
  else RegionTargetHttpsProxies_Get project (types.ValueString region) name.

Definition proxyAnswer (pd : GKEGatewayProviderData)
  (project : string) (region : types.String) (name : string)
  : result computepb.TargetHttpsProxy :=
  if types.IsNull region then targetHttpsProxiesClient pd project name
  else regionTargetHttpsProxiesClient pd project (types.ValueString region) name.

Definition urlMapCall (project : string) (region : types.String)
  (name : string) : ClientCall :=
  if types.IsNull region then UrlMaps_Get project name
  else RegionUrlMaps_Get project (types.ValueString region) name.

Definition urlMapAnswer (pd : GKEGatewayProviderData)
  (project : string) (region : types.String) (name : string)
  : result computepb.UrlMap :=
  if types.IsNull region then urlMapsClient pd project name
  else regionUrlMapsClient pd project (types.ValueString region) name.

Definition backendServiceCall (project : string) (region : types.String)
  (name : string) : ClientCall :=
  if types.IsNull region then BackendServices_Get project name
  else RegionBackendServices_Get project (types.ValueString region) name.

Definition backendServiceAnswer (pd : GKEGatewayProviderData)
  (project : string) (region : types.String) (name : string)
  : result computepb.BackendService :=
  if types.IsNull region then backendServicesClient pd project name
  else regionBackendServicesClient pd project (types.ValueString region) name.

(** The run after one more client call, and after one more error. *)
Definition called (c : ClientCall) (w : Run) : Run :=
  {| resp := resp w; calls := calls w ++ [c] |}.

Definition failed (summary detail : string) (w : Run) : Run :=
  {| resp := {| Diagnostics :=
                  diag.AddError (Diagnostics (resp w)) summary detail;
                State := State (resp w) |};
     calls := calls w |}.

(** The last component of a path: [components[len(components)-1]] after
    [strings.Split(path, "/")]. *)
Definition lastSegment (path : string) : string :=
  last (strings.Split path "/") EmptyString.

(** The matching rules, in the order of the iteration. *)
Definition matchingRules (data : BackendServiceDataSourceModel)
  (it : ForwardingRuleIterator) : list computepb.ForwardingRule :=
  filter (matchesGateway data) (rules it).

(** ** The messages, line by line *)

(** One line of a message: the label of a candidate. *)
Definition line (label : string) : string := ("  - " ++ label ++ nl)%string.

(** The lines of the labels, one after the other. *)
Definition lines (labels : list string) : string :=
  String.concat EmptyString (map line labels).

(** ** The candidate paths of a URL map, as the specification lists them

    [spec_candidatePaths] follows the words of the specification; it is
    compared with [eligibleBackendServicePaths], which follows the code. *)

(** A default service, when there is one. *)
Definition present (service : option string) : list (option string) :=
  match service with
  | Some _ => [service]
  | None => []
  end.

(** The route actions reachable from a path matcher: its default, then
    those of its route rules. *)
Definition matcherRouteActions (matcher : computepb.PathMatcher)
  : list (option computepb.HttpRouteAction) :=
  computepb.pm_DefaultRouteAction matcher
    :: map computepb.RouteAction (computepb.RouteRules matcher).

(** Every route action reachable from the URL map. *)
Definition collectedRouteActions (urlMap : computepb.UrlMap)
  : list (option computepb.HttpRouteAction) :=
  computepb.DefaultRouteAction urlMap
    :: flat_map matcherRouteActions (computepb.PathMatchers urlMap).

(** What a collected route action contributes: nothing when it is absent
    or carries a fault injection policy, else the paths of its weighted
    backend services. *)
Definition contribution (action : option computepb.HttpRouteAction)
  : list (option string) :=
  match action with
  | None => []
  | Some a =>
      match computepb.FaultInjectionPolicy a with
      | Some _ => []
      | None =>
          map computepb.wbs_BackendService (computepb.WeightedBackendServices a)
      end
  end.

Definition spec_candidatePaths (urlMap : computepb.UrlMap)
  : list (option string) :=
  present (computepb.DefaultService urlMap)
    ++ flat_map (fun matcher => present (computepb.pm_DefaultService matcher))
         (computepb.PathMatchers urlMap)
    ++ flat_map contribution (collectedRouteActions urlMap).

(** ** The trace of client calls *)

(** Every call [m] adds to the trace satisfies [P]. *)
Definition only_calls (P : ClientCall -> Prop) {A} (m : Exec A) : Prop :=
  forall w, Forall P (calls w) -> Forall P (calls (snd (m w))).

(** The project and the region a call is made for; a call of a global
    client has no region. *)
Definition call_project (c : ClientCall) : string :=
  match c with
  | GlobalForwardingRules_List p | ForwardingRules_List p _
  | TargetHttpsProxies_Get p _ | RegionTargetHttpsProxies_Get p _ _
  | UrlMaps_Get p _ | RegionUrlMaps_Get p _ _
  | BackendServices_Get p _ | RegionBackendServices_Get p _ _ => p
  end.

Definition call_region (c : ClientCall) : option string :=
  match c with
  | GlobalForwardingRules_List _ | TargetHttpsProxies_Get _ _
  | UrlMaps_Get _ _ | BackendServices_Get _ _ => None
  | ForwardingRules_List _ r | RegionTargetHttpsProxies_Get _ r _
  | RegionUrlMaps_Get _ r _ | RegionBackendServices_Get _ r _ => Some r
  end.

(** Whether a call goes to the regional variant of its client. *)
Definition regional (c : ClientCall) : bool :=
  match call_region c with Some _ => true | None => false end.

(** The region of the calls of a resolution in [region]. *)
Definition scope_region (region : types.String) : option string :=
  if types.IsNull region then None else Some (types.ValueString region).

Definition in_scope (project : string) (region : types.String)
  (c : ClientCall) : Prop :=
  call_project c = project /\ call_region c = scope_region region.

(** ** Requests and outcomes *)

(** The data source after [Configure] has stored the provider data. *)
Definition configured (pd : GKEGatewayProviderData) : BackendServiceDataSource :=
  {| providerData := Some pd |}.

(** A request whose configuration was read without any diagnostic. *)
Definition decoded (data : BackendServiceDataSourceModel) : ReadRequest :=
  {| Config_Get := ([], data) |}.

(** A project is set and neither the project nor the region of the data
    source is unknown. *)
Definition settled (pd : GKEGatewayProviderData)
  (data : BackendServiceDataSourceModel) : bool :=
  negb (types.IsNull (project pd) && types.IsNull (Project data))
  && negb (types.IsUnknown (Project data))
  && negb (types.IsUnknown (Region data)).

(** The run in which the resolution starts: only the diagnostics of the
    configuration are there. *)
Definition entered (diags : diag.Diagnostics) : Run :=
  {| resp := {| Diagnostics := diag.Append [] diags; State := None |};
     calls := [] |}.

(** [Read] returned without state and without diagnostics, after the
    calls [cs]. *)
Definition emptySuccess (cs : list ClientCall) : Flow unit * Run :=
  (Returned,
   {| resp := {| Diagnostics := []; State := None |}; calls := cs |}).

(** [Read] returned without state, with one error diagnostic, after the
    calls [cs]. *)
Definition failure_with (summary detail : string) (cs : list ClientCall)
  : Flow unit * Run :=
  (Returned,
   {| resp := {| Diagnostics := [diag.NewErrorDiagnostic summary detail];
                 State := None |};
      calls := cs |}).

(** [Read] went to its end: the state holds the backend service, there is
    no diagnostic. *)
Definition resolved (data : BackendServiceDataSourceModel)
  (id name : string) (cs : list ClientCall) : Flow unit * Run :=
  (Continue tt,
   {| resp :=
        {| Diagnostics := [];
           State :=
             Some {| BackendService :=
                       Some {| ID := types.StringValue id;
                               Name := types.StringValue name |};
                     Gateway := Gateway data;
                     Namespace := Namespace data;
                     Project := Project data;
                     Region := Region data |} |};
      calls := cs |}).

(** The key a forwarding rule of the gateway carries. *)
Definition correlationKey (data : BackendServiceDataSourceModel) : string :=
  "/namespaces/" ++ types.ValueString (Namespace data)
    ++ "/gateways/" ++ types.ValueString (Gateway data).

(** ** Descriptions written by GKE

    The names of Kubernetes namespaces and gateways are made of ASCII
    letters, digits and dashes.  A [plain] string holds only printable ASCII
    bytes other than the quote and the backslash: a JSON string literal
    stands for it as it is. *)

Definition plain_byte (c : ascii) : bool :=
  in_range 32 127 c && negb (Ascii.eqb c json.dquote) && negb (Ascii.eqb c "\").

Fixpoint plain (s : string) : bool :=
  match s with
  | EmptyString => true
  | String c r => plain_byte c && plain r
  end.

(** ** A small cloud to run [Read] on *)

Definition quoted (s : string) : string :=
  String json.dquote (s ++ String json.dquote EmptyString).

(** The description GKE writes on the forwarding rule of a gateway. *)
Definition gatewayDescription (k8sResource : string) : string :=
  "{" ++ quoted "k8sResource" ++ ":" ++ quoted k8sResource ++ "}".

Definition forwardingRule (name description target : string)
  : computepb.ForwardingRule :=
  {| computepb.fr_Description := Some description;
     computepb.fr_Name := Some name;
     computepb.fr_Target := Some target |}.

(** A provider without project and region whose clients, global and
    regional alike, list [it], find a proxy referring to [url-map-1],
    answer [urlMap] for every URL map and find every backend service, with
    the id 4711. *)
Definition cloud (it : ForwardingRuleIterator)
  (urlMap : result computepb.UrlMap) : GKEGatewayProviderData :=
  let proxy :=
    Ok {| computepb.thp_UrlMap :=
            Some "https://www.googleapis.com/compute/v1/projects/my-gcp-project/global/urlMaps/url-map-1" |} in
  let service name :=
    Ok {| computepb.bs_Id := Some 4711%N; computepb.bs_Name := Some name |} in
  {| backendServicesClient := fun _ name => service name;
     forwardingRulesClient := fun _ _ => it;
     globalForwardingRulesClient := fun _ => it;
     project := types.StringNull;
     region := types.StringNull;
     regionBackendServicesClient := fun _ _ name => service name;
     regionTargetHttpsProxiesClient := fun _ _ _ => proxy;
     regionUrlMapsClient := fun _ _ _ => urlMap;
     targetHttpsProxiesClient := fun _ _ => proxy;
     urlMapsClient := fun _ _ => urlMap |}.

Definition listing (l : list computepb.ForwardingRule) : ForwardingRuleIterator :=
  {| rules := l; failure := None |}.

(** The configuration of the README: gateway [my-gateway-name] of the
    namespace [my-cool-app] in the project [my-gcp-project]. *)
Definition gatewayRequest (region : types.String)
  : BackendServiceDataSourceModel :=
  {| BackendService := None;
     Gateway := types.StringValue "my-gateway-name";
     Namespace := types.StringValue "my-cool-app";
     Project := types.StringValue "my-gcp-project";
     Region := region |}.

Definition gatewayKey : string :=
  "/namespaces/my-cool-app/gateways/my-gateway-name".

Definition httpsTarget : string :=
  "https://www.googleapis.com/compute/v1/projects/my-gcp-project/global/targetHttpsProxies/proxy-1".

Definition fr_1 : computepb.ForwardingRule :=
  forwardingRule "fr-1" (gatewayDescription gatewayKey) httpsTarget.

Definition serviceUrlMap (defaultService : option string)
  (matchers : list computepb.PathMatcher) : computepb.UrlMap :=
  {| computepb.DefaultRouteAction := None;
     computepb.DefaultService := defaultService;
     computepb.PathMatchers := matchers |}.

Definition svc_1 : string :=
  "https://www.googleapis.com/compute/v1/projects/my-gcp-project/global/backendServices/svc-1".

Definition svc_2 : string :=
  "https://www.googleapis.com/compute/v1/projects/my-gcp-project/global/backendServices/svc-2".

Definition bareUrlMap : computepb.UrlMap := serviceUrlMap None [].

Definition failingListing (err : error) : ForwardingRuleIterator :=
  {| rules := [fr_1]; failure := Some err |}.

Definition tcpRule : computepb.ForwardingRule :=
  forwardingRule "fr-tcp" (gatewayDescription gatewayKey)
    "projects/my-gcp-project/global/targetTcpProxies/p1".

Definition bareTargetRule : computepb.ForwardingRule :=
  forwardingRule "fr-bare" (gatewayDescription gatewayKey) "proxy-1".

Definition fr_a : computepb.ForwardingRule :=
  forwardingRule "fr-a" (gatewayDescription gatewayKey) httpsTarget.

Definition fr_b : computepb.ForwardingRule :=
  forwardingRule "fr-b" (gatewayDescription gatewayKey) httpsTarget.

Definition twoServicesUrlMap : computepb.UrlMap :=
  serviceUrlMap (Some svc_1)
    [ {| computepb.pm_DefaultRouteAction := None;
         computepb.pm_DefaultService := Some svc_2;
         computepb.RouteRules := [] |} ].

(** Descriptions that do not name the gateway of [gatewayRequest]: no JSON
    text, no k8sResource member, a value that is a proper prefix of the
    key, one that is a proper suffix, one that extends the key, and one
    that differs from it by the case of a letter. *)
Definition strayRules : list computepb.ForwardingRule :=
  [ forwardingRule "plain" "my load balancer" httpsTarget;
    {| computepb.fr_Description := None;
       computepb.fr_Name := Some "none";
       computepb.fr_Target := Some httpsTarget |};
    forwardingRule "other"
      ("{" ++ quoted "kind" ++ ":" ++ quoted gatewayKey ++ "}") httpsTarget;
    forwardingRule "prefix"
      (gatewayDescription "/namespaces/my-cool-app/gateways/my-gateway")
      httpsTarget;
    forwardingRule "suffix"
      (gatewayDescription "my-cool-app/gateways/my-gateway-name") httpsTarget;
    forwardingRule "longer"
      (gatewayDescription "/namespaces/my-cool-app/gateways/my-gateway-name-2")
      httpsTarget;
    forwardingRule "case"
      (gatewayDescription "/namespaces/my-cool-app/gateways/My-Gateway-Name")
      httpsTarget ].

(** A provider configured with a project and a region. *)
Definition providerDefaults (pd : GKEGatewayProviderData)
  (p r : types.String) : GKEGatewayProviderData :=
  {| backendServicesClient := backendServicesClient pd;
     forwardingRulesClient := forwardingRulesClient pd;
     globalForwardingRulesClient := globalForwardingRulesClient pd;
     project := p;
     region := r;
     regionBackendServicesClient := regionBackendServicesClient pd;
     regionTargetHttpsProxiesClient := regionTargetHttpsProxiesClient pd;
     regionUrlMapsClient := regionUrlMapsClient pd;
     targetHttpsProxiesClient := targetHttpsProxiesClient pd;
     urlMapsClient := urlMapsClient pd |}.


Definition defaultsCloud : GKEGatewayProviderData :=
  providerDefaults (cloud (listing [fr_1]) (Ok bareUrlMap))
    (types.StringValue "provider-project") (types.StringValue "europe-west1").

(** ** Every way [Read] can end

    [Outcome pd data project region w out]: the resolution started in the
    run [w] ends as [out].  One constructor per exit of lines 116-299, with
    the answers of the clients that lead to it. *)

(** The listing ended without error and [rule] is the one match. *)
Definition Located (pd : GKEGatewayProviderData)
  (data : BackendServiceDataSourceModel)
  (project : string) (region : types.String)
  (rule : computepb.ForwardingRule) : Prop :=
  failure (listAnswer pd project region) = None
  /\ matchingRules data (listAnswer pd project region) = [rule].

(** Moreover its target names the HTTPS proxy [proxyName]. *)
Definition Targeted (pd : GKEGatewayProviderData)
  (data : BackendServiceDataSourceModel)
  (project : string) (region : types.String)
  (rule : computepb.ForwardingRule) (proxyName : string) : Prop :=
  Located pd data project region rule
  /\ exists pre,
       strings.Split (computepb.GetTarget rule) "/"
       = pre ++ ["targetHttpsProxies"; proxyName].

(** Moreover the proxy is found and refers to the URL map [urlMapName]. *)
Definition Proxied (pd : GKEGatewayProviderData)
  (data : BackendServiceDataSourceModel)
  (project : string) (region : types.String)
  (rule : computepb.ForwardingRule) (proxyName urlMapName : string) : Prop :=
  Targeted pd data project region rule proxyName
  /\ exists proxy,
       proxyAnswer pd project region proxyName = Ok proxy
       /\ urlMapName = lastSegment (computepb.GetUrlMap proxy).

(** Moreover the URL map is found. *)
Definition Mapped (pd : GKEGatewayProviderData)
  (data : BackendServiceDataSourceModel)
  (project : string) (region : types.String)
  (rule : computepb.ForwardingRule) (proxyName urlMapName : string)
  (urlMap : computepb.UrlMap) : Prop :=
  Proxied pd data project region rule proxyName urlMapName
  /\ urlMapAnswer pd project region urlMapName = Ok urlMap.

(** The state [Read] stores for the backend service it fetched. *)
Definition storedModel (data : BackendServiceDataSourceModel)
  (backendService : computepb.BackendService) : BackendServiceDataSourceModel :=
  {| BackendService :=
       Some {| ID := types.StringValue
                       (strconv.FormatUint (computepb.GetId backendService));
               Name := types.StringValue
                         (computepb.BackendService_GetName backendService) |};
     Gateway := Gateway data;
     Namespace := Namespace data;
     Project := Project data;
     Region := Region data |}.

(** The run [w] with the state stored. *)
Definition stored (st : BackendServiceDataSourceModel) (w : Run) : Run :=
  {| resp := {| Diagnostics := Diagnostics (resp w); State := Some st |};
     calls := calls w |}.

Inductive Outcome (pd : GKEGatewayProviderData)
  (data : BackendServiceDataSourceModel)
  (project : string) (region : types.String) (w : Run)
  : Flow unit * Run -> Prop :=
| scope_absent err :
    failure (listAnswer pd project region) = Some err ->
    is404 err = true ->
    Outcome pd data project region w
      (Returned, called (listCall project region) w)
| iteration_failed err :
    failure (listAnswer pd project region) = Some err ->
    is404 err = false ->
    Outcome pd data project region w
      (Returned,
       failed "Unable to iterate over forwarding rules"
         ("Error calling Google API: " ++ error_text err)
         (called (listCall project region) w))
| no_rule :
    failure (listAnswer pd project region) = None ->
    matchingRules data (listAnswer pd project region) = [] ->
    Outcome pd data project region w
      (Returned, called (listCall project region) w)
| many_rules a b rest :
    failure (listAnswer pd project region) = None ->
    matchingRules data (listAnswer pd project region) = a :: b :: rest ->
    Outcome pd data project region w
      (Returned,
       failed "Multiple matching forwarding rules found"
         (forwardingRulesDebugMessage (a :: b :: rest))
         (called (listCall project region) w))
| target_panic rule :
    Located pd data project region rule ->
    strings.Contains (computepb.GetTarget rule) "/" = false ->
    Outcome pd data project region w
      (Panicked (IndexOutOfRange (-1) 1), called (listCall project region) w)
| unsupported rule pre kind name :
    Located pd data project region rule ->
    strings.Split (computepb.GetTarget rule) "/" = pre ++ [kind; name] ->
    String.eqb kind "targetHttpsProxies" = false ->
    Outcome pd data project region w
      (Returned,
       failed "Unsupported target type for forwarding rule"
         ("The " ++ computepb.GetName rule
            ++ " forwarding rule has a target with a type of " ++ kind
            ++ " which is currently unsupported by this provider.")
         (called (listCall project region) w))
| proxy_failed rule proxyName err :
    Targeted pd data project region rule proxyName ->
    proxyAnswer pd project region proxyName = Err err ->
    Outcome pd data project region w
      (Returned,
       failed ("Error looking up HTTPS target proxy " ++ proxyName)
         ("Error calling Google API: " ++ error_text err)
         (called (proxyCall project region proxyName)
            (called (listCall project region) w)))
| urlMap_failed rule proxyName urlMapName err :
    Proxied pd data project region rule proxyName urlMapName ->
    urlMapAnswer pd project region urlMapName = Err err ->
    Outcome pd data project region w
      (Returned,
       failed ("Error looking up URL map " ++ urlMapName)
         ("Error calling Google API: " ++ error_text err)
         (called (urlMapCall project region urlMapName)
            (called (proxyCall project region proxyName)
               (called (listCall project region) w))))
| no_service rule proxyName urlMapName urlMap :
    Mapped pd data project region rule proxyName urlMapName urlMap ->
    eligibleBackendServicePaths urlMap = [] ->
    Outcome pd data project region w
      (Returned,
       failed "No backend services found" EmptyString
         (called (urlMapCall project region urlMapName)
            (called (proxyCall project region proxyName)
               (called (listCall project region) w))))
| many_services rule proxyName urlMapName urlMap p1 p2 ps :
    Mapped pd data project region rule proxyName urlMapName urlMap ->
    eligibleBackendServicePaths urlMap = map Some (p1 :: p2 :: ps) ->
    Outcome pd data project region w
      (Returned,
       failed "Multiple backend services found"
         (("The following backend services matched:" ++ nl ++ nl)
            ++ lines (map lastSegment (p1 :: p2 :: ps)))
         (called (urlMapCall project region urlMapName)
            (called (proxyCall project region proxyName)
               (called (listCall project region) w))))
| path_panic rule proxyName urlMapName urlMap before after :
    Mapped pd data project region rule proxyName urlMapName urlMap ->
    eligibleBackendServicePaths urlMap = map Some before ++ None :: after ->
    Outcome pd data project region w
      (Panicked NilDereference,
       called (urlMapCall project region urlMapName)
         (called (proxyCall project region proxyName)
            (called (listCall project region) w)))
| service_failed rule proxyName urlMapName urlMap path err :
    Mapped pd data project region rule proxyName urlMapName urlMap ->
    eligibleBackendServicePaths urlMap = [Some path] ->
    backendServiceAnswer pd project region (lastSegment path) = Err err ->
    Outcome pd data project region w
      (Returned,
       failed ("Error looking up backend service " ++ lastSegment path)
         ("Error calling Google API: " ++ error_text err)
         (called (backendServiceCall project region (lastSegment path))
            (called (urlMapCall project region urlMapName)
               (called (proxyCall project region proxyName)
                  (called (listCall project region) w)))))
| service_stored rule proxyName urlMapName urlMap path backendService :
    Mapped pd data project region rule proxyName urlMapName urlMap ->
    eligibleBackendServicePaths urlMap = [Some path] ->
    backendServiceAnswer pd project region (lastSegment path)
    = Ok backendService ->
    Outcome pd data project region w
      (Continue tt,
       stored (storedModel data backendService)
         (called (backendServiceCall project region (lastSegment path))
            (called (urlMapCall project region urlMapName)
               (called (proxyCall project region proxyName)
                  (called (listCall project region) w))))).

(** The response before [Read] resolves anything: the diagnostics of the
    configuration, each once. *)
Definition configDiagnostics (diags : diag.Diagnostics) : diag.Diagnostics :=
  diag.Append [] diags.

(** The four calls of a complete resolution, in the order of the
    pipeline. *)
Definition pipelineCalls (project : string) (region : types.String)
  (proxyName urlMapName serviceName : string) : list ClientCall :=
  [listCall project region;
   proxyCall project region proxyName;
   urlMapCall project region urlMapName;
   backendServiceCall project region serviceName].

(** A provider as [cloud], answering [proxy] for every proxy, [urlMap] for
    every URL map and [service name] for the backend service [name]. *)
Definition cloudAnswering (it : ForwardingRuleIterator)
  (proxy : result computepb.TargetHttpsProxy)
  (urlMap : result computepb.UrlMap)
  (service : string -> result computepb.BackendService)
  : GKEGatewayProviderData :=
  {| backendServicesClient := fun _ name => service name;
     forwardingRulesClient := fun _ _ => it;
     globalForwardingRulesClient := fun _ => it;
     project := types.StringNull;
     region := types.StringNull;
     regionBackendServicesClient := fun _ _ name => service name;
     regionTargetHttpsProxiesClient := fun _ _ _ => proxy;
     regionUrlMapsClient := fun _ _ _ => urlMap;
     targetHttpsProxiesClient := fun _ _ => proxy;
     urlMapsClient := fun _ _ => urlMap |}.

Definition proxy_1 : computepb.TargetHttpsProxy :=
  {| computepb.thp_UrlMap :=
       Some "https://www.googleapis.com/compute/v1/projects/my-gcp-project/global/urlMaps/url-map-1" |}.

Definition notFound : error := APIError 404 "googleapi: Error 404: not found".

(** A URL map whose default route action splits the traffic between
    [svc-1] and a weighted backend service without backend service. *)
Definition unsetWeightUrlMap : computepb.UrlMap :=
  {| computepb.DefaultRouteAction :=
       Some {| computepb.FaultInjectionPolicy := None;
               computepb.WeightedBackendServices :=
                 [ {| computepb.wbs_BackendService := Some svc_1;
                      computepb.Weight := Some 90%N |};
                   {| computepb.wbs_BackendService := None;
                      computepb.Weight := Some 10%N |} ] |};
     computepb.DefaultService := None;
     computepb.PathMatchers := [] |}.

(** The provider [pd] with [it] for the listing of its forwarding rules,
    global and regional. *)
Definition withForwardingRules (pd : GKEGatewayProviderData)
  (it : ForwardingRuleIterator) : GKEGatewayProviderData :=
  {| backendServicesClient := backendServicesClient pd;
     forwardingRulesClient := fun _ _ => it;
     globalForwardingRulesClient := fun _ => it;
     project := project pd;
     region := region pd;
     regionBackendServicesClient := regionBackendServicesClient pd;
     regionTargetHttpsProxiesClient := regionTargetHttpsProxiesClient pd;
     regionUrlMapsClient := regionUrlMapsClient pd;
     targetHttpsProxiesClient := targetHttpsProxiesClient pd;
     urlMapsClient := urlMapsClient pd |}.

(** A request for the gateway [gateway] of the namespace [namespace]. *)
Definition requestFor (namespace gateway : string)
  : BackendServiceDataSourceModel :=
  {| BackendService := None;
     Gateway := types.StringValue gateway;
     Namespace := types.StringValue namespace;
     Project := types.StringValue "my-gcp-project";
     Region := types.StringNull |}.

Definition warning : diag.Diagnostic :=
  {| diag.severity := diag.SeverityWarning;
     diag.Summary := "Deprecated attribute";
     diag.Detail := "The attribute is deprecated." |}.

Definition invalidGateway : diag.Diagnostic :=
  diag.NewErrorDiagnostic "Invalid attribute" "The gateway is not a string.".

Definition unknownProjectRequest : BackendServiceDataSourceModel :=
  {| BackendService := None;
     Gateway := types.StringValue "my-gateway-name";
     Namespace := types.StringValue "my-cool-app";
     Project := types.StringUnknown;
     Region := types.StringNull |}.


(** ** The provider ([provider.go]) and [Configure] of the data source *)

Record GKEGatewayProvider := { version : string }.

Module GKEGatewayProviderModel.

Record t := {
  Project : types.String;
  Region : types.String
}.

End GKEGatewayProviderModel.

(** A value of type [any], as [Configure] tells them apart: the nil
    interface, a [*GKEGatewayProviderData] (itself nil or not), or a value
    of another type, [T] being what [%T] prints for it. *)
Inductive any :=
| any_nil
| any_GKEGatewayProviderData (p : option GKEGatewayProviderData)
| any_other (T : string).

(** The constructors of the REST clients ([compute.New...RESTClient]): each
    answers a client or an error. *)
Module compute.

Record REST := {
  NewBackendServicesRESTClient :
    result (string -> string -> result computepb.BackendService);
  NewForwardingRulesRESTClient :
    result (string -> string -> ForwardingRuleIterator);
  NewGlobalForwardingRulesRESTClient :
    result (string -> ForwardingRuleIterator);
  NewRegionBackendServicesRESTClient :
    result (string -> string -> string -> result computepb.BackendService);
  NewRegionTargetHttpsProxiesRESTClient :
    result (string -> string -> string -> result computepb.TargetHttpsProxy);
  NewRegionUrlMapsRESTClient :
    result (string -> string -> string -> result computepb.UrlMap);
  NewTargetHttpsProxiesRESTClient :
    result (string -> string -> result computepb.TargetHttpsProxy);
  NewUrlMapsRESTClient : result (string -> string -> result computepb.UrlMap)
}.

End compute.

(** One invocation of a constructor. *)
Inductive Constructor :=
| BackendServicesREST
| ForwardingRulesREST
| GlobalForwardingRulesREST
| RegionBackendServicesREST
| RegionTargetHttpsProxiesREST
| RegionUrlMapsREST
| TargetHttpsProxiesREST
| UrlMapsREST.

Module provider.

(** [provider.ConfigureResponse] *)
Record ConfigureResponse := {
  Diagnostics : diag.Diagnostics;
  DataSourceData : any;
  ResourceData : any
}.

End provider.

(** [provider.ConfigureRequest]: what [req.Config.Get(ctx, &data)]
    answers. *)
Record ConfigureRequest := {
  Provider_Config_Get : diag.Diagnostics * GKEGatewayProviderModel.t
}.

(** The response of [Configure] when it returns after an error: nothing
    is handed to the data sources. *)
Definition configureError (diags : diag.Diagnostics)
  (summary detail : string) : provider.ConfigureResponse :=
  {| provider.Diagnostics := diag.AddError diags summary detail;
     provider.DataSourceData := any_nil;
     provider.ResourceData := any_nil |}.

(** [func (p *GKEGatewayProvider) Configure(ctx, req, resp)], with the
    constructors it has invoked, in order. *)
Definition Provider_Configure (p : GKEGatewayProvider) (env : compute.REST)
  (req : ConfigureRequest) : provider.ConfigureResponse * list Constructor :=
  let '(configDiags, data) := Provider_Config_Get req in
  let diags := diag.Append [] configDiags in
  if diag.HasError diags then
    ({| provider.Diagnostics := diags;
        provider.DataSourceData := any_nil;
        provider.ResourceData := any_nil |}, [])
  else if types.IsUnknown (GKEGatewayProviderModel.Project data) then
    (configureError diags "Unknown project"
       "The project field on the provider cannot be set to an unknown value",
     [])
  else if types.IsUnknown (GKEGatewayProviderModel.Region data) then
    (configureError diags "Unknown region"
       "The region field on the provider cannot be set to an unknown value",
     [])
  else
  match compute.NewBackendServicesRESTClient env with
  | Err err =>
      (configureError diags "Unable to configure provider"
         ("Error setting up Google BackendServices : " ++ error_text err),
       [BackendServicesREST])
  | Ok backendServicesClient =>
  match compute.NewForwardingRulesRESTClient env with
  | Err err =>
      (configureError diags "Unable to configure provider"
         ("Error setting up Google Forwarding Rules client: "
            ++ error_text err),
       [BackendServicesREST; ForwardingRulesREST])
  | Ok forwardingRulesClient =>
  match compute.NewGlobalForwardingRulesRESTClient env with
  | Err err =>
      (configureError diags "Unable to configure provider"
         ("Error setting up Google Global Forwarding Rules client: "
            ++ error_text err),
       [BackendServicesREST; ForwardingRulesREST; GlobalForwardingRulesREST])
  | Ok globalForwardingRulesClient =>
  match compute.NewRegionBackendServicesRESTClient env with
  | Err err =>
      (configureError diags "Unable to configure provider"
         ("Error setting up Google Regional Backend Services client: "
            ++ error_text err),
       [BackendServicesREST; ForwardingRulesREST; GlobalForwardingRulesREST;
        RegionBackendServicesREST])
  | Ok regionBackendServicesClient =>
  match compute.NewRegionTargetHttpsProxiesRESTClient env with
  | Err err =>
      (configureError diags "Unable to configure provider"
         ("Error setting up Google Regional Target HTTPS Proxies client: "
            ++ error_text err),
       [BackendServicesREST; ForwardingRulesREST; GlobalForwardingRulesREST;
        RegionBackendServicesREST; RegionTargetHttpsProxiesREST])
  | Ok regionTargetHttpsProxiesClient =>
  match compute.NewRegionUrlMapsRESTClient env with
  | Err err =>
      (configureError diags "Unable to configure provider"
         ("Error setting up Google Regional URL Maps client: "
            ++ error_text err),
       [BackendServicesREST; ForwardingRulesREST; GlobalForwardingRulesREST;
        RegionBackendServicesREST; RegionTargetHttpsProxiesREST;
        RegionUrlMapsREST])
  | Ok regionUrlMapsClient =>
  match compute.NewTargetHttpsProxiesRESTClient env with
  | Err err =>
      (configureError diags "Unable to configure provider"
         ("Error setting up Google Target HTTPS Proxies client: "
            ++ error_text err),
       [BackendServicesREST; ForwardingRulesREST; GlobalForwardingRulesREST;
        RegionBackendServicesREST; RegionTargetHttpsProxiesREST;
        RegionUrlMapsREST; TargetHttpsProxiesREST])
  | Ok targetHttpsProxiesClient =>
  match compute.NewUrlMapsRESTClient env with
  | Err err =>
      (configureError diags "Unable to configure provider"
         ("Error setting up Google URL Maps client: " ++ error_text err),
       [BackendServicesREST; ForwardingRulesREST; GlobalForwardingRulesREST;
        RegionBackendServicesREST; RegionTargetHttpsProxiesREST;
        RegionUrlMapsREST; TargetHttpsProxiesREST; UrlMapsREST])
  | Ok urlMapsClient =>
      let providerData :=
        {| backendServicesClient := backendServicesClient;
           forwardingRulesClient := forwardingRulesClient;
           globalForwardingRulesClient := globalForwardingRulesClient;
           project := GKEGatewayProviderModel.Project data;
           region := GKEGatewayProviderModel.Region data;
           regionBackendServicesClient := regionBackendServicesClient;
           regionTargetHttpsProxiesClient := regionTargetHttpsProxiesClient;
           regionUrlMapsClient := regionUrlMapsClient;
           targetHttpsProxiesClient := targetHttpsProxiesClient;
           urlMapsClient := urlMapsClient |} in
      ({| provider.Diagnostics := diags;
          provider.DataSourceData :=
            any_GKEGatewayProviderData (Some providerData);
          provider.ResourceData :=
            any_GKEGatewayProviderData (Some providerData) |},
       [BackendServicesREST; ForwardingRulesREST; GlobalForwardingRulesREST;
        RegionBackendServicesREST; RegionTargetHttpsProxiesREST;
        RegionUrlMapsREST; TargetHttpsProxiesREST; UrlMapsREST])
  end end end end end end end end.

(** [func NewBackendServiceDataSource() datasource.DataSource] *)
Definition NewBackendServiceDataSource (_ : unit) : BackendServiceDataSource :=
  {| providerData := None |}.

(** [func (d *BackendServiceDataSource) Configure(ctx, req, resp)]: the
    data source and the diagnostics of the response after the call, from
    those before it and [req.ProviderData]. *)
Definition DataSource_Configure (d : BackendServiceDataSource)
  (ProviderData : any) (diags : diag.Diagnostics)
  : BackendServiceDataSource * diag.Diagnostics :=
  match ProviderData with
  | any_nil => (d, diags)
  | any_GKEGatewayProviderData data => ({| providerData := data |}, diags)
  | any_other T =>
      (d,
       diag.AddError diags "Unexpected Data Source Configure Type"
         ("Expected *GKEGatewayProviderData, got: " ++ T
            ++ ". Please report this issue to the provider developers."))
  end.

(** The constructors in the order [Configure] invokes them, what each
    answered, and the words of its error. *)
Definition constructorsInOrder : list Constructor :=
  [BackendServicesREST; ForwardingRulesREST; GlobalForwardingRulesREST;
   RegionBackendServicesREST; RegionTargetHttpsProxiesREST;
   RegionUrlMapsREST; TargetHttpsProxiesREST; UrlMapsREST].

Definition failed_with {A} (r : result A) : option error :=
  match r with Ok _ => None | Err err => Some err end.

Definition attempt (env : compute.REST) (c : Constructor) : option error :=
  match c with
  | BackendServicesREST => failed_with (compute.NewBackendServicesRESTClient env)
  | ForwardingRulesREST => failed_with (compute.NewForwardingRulesRESTClient env)
  | GlobalForwardingRulesREST =>
      failed_with (compute.NewGlobalForwardingRulesRESTClient env)
  | RegionBackendServicesREST =>
      failed_with (compute.NewRegionBackendServicesRESTClient env)
  | RegionTargetHttpsProxiesREST =>
      failed_with (compute.NewRegionTargetHttpsProxiesRESTClient env)
  | RegionUrlMapsREST => failed_with (compute.NewRegionUrlMapsRESTClient env)
  | TargetHttpsProxiesREST =>
      failed_with (compute.NewTargetHttpsProxiesRESTClient env)
  | UrlMapsREST => failed_with (compute.NewUrlMapsRESTClient env)
  end.

Definition setupMessage (c : Constructor) : string :=
  match c with
  | BackendServicesREST => "Error setting up Google BackendServices : "
  | ForwardingRulesREST => "Error setting up Google Forwarding Rules client: "
  | GlobalForwardingRulesREST =>
      "Error setting up Google Global Forwarding Rules client: "
  | RegionBackendServicesREST =>
      "Error setting up Google Regional Backend Services client: "
  | RegionTargetHttpsProxiesREST =>
      "Error setting up Google Regional Target HTTPS Proxies client: "
  | RegionUrlMapsREST => "Error setting up Google Regional URL Maps client: "
  | TargetHttpsProxiesREST =>
      "Error setting up Google Target HTTPS Proxies client: "
  | UrlMapsREST => "Error setting up Google URL Maps client: "
  end.

Definition Constructor_eqb (a b : Constructor) : bool :=
  match a, b with
  | BackendServicesREST, BackendServicesREST
  | ForwardingRulesREST, ForwardingRulesREST
  | GlobalForwardingRulesREST, GlobalForwardingRulesREST
  | RegionBackendServicesREST, RegionBackendServicesREST
  | RegionTargetHttpsProxiesREST, RegionTargetHttpsProxiesREST
  | RegionUrlMapsREST, RegionUrlMapsREST
  | TargetHttpsProxiesREST, TargetHttpsProxiesREST
  | UrlMapsREST, UrlMapsREST => true
  | _, _ => false
  end.

(** The constructors [Configure] invokes before [c]. *)
Fixpoint upTo (c : Constructor) (l : list Constructor) : list Constructor :=
  match l with
  | [] => []
  | x :: r => if Constructor_eqb x c then [] else x :: upTo c r
  end.

Definition constructorsBefore (c : Constructor) : list Constructor :=
  upTo c constructorsInOrder.

(** An environment in which every constructor succeeds, giving the
    clients of [pd]. *)
Definition workingREST (pd : GKEGatewayProviderData) : compute.REST :=
  {| compute.NewBackendServicesRESTClient := Ok (backendServicesClient pd);
     compute.NewForwardingRulesRESTClient := Ok (forwardingRulesClient pd);
     compute.NewGlobalForwardingRulesRESTClient :=
       Ok (globalForwardingRulesClient pd);
     compute.NewRegionBackendServicesRESTClient :=
       Ok (regionBackendServicesClient pd);
     compute.NewRegionTargetHttpsProxiesRESTClient :=
       Ok (regionTargetHttpsProxiesClient pd);
     compute.NewRegionUrlMapsRESTClient := Ok (regionUrlMapsClient pd);
     compute.NewTargetHttpsProxiesRESTClient := Ok (targetHttpsProxiesClient pd);
     compute.NewUrlMapsRESTClient := Ok (urlMapsClient pd) |}.

Definition noCredentials : error :=
  OtherError "google: could not find default credentials".

(** An environment in which the clients of the regional target HTTPS
    proxies and of the URL maps cannot be set up. *)
Definition brokenREST (pd : GKEGatewayProviderData) : compute.REST :=
  {| compute.NewBackendServicesRESTClient := Ok (backendServicesClient pd);
     compute.NewForwardingRulesRESTClient := Ok (forwardingRulesClient pd);
     compute.NewGlobalForwardingRulesRESTClient :=
       Ok (globalForwardingRulesClient pd);
     compute.NewRegionBackendServicesRESTClient :=
       Ok (regionBackendServicesClient pd);
     compute.NewRegionTargetHttpsProxiesRESTClient := Err noCredentials;
     compute.NewRegionUrlMapsRESTClient := Ok (regionUrlMapsClient pd);
     compute.NewTargetHttpsProxiesRESTClient := Ok (targetHttpsProxiesClient pd);
     compute.NewUrlMapsRESTClient := Err noCredentials |}.

Definition providerConfig (p r : types.String) : ConfigureRequest :=
  {| Provider_Config_Get :=
       ([], {| GKEGatewayProviderModel.Project := p;
               GKEGatewayProviderModel.Region := r |}) |}.

(** The value in force for an attribute the data source and the provider
    can both set: the one of the data source when it is known, else the
    one of the provider when the data source has none. *)
Definition configuredValue (own inherited : types.String) : option string :=
  match own with
  | types.StringValue v => Some v
  | types.StringNull =>
      match inherited with
      | types.StringValue v => Some v
      | _ => None
      end
  | types.StringUnknown => None
  end.

(** The data source after the successive calls of [Configure] with
    [inputs] for [req.ProviderData], the diagnostics of the responses
    being gathered. *)
Definition configureAll (d : BackendServiceDataSource) (inputs : list any)
  : BackendServiceDataSource * diag.Diagnostics :=
  fold_left (fun '(d, diags) input => DataSource_Configure d input diags)
    inputs (d, []).

(** The provider data of the last input that is a
    [*GKEGatewayProviderData], when there is one. *)
Fixpoint lastProviderData (inputs : list any)
  (held : option GKEGatewayProviderData) : option GKEGatewayProviderData :=
  match inputs with
  | [] => held
  | any_GKEGatewayProviderData p :: r => lastProviderData r p
  | _ :: r => lastProviderData r held
  end.

Definition isOther (a : any) : bool :=
  match a with any_other _ => true | _ => false end.

(** ** Slices and indices *)

Lemma Split_not_nil (s : string) (sep : ascii) : strings.Split s sep <> [].
Proof.
  destruct s as [|c r]; simpl; [discriminate|].
  destruct (Ascii.eqb c sep); [discriminate|].
  destruct (strings.Split r sep); discriminate.
Qed.

Lemma Split_single (s : string) (sep : ascii) :
  List.length (strings.Split s sep) = 1%nat <-> strings.Contains s sep = false.
Proof.
  induction s as [|c r IH]; simpl.
  - split; reflexivity.
  - destruct (Ascii.eqb c sep); simpl.
    + split; [|discriminate].
      intros H. injection H as H.
      destruct (strings.Split r sep) eqn:E; [|discriminate].
      exfalso. exact (Split_not_nil r sep E).
    + destruct (strings.Split r sep) as [|h t] eqn:E.
      * exfalso. exact (Split_not_nil r sep E).
      * simpl in *. exact IH.
Qed.

Lemma index_last (l : list string) (w : Run) :
  l <> [] -> index l (len l - 1) w = (Continue (last l EmptyString), w).
Proof.
  intros Hl. unfold index, len.
  destruct l as [|a l]; [contradiction|].
  assert (E : (Z.of_nat (List.length (a :: l)) - 1 <? 0)%Z = false)
    by (apply Z.ltb_ge; simpl List.length; lia).
  assert (E' : (Z.of_nat (List.length (a :: l))
                  <=? Z.of_nat (List.length (a :: l)) - 1)%Z = false)
    by (apply Z.leb_gt; lia).
  rewrite E, E'. simpl orb. cbv iota. unfold ret. f_equal. f_equal.
  replace (Z.to_nat (Z.of_nat (List.length (a :: l)) - 1))
    with (List.length l) by (simpl List.length; lia).
  clear. revert a. induction l as [|b l IH]; intros a; [reflexivity|].
  exact (IH b).
Qed.

Lemma index_lastSegment (path : string) (w : Run) :
  index (strings.Split path "/") (len (strings.Split path "/") - 1) w
  = (Continue (lastSegment path), w).
Proof. apply index_last, Split_not_nil. Qed.

Lemma index_penultimate (pre : list string) (a b : string) (w : Run) :
  index (pre ++ [a; b]) (len (pre ++ [a; b]) - 2) w = (Continue a, w).
Proof.
  unfold index, len. rewrite length_app.
  change (List.length [a; b]) with 2%nat.
  assert (E : (Z.of_nat (List.length pre + 2) - 2 <? 0)%Z = false)
    by (apply Z.ltb_ge; lia).
  assert (E' : (Z.of_nat (List.length pre + 2)
                  <=? Z.of_nat (List.length pre + 2) - 2)%Z = false)
    by (apply Z.leb_gt; lia).
  rewrite E, E'. simpl orb. cbv iota. unfold ret. f_equal. f_equal.
  replace (Z.to_nat (Z.of_nat (List.length pre + 2) - 2))
    with (List.length pre + 0)%nat by lia.
  rewrite app_nth2_plus. reflexivity.
Qed.

Lemma last_two (pre : list string) (a b : string) :
  last (pre ++ [a; b]) EmptyString = b.
Proof.
  change (pre ++ [a; b]) with (pre ++ [a] ++ [b]).
  rewrite app_assoc. apply last_last.
Qed.

Lemma index_single (a : string) (w : Run) :
  index [a] (len [a] - 2) w = (Panicked (IndexOutOfRange (-1) 1), w).
Proof. reflexivity. Qed.

(** ** The stages of [Read], run on a given state *)

Section Stages.

Variable pd : GKEGatewayProviderData.
Variable data : BackendServiceDataSourceModel.
Variable project : string.
Variable region : types.String.

Lemma listForwardingRules_run (w : Run) :
  listForwardingRules pd project region w
  = (Continue (listAnswer pd project region),
     called (listCall project region) w).
Proof.
  unfold listForwardingRules, listAnswer, listCall.
  destruct (types.IsNull region); reflexivity.
Qed.

Lemma getTargetHttpsProxy_run (name : string) (w : Run) :
  getTargetHttpsProxy pd project region name w
  = (Continue (proxyAnswer pd project region name),
     called (proxyCall project region name) w).
Proof.
  unfold getTargetHttpsProxy, proxyAnswer, proxyCall.
  destruct (types.IsNull region); reflexivity.
Qed.

Lemma getUrlMap_run (name : string) (w : Run) :
  getUrlMap pd project region name w
  = (Continue (urlMapAnswer pd project region name),
     called (urlMapCall project region name) w).
Proof.
  unfold getUrlMap, urlMapAnswer, urlMapCall.
  destruct (types.IsNull region); reflexivity.
Qed.

Lemma getBackendService_run (name : string) (w : Run) :
  getBackendService pd project region name w
  = (Continue (backendServiceAnswer pd project region name),
     called (backendServiceCall project region name) w).
Proof.
  unfold getBackendService, backendServiceAnswer, backendServiceCall.
  destruct (types.IsNull region); reflexivity.
Qed.

Lemma iterateForwardingRules_run
  (remaining : list computepb.ForwardingRule) (fail : option error)
  (acc : list computepb.ForwardingRule) (w : Run) :
  iterateForwardingRules data remaining fail acc w
  = match fail with
    | None => (Continue (acc ++ filter (matchesGateway data) remaining), w)
    | Some err =>
        if is404 err then (Returned, w)
        else (Returned,
              failed "Unable to iterate over forwarding rules"
                ("Error calling Google API: " ++ error_text err) w)
    end.
Proof.
  revert acc. induction remaining as [|r rs IH]; intros acc; simpl.
  - destruct fail as [err|].
    + destruct (is404 err); reflexivity.
    + rewrite app_nil_r. reflexivity.
  - rewrite IH. destruct fail as [err|]; [reflexivity|].
    destruct (matchesGateway data r); [|reflexivity].
    rewrite <- app_assoc. reflexivity.
Qed.

Lemma locateForwardingRule_run (w : Run) :
  locateForwardingRule pd data project region w
  = let it := listAnswer pd project region in
    let w' := called (listCall project region) w in
    match failure it with
    | Some err =>
        if is404 err then (Returned, w')
        else (Returned,
              failed "Unable to iterate over forwarding rules"
                ("Error calling Google API: " ++ error_text err) w')
    | None =>
        match matchingRules data it with
        | [] => (Returned, w')
        | [rule] => (Continue rule, w')
        | matching =>
            (Returned,
             failed "Multiple matching forwarding rules found"
               (forwardingRulesDebugMessage matching) w')
        end
    end.
Proof.
  unfold locateForwardingRule, bind.
  rewrite listForwardingRules_run, iterateForwardingRules_run.
  cbv zeta. unfold matchingRules.
  destruct (failure (listAnswer pd project region)) as [err|].
  - destruct (is404 err); reflexivity.
  - simpl app.
    destruct (filter (matchesGateway data)
                (rules (listAnswer pd project region))) as [|a [|b l]];
      reflexivity.
Qed.

Lemma lookupTarget_run (rule : computepb.ForwardingRule)
  (pre : list string) (kind name : string) (w : Run) :
  strings.Split (computepb.GetTarget rule) "/" = pre ++ [kind; name] ->
  lookupTarget pd project region rule w
  = if String.eqb kind "targetHttpsProxies" then
      let w' := called (proxyCall project region name) w in
      match proxyAnswer pd project region name with
      | Ok proxy => (Continue (computepb.GetUrlMap proxy), w')
      | Err err =>
          (Returned,
           failed ("Error looking up HTTPS target proxy " ++ name)
             ("Error calling Google API: " ++ error_text err) w')
      end
    else
      (Returned,
       failed "Unsupported target type for forwarding rule"
         ("The " ++ computepb.GetName rule
            ++ " forwarding rule has a target with a type of " ++ kind
            ++ " which is currently unsupported by this provider.") w).
Proof.
  intros Hsplit. unfold lookupTarget, bind. rewrite Hsplit.
  rewrite index_penultimate.
  destruct (String.eqb kind "targetHttpsProxies"); [|reflexivity].
  rewrite index_last by (destruct pre; discriminate).
  rewrite last_two, getTargetHttpsProxy_run.
  destruct (proxyAnswer pd project region name); reflexivity.
Qed.

Lemma lookupTarget_panics (rule : computepb.ForwardingRule) (w : Run) :
  strings.Contains (computepb.GetTarget rule) "/" = false ->
  lookupTarget pd project region rule w
  = (Panicked (IndexOutOfRange (-1) 1), w).
Proof.
  intros H. apply Split_single in H.
  unfold lookupTarget, bind.
  destruct (strings.Split (computepb.GetTarget rule) "/") as [|a [|b l]];
    try discriminate.
  reflexivity.
Qed.

Lemma lookupUrlMap_run (urlMapResource : string) (w : Run) :
  lookupUrlMap pd project region urlMapResource w
  = let name := lastSegment urlMapResource in
    let w' := called (urlMapCall project region name) w in
    match urlMapAnswer pd project region name with
    | Ok urlMap => (Continue urlMap, w')
    | Err err =>
        (Returned,
         failed ("Error looking up URL map " ++ name)
           ("Error calling Google API: " ++ error_text err) w')
    end.
Proof.
  unfold lookupUrlMap, bind.
  rewrite index_lastSegment, getUrlMap_run. cbv zeta.
  destruct (urlMapAnswer pd project region (lastSegment urlMapResource));
    reflexivity.
Qed.

Lemma lookupBackendService_run (path : string) (w : Run) :
  lookupBackendService pd data project region (Some path) w
  = let name := lastSegment path in
    let w' := called (backendServiceCall project region name) w in
    match backendServiceAnswer pd project region name with
    | Ok backendService =>
        (Continue tt,
         {| resp :=
              {| Diagnostics := Diagnostics (resp w');
                 State :=
                   Some
                     {| BackendService :=
                          Some {| ID := types.StringValue
                                          (strconv.FormatUint
                                             (computepb.GetId backendService));
                                  Name := types.StringValue
                                            (computepb.BackendService_GetName
                                               backendService) |};
                        Gateway := Gateway data;
                        Namespace := Namespace data;
                        Project := Project data;
                        Region := Region data |} |};
            calls := calls w' |})
    | Err err =>
        (Returned,
         failed ("Error looking up backend service " ++ name)
           ("Error calling Google API: " ++ error_text err) w')
    end.
Proof.
  unfold lookupBackendService, bind. simpl deref. unfold ret at 1.
  rewrite index_lastSegment, getBackendService_run. cbv zeta.
  destruct (backendServiceAnswer pd project region (lastSegment path));
    reflexivity.
Qed.

End Stages.

(** ** The messages listing the candidates *)

Lemma string_app_assoc (a b c : string) :
  ((a ++ b) ++ c)%string = (a ++ (b ++ c))%string.
Proof. induction a as [|x a IH]; simpl; [reflexivity|]. now rewrite IH. Qed.

Lemma string_app_nil_r (a : string) : (a ++ EmptyString)%string = a.
Proof. induction a as [|x a IH]; simpl; [reflexivity|]. now rewrite IH. Qed.

Lemma concat_cons (a : string) (l : list string) :
  String.concat EmptyString (a :: l)
  = (a ++ String.concat EmptyString l)%string.
Proof.
  destruct l as [|b l]; simpl; [now rewrite string_app_nil_r | reflexivity].
Qed.

Lemma forwardingRulesDebugMessage_lines
  (matching : list computepb.ForwardingRule) :
  forwardingRulesDebugMessage matching
  = (("The following forwarding rules matched:" ++ nl ++ nl)
       ++ lines (map computepb.GetName matching))%string.
Proof.
  unfold forwardingRulesDebugMessage.
  generalize ("The following forwarding rules matched:" ++ nl ++ nl)%string
    as header.
  induction matching as [|r rs IH]; intros header.
  - simpl. now rewrite string_app_nil_r.
  - cbn [fold_left]. rewrite IH. unfold lines. cbn [map].
    rewrite concat_cons. unfold line.
    rewrite !string_app_assoc. reflexivity.
Qed.

Lemma backendServicesDebugMessage_lines
  (paths : list string) (header : string) (w : Run) :
  backendServicesDebugMessage (map Some paths) header w
  = (Continue (header ++ lines (map lastSegment paths))%string, w).
Proof.
  revert header. induction paths as [|p ps IH]; intros header.
  - simpl. now rewrite string_app_nil_r.
  - cbn [map backendServicesDebugMessage]. unfold bind.
    cbn [deref]. unfold ret at 1.
    rewrite index_lastSegment, IH. unfold lines. cbn [map].
    rewrite concat_cons. unfold line.
    rewrite !string_app_assoc. reflexivity.
Qed.

Lemma backendServicesDebugMessage_nil_path
  (before : list string) (after : list (option string))
  (header : string) (w : Run) :
  backendServicesDebugMessage (map Some before ++ None :: after) header w
  = (Panicked NilDereference, w).
Proof.
  revert header. induction before as [|p ps IH]; intros header.
  - reflexivity.
  - cbn [map app backendServicesDebugMessage]. unfold bind.
    cbn [deref]. unfold ret at 1.
    rewrite index_lastSegment. apply IH.
Qed.

Lemma selectBackendServicePath_run (urlMap : computepb.UrlMap) (w : Run) :
  selectBackendServicePath urlMap w
  = match eligibleBackendServicePaths urlMap with
    | [] => (Returned, failed "No backend services found" EmptyString w)
    | [path] => (Continue path, w)
    | paths =>
        match backendServicesDebugMessage paths
                ("The following backend services matched:" ++ nl ++ nl) w with
        | (Continue debugMessage, w') =>
            (Returned, failed "Multiple backend services found" debugMessage w')
        | (Returned, w') => (Returned, w')
        | (Panicked p, w') => (Panicked p, w')
        end
    end.
Proof.
  unfold selectBackendServicePath.
  destruct (eligibleBackendServicePaths urlMap) as [|a [|b l]];
    reflexivity.
Qed.

(** ** The extraction computes the specified list *)

Lemma fold_left_snoc {A B : Type} (f : A -> B) (l : list A) (acc : list B) :
  fold_left (fun acc x => acc ++ [f x]) l acc = acc ++ map f l.
Proof.
  revert acc. induction l as [|x l IH]; intros acc; simpl.
  - now rewrite app_nil_r.
  - rewrite IH, <- app_assoc. reflexivity.
Qed.

Lemma collectDefaults_eq (urlMap : computepb.UrlMap) :
  collectDefaults urlMap
  = (present (computepb.DefaultService urlMap)
       ++ flat_map (fun matcher => present (computepb.pm_DefaultService matcher))
            (computepb.PathMatchers urlMap),
     collectedRouteActions urlMap).
Proof.
  unfold collectDefaults, collectedRouteActions. cbv zeta.
  replace (match computepb.DefaultService urlMap with
           | Some _ => [] ++ [computepb.DefaultService urlMap]
           | None => []
           end) with (present (computepb.DefaultService urlMap))
    by (destruct (computepb.DefaultService urlMap); reflexivity).
  generalize (present (computepb.DefaultService urlMap)) as paths.
  change (computepb.DefaultRouteAction urlMap
            :: flat_map matcherRouteActions (computepb.PathMatchers urlMap))
    with ([computepb.DefaultRouteAction urlMap]
            ++ flat_map matcherRouteActions (computepb.PathMatchers urlMap)).
  generalize [computepb.DefaultRouteAction urlMap] as actions.
  induction (computepb.PathMatchers urlMap) as [|m ms IH];
    intros actions paths.
  - simpl. now rewrite !app_nil_r.
  - simpl fold_left. rewrite fold_left_snoc, IH. f_equal.
    + simpl flat_map. rewrite app_assoc. f_equal.
      destruct (computepb.pm_DefaultService m); simpl;
        [reflexivity | now rewrite app_nil_r].
    + simpl flat_map. unfold matcherRouteActions at 2.
      rewrite <- !app_assoc. reflexivity.
Qed.

Lemma eligible_fold (actions : list (option computepb.HttpRouteAction))
  (paths : list (option string)) :
  fold_left
    (fun backendServicePaths action =>
       match action with
       | None => backendServicePaths
       | Some action =>
           match computepb.FaultInjectionPolicy action with
           | Some _ => backendServicePaths
           | None =>
               fold_left
                 (fun backendServicePaths wbs =>
                    backendServicePaths ++ [computepb.wbs_BackendService wbs])
                 (computepb.WeightedBackendServices action)
                 backendServicePaths
           end
       end)
    actions paths
  = paths ++ flat_map contribution actions.
Proof.
  revert paths. induction actions as [|a l IH]; intros paths.
  - simpl. now rewrite app_nil_r.
  - simpl fold_left. rewrite IH. simpl flat_map. rewrite app_assoc.
    f_equal. destruct a as [a|]; simpl; [|now rewrite app_nil_r].
    destruct (computepb.FaultInjectionPolicy a); [now rewrite app_nil_r|].
    apply fold_left_snoc.
Qed.

Lemma eligibleBackendServicePaths_spec (urlMap : computepb.UrlMap) :
  eligibleBackendServicePaths urlMap = spec_candidatePaths urlMap.
Proof.
  unfold eligibleBackendServicePaths, spec_candidatePaths.
  rewrite collectDefaults_eq, eligible_fold, <- app_assoc. reflexivity.
Qed.

(** ** Every call of the resolution is in its scope *)

Section OnlyCalls.

Variable P : ClientCall -> Prop.

Lemma only_calls_ret {A} (a : A) : only_calls P (ret a).
Proof. intros w H. exact H. Qed.

Lemma only_calls_return {A} : only_calls P (@return_ A).
Proof. intros w H. exact H. Qed.

Lemma only_calls_throw {A} (p : panic) : only_calls P (@throw A p).
Proof. intros w H. exact H. Qed.

Lemma only_calls_update (f : ReadResponse -> ReadResponse) :
  only_calls P (update_resp f).
Proof. intros w H. exact H. Qed.

Lemma only_calls_bind {A B} (m : Exec A) (k : A -> Exec B) :
  only_calls P m -> (forall a, only_calls P (k a)) -> only_calls P (bind m k).
Proof.
  intros Hm Hk w H. unfold bind. specialize (Hm w H).
  destruct (m w) as [[a| |p] w']; simpl in *; auto.
  apply Hk, Hm.
Qed.

Lemma only_calls_invoke {A} (c : ClientCall) (answer : A) :
  P c -> only_calls P (invoke c answer).
Proof.
  intros Hc w H. simpl. apply Forall_app. split; [exact H|].
  constructor; [exact Hc | constructor].
Qed.

Lemma only_calls_deref {A} (p : option A) : only_calls P (deref p).
Proof. destruct p; [apply only_calls_ret | apply only_calls_throw]. Qed.

Lemma only_calls_index (l : list string) (i : Z) : only_calls P (index l i).
Proof.
  unfold index.
  destruct ((i <? 0)%Z || (len l <=? i)%Z);
    [apply only_calls_throw | apply only_calls_ret].
Qed.

Lemma only_calls_AddError (summary detail : string) :
  only_calls P (Diagnostics_AddError summary detail).
Proof. apply only_calls_update. Qed.

Lemma only_calls_fail {A} (summary detail : string) :
  only_calls P (Diagnostics_AddError summary detail ;; @return_ A).
Proof.
  apply only_calls_bind;
    [apply only_calls_AddError | intros _; apply only_calls_return].
Qed.

Lemma only_calls_iterate (data : BackendServiceDataSourceModel)
  (remaining : list computepb.ForwardingRule) (fail : option error)
  (acc : list computepb.ForwardingRule) :
  only_calls P (iterateForwardingRules data remaining fail acc).
Proof.
  intros w H. rewrite iterateForwardingRules_run.
  destruct fail as [err|]; [|exact H].
  destruct (is404 err); exact H.
Qed.

Lemma only_calls_debugMessage (paths : list (option string))
  (header : string) :
  only_calls P (backendServicesDebugMessage paths header).
Proof.
  revert header. induction paths as [|p ps IH]; intros header.
  - apply only_calls_ret.
  - simpl. apply only_calls_bind; [apply only_calls_deref|]. intros s.
    apply only_calls_bind; [apply only_calls_index|]. intros name.
    apply IH.
Qed.

Lemma only_calls_select (urlMap : computepb.UrlMap) :
  only_calls P (selectBackendServicePath urlMap).
Proof.
  unfold selectBackendServicePath.
  destruct (eligibleBackendServicePaths urlMap) as [|a [|b l]].
  - apply only_calls_fail.
  - apply only_calls_ret.
  - apply only_calls_bind; [apply only_calls_debugMessage|]. intros msg.
    apply only_calls_fail.
Qed.

Variable pd : GKEGatewayProviderData.
Variable data : BackendServiceDataSourceModel.
Variable project : string.
Variable region : types.String.

Hypothesis P_list : P (listCall project region).
Hypothesis P_proxy : forall name, P (proxyCall project region name).
Hypothesis P_urlMap : forall name, P (urlMapCall project region name).
Hypothesis P_backendService :
  forall name, P (backendServiceCall project region name).

Lemma only_calls_resolve : only_calls P (resolve pd data project region).
Proof.
  unfold resolve.
  apply only_calls_bind.
  { unfold locateForwardingRule.
    apply only_calls_bind.
    { intros w H. rewrite listForwardingRules_run. simpl.
      apply Forall_app. split; [exact H|]. constructor; [apply P_list|constructor]. }
    intros it. apply only_calls_bind; [apply only_calls_iterate|].
    intros [|a [|b l]];
      [apply only_calls_return | apply only_calls_ret | apply only_calls_fail]. }
  intros rule. apply only_calls_bind.
  { unfold lookupTarget.
    apply only_calls_bind; [apply only_calls_index|]. intros kind.
    destruct (String.eqb kind "targetHttpsProxies"); [|apply only_calls_fail].
    apply only_calls_bind; [apply only_calls_index|]. intros name.
    apply only_calls_bind.
    { intros w H. rewrite getTargetHttpsProxy_run. simpl.
      apply Forall_app. split; [exact H|].
      constructor; [apply P_proxy|constructor]. }
    intros [proxy|err]; [apply only_calls_ret | apply only_calls_fail]. }
  intros urlMapResource. apply only_calls_bind.
  { unfold lookupUrlMap.
    apply only_calls_bind; [apply only_calls_index|]. intros name.
    apply only_calls_bind.
    { intros w H. rewrite getUrlMap_run. simpl.
      apply Forall_app. split; [exact H|].
      constructor; [apply P_urlMap|constructor]. }
    intros [urlMap|err]; [apply only_calls_ret | apply only_calls_fail]. }
  intros urlMap. apply only_calls_bind; [apply only_calls_select|].
  intros path. unfold lookupBackendService.
  apply only_calls_bind; [apply only_calls_deref|]. intros p.
  apply only_calls_bind; [apply only_calls_index|]. intros name.
  apply only_calls_bind.
  { intros w H. rewrite getBackendService_run. simpl.
    apply Forall_app. split; [exact H|].
    constructor; [apply P_backendService|constructor]. }
  intros [backendService|err]; [|apply only_calls_fail].
  apply only_calls_bind.
  { unfold State_Set. apply only_calls_bind; [apply only_calls_update|].
    intros _. apply only_calls_ret. }
  intros diags. apply only_calls_update.
Qed.

End OnlyCalls.

(** ** From [Read] to the resolution *)

Lemma Read_run (d : BackendServiceDataSource)
  (diags : diag.Diagnostics) (data : BackendServiceDataSourceModel) :
  run_Read d {| Config_Get := (diags, data) |}
  = if diag.HasError (diag.Append [] diags) then (Returned, entered diags)
    else
      match providerData d with
      | None => (Panicked NilDereference, entered diags)
      | Some pd =>
          if types.IsNull (project pd) && types.IsNull (Project data) then
            (Returned,
             failed "Missing project"
               "The project field must be set on either the provider or data source."
               (entered diags))
          else if types.IsUnknown (Project data) then
            (Returned,
             failed "Unknown project"
               "The project field on the data source cannot be set to an unknown value"
               (entered diags))
          else if types.IsUnknown (Region data) then
            (Returned,
             failed "Unknown region"
               "The region field on the data source cannot be set to an unknown value"
               (entered diags))
          else
            resolve pd data (effectiveProject pd data)
              (effectiveRegion pd data) (entered diags)
      end.
Proof.
  unfold run_Read, Read. cbn [Config_Get].
  unfold bind at 1.
  change (Diagnostics_Append diags start) with (Continue tt, entered diags).
  cbv beta iota. unfold bind at 1.
  change (Diagnostics_HasError (entered diags))
    with (Continue (diag.HasError (diag.Append [] diags)), entered diags).
  cbv beta iota.
  destruct (diag.HasError (diag.Append [] diags)); [reflexivity|].
  unfold bind at 1.
  destruct (providerData d) as [pd|]; [|reflexivity].
  cbn [deref]. unfold ret at 1. cbv iota.
  destruct (types.IsNull (project pd) && types.IsNull (Project data));
    [reflexivity|].
  destruct (types.IsUnknown (Project data)); [reflexivity|].
  destruct (types.IsUnknown (Region data)); reflexivity.
Qed.

Lemma Read_settled (pd : GKEGatewayProviderData)
  (data : BackendServiceDataSourceModel) :
  settled pd data = true ->
  run_Read (configured pd) (decoded data)
  = resolve pd data (effectiveProject pd data) (effectiveRegion pd data) start.
Proof.
  unfold settled, decoded. intros H. rewrite Read_run.
  apply andb_prop in H as [H H3]. apply andb_prop in H as [H1 H2].
  apply negb_true_iff in H1, H2, H3.
  cbn [diag.Append fold_left diag.HasError existsb configured providerData].
  rewrite H1, H2, H3. reflexivity.
Qed.

Lemma Read_in_scope (d : BackendServiceDataSource) (req : ReadRequest) :
  match providerData d with
  | Some pd =>
      Forall (in_scope (effectiveProject pd (snd (Config_Get req)))
                (effectiveRegion pd (snd (Config_Get req))))
        (calls (snd (run_Read d req)))
  | None => calls (snd (run_Read d req)) = []
  end.
Proof.
  destruct req as [[diags data]]. rewrite Read_run. cbn [Config_Get snd].
  destruct (diag.HasError (diag.Append [] diags)).
  { destruct (providerData d); [apply Forall_nil | reflexivity]. }
  destruct (providerData d) as [pd|]; [|reflexivity].
  destruct (types.IsNull (project pd) && types.IsNull (Project data));
    [apply Forall_nil|].
  destruct (types.IsUnknown (Project data)); [apply Forall_nil|].
  destruct (types.IsUnknown (Region data)); [apply Forall_nil|].
  apply only_calls_resolve; [| | | |apply Forall_nil];
    intros; unfold in_scope, listCall, proxyCall, urlMapCall,
      backendServiceCall, scope_region;
    destruct (types.IsNull (effectiveRegion pd data)); split; reflexivity.
Qed.

Lemma Split_app_sep (p s : string) (sep : ascii) :
  strings.Split (p ++ String sep s) sep
  = strings.Split p sep ++ strings.Split s sep.
Proof.
  induction p as [|c p IH].
  - simpl. rewrite Ascii.eqb_refl. reflexivity.
  - cbn [append strings.Split]. rewrite IH.
    destruct (Ascii.eqb c sep); [reflexivity|].
    destruct (strings.Split p sep) as [|h t] eqn:E; [|reflexivity].
    exfalso. exact (Split_not_nil p sep E).
Qed.

Lemma Contains_Split (s : string) (sep : ascii) :
  strings.Contains s sep = true ->
  exists pre a b, strings.Split s sep = pre ++ [a; b].
Proof.
  intros H.
  assert (L : (2 <= List.length (strings.Split s sep))%nat).
  { pose proof (Split_single s sep) as S1.
    pose proof (Split_not_nil s sep) as S2.
    destruct (strings.Split s sep) as [|x [|y l]]; simpl; try lia.
    - contradiction.
    - rewrite (proj1 S1 eq_refl) in H. discriminate. }
  destruct (exists_last (l := strings.Split s sep)) as [l1 [b E1]].
  { apply Split_not_nil. }
  rewrite E1 in L. rewrite length_app in L. simpl in L.
  destruct (exists_last (l := l1)) as [pre [a E2]].
  { destruct l1; [simpl in L; lia | discriminate]. }
  exists pre, a, b. rewrite E1, E2, <- app_assoc. reflexivity.
Qed.

(** ** The pipeline up to the URL map *)

Section Pipeline.

Variable pd : GKEGatewayProviderData.
Variable data : BackendServiceDataSourceModel.

Let project := effectiveProject pd data.
Let region := effectiveRegion pd data.

Variable rule : computepb.ForwardingRule.

Hypothesis iteration_done : failure (listAnswer pd project region) = None.
Hypothesis sole_rule :
  matchingRules data (listAnswer pd project region) = [rule].

Lemma resolve_sole_rule (w : Run) :
  resolve pd data project region w
  = (urlMapResource <- lookupTarget pd project region rule ;;
     urlMap <- lookupUrlMap pd project region urlMapResource ;;
     path <- selectBackendServicePath urlMap ;;
     lookupBackendService pd data project region path)
      (called (listCall project region) w).
Proof.
  unfold resolve. unfold bind at 1.
  rewrite locateForwardingRule_run. cbv zeta.
  rewrite iteration_done, sole_rule. reflexivity.
Qed.

Variable pre : list string.
Variable proxyName : string.
Variable proxy : computepb.TargetHttpsProxy.
Variable urlMap : computepb.UrlMap.

Hypothesis https_target :
  strings.Split (computepb.GetTarget rule) "/"
  = pre ++ ["targetHttpsProxies"; proxyName].
Hypothesis proxy_found : proxyAnswer pd project region proxyName = Ok proxy.
Hypothesis urlMap_found :
  urlMapAnswer pd project region (lastSegment (computepb.GetUrlMap proxy))
  = Ok urlMap.

Lemma resolve_urlMap (w : Run) :
  resolve pd data project region w
  = (path <- selectBackendServicePath urlMap ;;
     lookupBackendService pd data project region path)
      (called (urlMapCall project region
                 (lastSegment (computepb.GetUrlMap proxy)))
         (called (proxyCall project region proxyName)
            (called (listCall project region) w))).
Proof.
  rewrite resolve_sole_rule. unfold bind at 1.
  rewrite (lookupTarget_run _ _ _ _ _ _ _ _ https_target).
  cbn [String.eqb Ascii.eqb Bool.eqb]. cbv zeta.
  rewrite proxy_found. unfold bind at 1.
  rewrite lookupUrlMap_run. cbv zeta. rewrite urlMap_found.
  reflexivity.
Qed.

End Pipeline.

(** ** Decoding the description of a gateway *)

Lemma plain_byte_facts (c : ascii) :
  plain_byte c = true ->
  Ascii.eqb c json.dquote = false /\ Ascii.eqb c "\" = false
  /\ (byte c <? 32)%N = false /\ (byte c <? 128)%N = true.
Proof.
  unfold plain_byte, in_range. intros H.
  apply andb_prop in H as [H H3]. apply andb_prop in H as [H1 H2].
  apply andb_prop in H1 as [Ha Hb].
  apply negb_true_iff in H2, H3. apply N.leb_le in Ha, Hb.
  repeat split; auto.
  - apply N.ltb_ge. exact Ha.
  - apply N.ltb_lt. lia.
Qed.

Lemma lex_string_plain (k : string) :
  plain k = true ->
  forall acc out rest,
    json.lex_from (json.InString acc) out (k ++ String json.dquote rest)
    = json.lex_from json.Between (out ++ [json.TString (acc ++ k)]) rest.
Proof.
  induction k as [|c k IH]; intros Hk acc out rest.
  - cbn [append json.lex_from json.lex_step].
    rewrite Ascii.eqb_refl, string_app_nil_r. reflexivity.
  - cbn [plain] in Hk. apply andb_prop in Hk as [Hc Hk].
    destruct (plain_byte_facts c Hc) as [Hq [Hb [Hlo _]]].
    cbn [append json.lex_from json.lex_step].
    rewrite Hq, Hb, Hlo. rewrite (IH Hk). unfold json.snoc.
    rewrite string_app_assoc. reflexivity.
Qed.

Lemma unquote_plain (k : string) :
  plain k = true -> json.unquote k = k.
Proof.
  unfold json.unquote. induction k as [|c k IH]; intros Hk; [reflexivity|].
  cbn [plain] in Hk. apply andb_prop in Hk as [Hc Hk].
  destruct (plain_byte_facts c Hc) as [_ [Hb [_ Hhi]]].
  cbn [json.unquote_from]. rewrite Hb, Hhi, (IH Hk). reflexivity.
Qed.

Lemma gatewayDescription_shape (k : string) :
  gatewayDescription k
  = (("{" ++ quoted "k8sResource" ++ ":" ++ String json.dquote EmptyString)
       ++ k ++ String json.dquote "}")%string.
Proof.
  unfold gatewayDescription, quoted.
  cbn [append]. rewrite string_app_assoc. reflexivity.
Qed.

Lemma gatewayDescription_tokens (k : string) :
  plain k = true ->
  json.lex (gatewayDescription k)
  = Some [json.TBeginObject; json.TString "k8sResource"; json.TColon;
          json.TString k; json.TEndObject].
Proof.
  intros Hk. rewrite gatewayDescription_shape. unfold json.lex.
  change (json.lex_from json.Between []
            (("{" ++ quoted "k8sResource" ++ ":" ++ String json.dquote EmptyString)
               ++ k ++ String json.dquote "}")%string)
    with (json.lex_from (json.InString EmptyString)
            [json.TBeginObject; json.TString "k8sResource"; json.TColon]
            (k ++ String json.dquote "}")%string).
  rewrite (lex_string_plain k Hk). reflexivity.
Qed.

Lemma gatewayDescription_valid (k : string) :
  json.valid [json.TBeginObject; json.TString "k8sResource"; json.TColon;
              json.TString k; json.TEndObject] = true.
Proof. reflexivity. Qed.

Lemma gatewayDescription_object (k : string) :
  json.object "k8sResource"
    [json.TString "k8sResource"; json.TColon; json.TString k; json.TEndObject]
    0 None None false
  = (Some (json.unquote k), false).
Proof. reflexivity. Qed.

(** The description of a gateway decodes to its key. *)
Lemma gatewayDescription_decodes_plain (k : string) :
  plain k = true ->
  json_Unmarshal (gatewayDescription k) = Some {| K8sResource := Some k |}.
Proof.
  intros Hk. unfold json_Unmarshal, json.Unmarshal, json.checkValid.
  rewrite (gatewayDescription_tokens k Hk), gatewayDescription_valid,
    gatewayDescription_object, (unquote_plain k Hk).
  reflexivity.
Qed.

(** ** The claims *)

(** C1, as amended: when the iteration over the forwarding rules ends
    without error and no rule matches, [Read] returns an empty success: no
    state, no diagnostic, and no call after the listing.  When the pipeline
    reaches the URL map and the URL map yields no backend service path,
    [Read] does not succeed: it returns with the one error diagnostic
    "No backend services found" (empty detail), no state, and no call after
    the lookup of the URL map. *)
Theorem zero_candidates
  (pd : GKEGatewayProviderData) (data : BackendServiceDataSourceModel) :
  let project := effectiveProject pd data in
  let region := effectiveRegion pd data in
  settled pd data = true ->
  failure (listAnswer pd project region) = None ->
  (matchingRules data (listAnswer pd project region) = [] ->
   run_Read (configured pd) (decoded data)
   = emptySuccess [listCall project region])
  /\
  (forall rule pre proxyName proxy urlMap,
     matchingRules data (listAnswer pd project region) = [rule] ->
     strings.Split (computepb.GetTarget rule) "/"
     = pre ++ ["targetHttpsProxies"; proxyName] ->
     proxyAnswer pd project region proxyName = Ok proxy ->
     urlMapAnswer pd project region (lastSegment (computepb.GetUrlMap proxy))
     = Ok urlMap ->
     eligibleBackendServicePaths urlMap = [] ->
     run_Read (configured pd) (decoded data)
     = failure_with "No backend services found" EmptyString
         [listCall project region;
          proxyCall project region proxyName;
          urlMapCall project region (lastSegment (computepb.GetUrlMap proxy))]).
Proof.
  intros project region Hsettled Hdone. split.
  - intros Hnone. rewrite (Read_settled _ _ Hsettled).
    unfold resolve, bind. rewrite locateForwardingRule_run. cbv zeta.
    fold project region. rewrite Hdone, Hnone. reflexivity.
  - intros rule pre proxyName proxy urlMap Hsole Htarget Hproxy HurlMap Hempty.
    rewrite (Read_settled _ _ Hsettled).
    rewrite (resolve_urlMap pd data rule Hdone Hsole pre proxyName proxy urlMap
               Htarget Hproxy HurlMap).
    unfold bind. rewrite selectBackendServicePath_run, Hempty. reflexivity.
Qed.

Lemma zero_candidates_witness :
  run_Read (configured (cloud (listing []) (Ok bareUrlMap)))
    (decoded (gatewayRequest types.StringNull))
  = emptySuccess [GlobalForwardingRules_List "my-gcp-project"]
  /\
  run_Read (configured (cloud (listing [fr_1]) (Ok bareUrlMap)))
    (decoded (gatewayRequest types.StringNull))
  = failure_with "No backend services found" EmptyString
      [GlobalForwardingRules_List "my-gcp-project";
       TargetHttpsProxies_Get "my-gcp-project" "proxy-1";
       UrlMaps_Get "my-gcp-project" "url-map-1"].
Proof.
  split.
  - apply (proj1 (zero_candidates (cloud (listing []) (Ok bareUrlMap))
                    (gatewayRequest types.StringNull) eq_refl eq_refl)).
    reflexivity.
  - apply (proj2 (zero_candidates (cloud (listing [fr_1]) (Ok bareUrlMap))
                    (gatewayRequest types.StringNull) eq_refl eq_refl)
             fr_1
             ["https:"; EmptyString; "www.googleapis.com"; "compute"; "v1";
              "projects"; "my-gcp-project"; "global"]
             "proxy-1"
             {| computepb.thp_UrlMap :=
                  Some "https://www.googleapis.com/compute/v1/projects/my-gcp-project/global/urlMaps/url-map-1" |}
             bareUrlMap);
      vm_compute; reflexivity.
Defined.

(** The claim C1 as it is written fails: here the pipeline reaches a URL
    map without any backend service path, and the result carries an error
    diagnostic. *)
Lemma zero_backend_services_is_an_error :
  eligibleBackendServicePaths bareUrlMap = []
  /\ run_Read (configured (cloud (listing [fr_1]) (Ok bareUrlMap)))
       (decoded (gatewayRequest types.StringNull))
     = failure_with "No backend services found" EmptyString
         [GlobalForwardingRules_List "my-gcp-project";
          TargetHttpsProxies_Get "my-gcp-project" "proxy-1";
          UrlMaps_Get "my-gcp-project" "url-map-1"]
  /\ diag.HasError
       (Diagnostics
          (resp (snd (run_Read
                        (configured (cloud (listing [fr_1]) (Ok bareUrlMap)))
                        (decoded (gatewayRequest types.StringNull))))))
     = true.
Proof. repeat split; vm_compute; reflexivity. Qed.

(** C8: when the iteration over the forwarding rules fails, an API error
    with HTTP code 404 ends [Read] as an empty success, without diagnostic;
    any other error ends it with the error diagnostic "Unable to iterate
    over forwarding rules", whose detail carries the text of the error.  In
    both cases the listing is the only client call: no later stage runs. *)
Theorem iteration_error
  (pd : GKEGatewayProviderData) (data : BackendServiceDataSourceModel)
  (err : error) :
  let project := effectiveProject pd data in
  let region := effectiveRegion pd data in
  settled pd data = true ->
  failure (listAnswer pd project region) = Some err ->
  run_Read (configured pd) (decoded data)
  = match err with
    | APIError 404 _ => emptySuccess [listCall project region]
    | _ =>
        failure_with "Unable to iterate over forwarding rules"
          ("Error calling Google API: " ++ error_text err)
          [listCall project region]
    end.
Proof.
  intros project region Hsettled Hfail.
  rewrite (Read_settled _ _ Hsettled).
  unfold resolve, bind. rewrite locateForwardingRule_run. cbv zeta.
  fold project region. rewrite Hfail.
  destruct err as [code text|text]; [|reflexivity].
  unfold is404.
  destruct code as [|p|p]; try reflexivity.
  destruct (Z.eqb_spec (Z.pos p) 404) as [E|N].
  - injection E as ->. reflexivity.
  - do 9 (destruct p as [p|p|]; try reflexivity); exfalso; apply N; reflexivity.
Qed.

Lemma iteration_error_witness :
  run_Read
    (configured (cloud (failingListing (APIError 404 "googleapi: Error 404"))
                   (Ok bareUrlMap)))
    (decoded (gatewayRequest types.StringNull))
  = emptySuccess [GlobalForwardingRules_List "my-gcp-project"]
  /\
  run_Read
    (configured (cloud (failingListing (APIError 403 "googleapi: Error 403"))
                   (Ok bareUrlMap)))
    (decoded (gatewayRequest (types.StringValue "us-central1")))
  = failure_with "Unable to iterate over forwarding rules"
      "Error calling Google API: googleapi: Error 403"
      [ForwardingRules_List "my-gcp-project" "us-central1"].
Proof.
  split.
  - apply (iteration_error
             (cloud (failingListing (APIError 404 "googleapi: Error 404"))
                (Ok bareUrlMap))
             (gatewayRequest types.StringNull)
             (APIError 404 "googleapi: Error 404"));
      reflexivity.
  - apply (iteration_error
             (cloud (failingListing (APIError 403 "googleapi: Error 403"))
                (Ok bareUrlMap))
             (gatewayRequest (types.StringValue "us-central1"))
             (APIError 403 "googleapi: Error 403"));
      reflexivity.
Defined.

(** C6: for the one matching forwarding rule, the kind of the proxy is the
    last but one component of its target split on "/".  When that kind is
    not "targetHttpsProxies", [Read] returns with the error diagnostic
    "Unsupported target type for forwarding rule", whose detail names the
    rule and the kind, and the listing is the only client call: no proxy is
    fetched. *)
Theorem unsupported_target
  (pd : GKEGatewayProviderData) (data : BackendServiceDataSourceModel)
  (rule : computepb.ForwardingRule) (pre : list string) (kind name : string) :
  let project := effectiveProject pd data in
  let region := effectiveRegion pd data in
  settled pd data = true ->
  failure (listAnswer pd project region) = None ->
  matchingRules data (listAnswer pd project region) = [rule] ->
  strings.Split (computepb.GetTarget rule) "/" = pre ++ [kind; name] ->
  String.eqb kind "targetHttpsProxies" = false ->
  run_Read (configured pd) (decoded data)
  = failure_with "Unsupported target type for forwarding rule"
      ("The " ++ computepb.GetName rule
         ++ " forwarding rule has a target with a type of " ++ kind
         ++ " which is currently unsupported by this provider.")
      [listCall project region].
Proof.
  intros project region Hsettled Hdone Hsole Htarget Hkind.
  rewrite (Read_settled _ _ Hsettled).
  rewrite (resolve_sole_rule pd data rule Hdone Hsole).
  unfold bind at 1. rewrite (lookupTarget_run _ _ _ _ _ _ _ _ Htarget).
  rewrite Hkind. reflexivity.
Qed.

Lemma unsupported_target_witness :
  run_Read (configured (cloud (listing [tcpRule]) (Ok bareUrlMap)))
    (decoded (gatewayRequest types.StringNull))
  = failure_with "Unsupported target type for forwarding rule"
      ("The " ++ computepb.GetName tcpRule
         ++ " forwarding rule has a target with a type of " ++ "targetTcpProxies"
         ++ " which is currently unsupported by this provider.")
      [GlobalForwardingRules_List "my-gcp-project"].
Proof.
  apply (unsupported_target (cloud (listing [tcpRule]) (Ok bareUrlMap))
           (gatewayRequest types.StringNull) tcpRule
           ["projects"; "my-gcp-project"; "global"] "targetTcpProxies" "p1");
    reflexivity.
Defined.

(** C9: when the target of the one matching forwarding rule contains no
    "/", splitting it gives a single component, the extraction of the kind
    indexes position -1 and [Read] panics, after the listing and without
    any diagnostic.  When the target contains a "/", looking up the target
    does not panic. *)
Theorem target_without_separator
  (pd : GKEGatewayProviderData) (data : BackendServiceDataSourceModel)
  (rule : computepb.ForwardingRule) :
  let project := effectiveProject pd data in
  let region := effectiveRegion pd data in
  settled pd data = true ->
  failure (listAnswer pd project region) = None ->
  matchingRules data (listAnswer pd project region) = [rule] ->
  (strings.Contains (computepb.GetTarget rule) "/" = false ->
   List.length (strings.Split (computepb.GetTarget rule) "/") = 1%nat
   /\ run_Read (configured pd) (decoded data)
      = (Panicked (IndexOutOfRange (-1) 1),
         {| resp := {| Diagnostics := []; State := None |};
            calls := [listCall project region] |}))
  /\
  (strings.Contains (computepb.GetTarget rule) "/" = true ->
   forall w p, fst (lookupTarget pd project region rule w) <> Panicked p).
Proof.
  intros project region Hsettled Hdone Hsole. split.
  - intros Hno. split; [apply Split_single, Hno|].
    rewrite (Read_settled _ _ Hsettled).
    rewrite (resolve_sole_rule pd data rule Hdone Hsole).
    unfold bind at 1. rewrite (lookupTarget_panics _ _ _ _ _ Hno).
    reflexivity.
  - intros Hsep w p.
    destruct (Contains_Split _ _ Hsep) as [pre [kind [name Htarget]]].
    rewrite (lookupTarget_run _ _ _ _ _ _ _ _ Htarget).
    destruct (String.eqb kind "targetHttpsProxies"); [|discriminate].
    cbv zeta.
    destruct (proxyAnswer pd project region name); discriminate.
Qed.

Lemma target_without_separator_witness :
  (List.length (strings.Split (computepb.GetTarget bareTargetRule) "/") = 1%nat
   /\ run_Read (configured (cloud (listing [bareTargetRule]) (Ok bareUrlMap)))
        (decoded (gatewayRequest types.StringNull))
      = (Panicked (IndexOutOfRange (-1) 1),
         {| resp := {| Diagnostics := []; State := None |};
            calls := [GlobalForwardingRules_List "my-gcp-project"] |}))
  /\
  (forall w p,
     fst (lookupTarget (cloud (listing [fr_1]) (Ok bareUrlMap))
            "my-gcp-project" types.StringNull fr_1 w) <> Panicked p).
Proof.
  split.
  - apply (proj1 (target_without_separator
                    (cloud (listing [bareTargetRule]) (Ok bareUrlMap))
                    (gatewayRequest types.StringNull) bareTargetRule
                    eq_refl eq_refl eq_refl)).
    reflexivity.
  - apply (proj2 (target_without_separator
                    (cloud (listing [fr_1]) (Ok bareUrlMap))
                    (gatewayRequest types.StringNull) fr_1
                    eq_refl eq_refl eq_refl)).
    reflexivity.
Defined.

(** X19: two or more candidates at a fan-out, every backend service path
    among them being set, end [Read] with an error diagnostic whose detail
    lists the label of every candidate, one per line, in the order of the
    candidates.  For the forwarding rules the label is the name of the
    rule; two matching rules named "fr-a" and "fr-b" give a detail listing
    both.  For the backend service paths the label is the last component
    of the path. *)
Theorem ambiguous_candidates
  (pd : GKEGatewayProviderData) (data : BackendServiceDataSourceModel) :
  let project := effectiveProject pd data in
  let region := effectiveRegion pd data in
  settled pd data = true ->
  failure (listAnswer pd project region) = None ->
  (forall a b rest,
     matchingRules data (listAnswer pd project region) = a :: b :: rest ->
     run_Read (configured pd) (decoded data)
     = failure_with "Multiple matching forwarding rules found"
         (("The following forwarding rules matched:" ++ nl ++ nl)
            ++ lines (map computepb.GetName (a :: b :: rest)))
         [listCall project region])
  /\
  (forall a b,
     matchingRules data (listAnswer pd project region) = [a; b] ->
     computepb.GetName a = "fr-a" ->
     computepb.GetName b = "fr-b" ->
     run_Read (configured pd) (decoded data)
     = failure_with "Multiple matching forwarding rules found"
         ("The following forwarding rules matched:" ++ nl ++ nl
            ++ "  - fr-a" ++ nl ++ "  - fr-b" ++ nl)
         [listCall project region])
  /\
  (forall rule pre proxyName proxy urlMap p1 p2 ps,
     matchingRules data (listAnswer pd project region) = [rule] ->
     strings.Split (computepb.GetTarget rule) "/"
     = pre ++ ["targetHttpsProxies"; proxyName] ->
     proxyAnswer pd project region proxyName = Ok proxy ->
     urlMapAnswer pd project region (lastSegment (computepb.GetUrlMap proxy))
     = Ok urlMap ->
     eligibleBackendServicePaths urlMap = map Some (p1 :: p2 :: ps) ->
     run_Read (configured pd) (decoded data)
     = failure_with "Multiple backend services found"
         (("The following backend services matched:" ++ nl ++ nl)
            ++ lines (map lastSegment (p1 :: p2 :: ps)))
         [listCall project region;
          proxyCall project region proxyName;
          urlMapCall project region (lastSegment (computepb.GetUrlMap proxy))]).
Proof.
  intros project region Hsettled Hdone.
  assert (Hrules : forall a b rest,
    matchingRules data (listAnswer pd project region) = a :: b :: rest ->
    run_Read (configured pd) (decoded data)
    = failure_with "Multiple matching forwarding rules found"
        (("The following forwarding rules matched:" ++ nl ++ nl)
           ++ lines (map computepb.GetName (a :: b :: rest)))
        [listCall project region]).
  { intros a b rest Hmany. rewrite (Read_settled _ _ Hsettled).
    unfold resolve, bind. rewrite locateForwardingRule_run. cbv zeta.
    fold project region. rewrite Hdone, Hmany.
    rewrite forwardingRulesDebugMessage_lines. reflexivity. }
  split; [exact Hrules|]. split.
  - intros a b Hmany Ha Hb. rewrite (Hrules a b [] Hmany).
    cbn [map]. rewrite Ha, Hb. reflexivity.
  - intros rule pre proxyName proxy urlMap p1 p2 ps
      Hsole Htarget Hproxy HurlMap Hmany.
    rewrite (Read_settled _ _ Hsettled).
    rewrite (resolve_urlMap pd data rule Hdone Hsole pre proxyName proxy urlMap
               Htarget Hproxy HurlMap).
    unfold bind at 1. rewrite selectBackendServicePath_run, Hmany.
    cbn [map]. change (Some p1 :: Some p2 :: map Some ps)
      with (map Some (p1 :: p2 :: ps)).
    rewrite backendServicesDebugMessage_lines. reflexivity.
Qed.

Lemma ambiguous_candidates_witness :
  run_Read (configured (cloud (listing [fr_a; fr_b]) (Ok bareUrlMap)))
    (decoded (gatewayRequest types.StringNull))
  = failure_with "Multiple matching forwarding rules found"
      ("The following forwarding rules matched:" ++ nl ++ nl
         ++ "  - fr-a" ++ nl ++ "  - fr-b" ++ nl)
      [GlobalForwardingRules_List "my-gcp-project"]
  /\
  run_Read (configured (cloud (listing [fr_1]) (Ok twoServicesUrlMap)))
    (decoded (gatewayRequest types.StringNull))
  = failure_with "Multiple backend services found"
      (("The following backend services matched:" ++ nl ++ nl)
         ++ lines ["svc-1"; "svc-2"])
      [GlobalForwardingRules_List "my-gcp-project";
       TargetHttpsProxies_Get "my-gcp-project" "proxy-1";
       UrlMaps_Get "my-gcp-project" "url-map-1"].
Proof.
  split.
  - apply (proj1 (proj2 (ambiguous_candidates
                           (cloud (listing [fr_a; fr_b]) (Ok bareUrlMap))
                           (gatewayRequest types.StringNull)
                           eq_refl eq_refl))
             fr_a fr_b);
      reflexivity.
  - apply (proj2 (proj2 (ambiguous_candidates
                           (cloud (listing [fr_1]) (Ok twoServicesUrlMap))
                           (gatewayRequest types.StringNull)
                           eq_refl eq_refl))
             fr_1
             ["https:"; EmptyString; "www.googleapis.com"; "compute"; "v1";
              "projects"; "my-gcp-project"; "global"]
             "proxy-1"
             {| computepb.thp_UrlMap :=
                  Some "https://www.googleapis.com/compute/v1/projects/my-gcp-project/global/urlMaps/url-map-1" |}
             twoServicesUrlMap svc_1 svc_2 []);
      vm_compute; reflexivity.
Defined.

(** C5, at the input where the code departs from it: the URL map found has
    two candidate paths, the second one coming from a weighted backend
    service whose backend service is not set.  Lines 230 and 237 test the
    default services against nil before appending them, line 252 appends
    the path of a weighted backend service untested, and line 262
    dereferences it while the message is built.  [Read] then panics on the
    nil path: it returns no diagnostic at all, where two candidates call
    for the "Multiple backend services found" error listing both. *)
Lemma ambiguous_with_unset_path_panics :
  eligibleBackendServicePaths unsetWeightUrlMap = [Some svc_1; None]
  /\ run_Read (configured (cloud (listing [fr_1]) (Ok unsetWeightUrlMap)))
       (decoded (gatewayRequest types.StringNull))
     = (Panicked NilDereference,
        {| resp := {| Diagnostics := []; State := None |};
           calls := [GlobalForwardingRules_List "my-gcp-project";
                     TargetHttpsProxies_Get "my-gcp-project" "proxy-1";
                     UrlMaps_Get "my-gcp-project" "url-map-1"] |})
  /\ Diagnostics
       (resp (snd (run_Read
                     (configured (cloud (listing [fr_1]) (Ok unsetWeightUrlMap)))
                     (decoded (gatewayRequest types.StringNull)))))
     = [].
Proof. repeat split; vm_compute; reflexivity. Qed.

Lemma gatewayDescription_decodes :
  json_Unmarshal (gatewayDescription gatewayKey)
  = Some {| K8sResource := Some gatewayKey |}.
Proof. apply gatewayDescription_decodes_plain. reflexivity. Qed.

(** C2: the gateway [my-gateway-name] of the namespace [my-cool-app] is
    asked for; the listing holds one forwarding rule, whose description is
    the JSON object with the one member k8sResource, of value
    "/namespaces/my-cool-app/gateways/my-gateway-name", and whose target
    ends in "/targetHttpsProxies/proxy-1"; the URL map of that proxy has a
    default service ending in "/backendServices/svc-1", no default route
    action and no path matcher; every fetch succeeds, the backend service
    fetched under the name svc-1 bearing that name.  Then [Read] stores
    exactly one backend service, of name "svc-1" and of id the decimal
    writing of the numeric id of the fetched service, without any
    diagnostic. *)
Theorem end_to_end
  (pd : GKEGatewayProviderData) (data : BackendServiceDataSourceModel)
  (rule : computepb.ForwardingRule) (targetPrefix servicePrefix : string)
  (proxy : computepb.TargetHttpsProxy) (urlMap : computepb.UrlMap)
  (backendService : computepb.BackendService) :
  let project := effectiveProject pd data in
  let region := effectiveRegion pd data in
  settled pd data = true ->
  types.ValueString (Namespace data) = "my-cool-app" ->
  types.ValueString (Gateway data) = "my-gateway-name" ->
  listAnswer pd project region = {| rules := [rule]; failure := None |} ->
  computepb.GetDescription rule = gatewayDescription gatewayKey ->
  computepb.GetTarget rule
  = (targetPrefix ++ "/targetHttpsProxies/proxy-1")%string ->
  proxyAnswer pd project region "proxy-1" = Ok proxy ->
  urlMapAnswer pd project region (lastSegment (computepb.GetUrlMap proxy))
  = Ok urlMap ->
  computepb.DefaultService urlMap
  = Some (servicePrefix ++ "/backendServices/svc-1")%string ->
  computepb.DefaultRouteAction urlMap = None ->
  computepb.PathMatchers urlMap = [] ->
  backendServiceAnswer pd project region "svc-1" = Ok backendService ->
  computepb.BackendService_GetName backendService = "svc-1" ->
  run_Read (configured pd) (decoded data)
  = resolved data (strconv.FormatUint (computepb.GetId backendService)) "svc-1"
      [listCall project region;
       proxyCall project region "proxy-1";
       urlMapCall project region (lastSegment (computepb.GetUrlMap proxy));
       backendServiceCall project region "svc-1"].
Proof.
  intros project region Hsettled Hns Hgw Hlist Hdesc Htarget Hproxy HurlMap
    Hdefault Haction Hmatchers Hservice Hname.
  assert (Hdone : failure (listAnswer pd project region) = None)
    by (rewrite Hlist; reflexivity).
  assert (Hsole : matchingRules data (listAnswer pd project region) = [rule]).
  { unfold matchingRules. rewrite Hlist. cbn [rules filter].
    unfold matchesGateway.
    rewrite Hdesc, gatewayDescription_decodes, Hns, Hgw. reflexivity. }
  assert (Hsplit : strings.Split (computepb.GetTarget rule) "/"
                   = strings.Split targetPrefix "/"
                       ++ ["targetHttpsProxies"; "proxy-1"]).
  { rewrite Htarget.
    change (targetPrefix ++ "/targetHttpsProxies/proxy-1")%string
      with (targetPrefix ++ String "/" "targetHttpsProxies/proxy-1")%string.
    rewrite Split_app_sep. reflexivity. }
  assert (Hpaths : eligibleBackendServicePaths urlMap
                   = [Some (servicePrefix ++ "/backendServices/svc-1")%string]).
  { rewrite eligibleBackendServicePaths_spec. unfold spec_candidatePaths,
      collectedRouteActions. rewrite Hdefault, Haction, Hmatchers.
    reflexivity. }
  assert (Hlast : lastSegment (servicePrefix ++ "/backendServices/svc-1")
                  = "svc-1").
  { unfold lastSegment.
    change (servicePrefix ++ "/backendServices/svc-1")%string
      with (servicePrefix ++ String "/" "backendServices/svc-1")%string.
    rewrite Split_app_sep.
    change (strings.Split "backendServices/svc-1" "/")
      with ["backendServices"; "svc-1"].
    apply last_two. }
  subst project region.
  rewrite (Read_settled _ _ Hsettled).
  rewrite (resolve_urlMap pd data rule Hdone Hsole _ "proxy-1" proxy urlMap
             Hsplit Hproxy HurlMap).
  unfold bind at 1. rewrite selectBackendServicePath_run, Hpaths.
  rewrite lookupBackendService_run. cbv zeta. rewrite Hlast, Hservice, Hname.
  reflexivity.
Qed.

Lemma end_to_end_witness :
  run_Read (configured (cloud (listing [fr_1]) (Ok (serviceUrlMap (Some svc_1) []))))
    (decoded (gatewayRequest types.StringNull))
  = resolved (gatewayRequest types.StringNull) "4711" "svc-1"
      [GlobalForwardingRules_List "my-gcp-project";
       TargetHttpsProxies_Get "my-gcp-project" "proxy-1";
       UrlMaps_Get "my-gcp-project" "url-map-1";
       BackendServices_Get "my-gcp-project" "svc-1"].
Proof.
  apply (end_to_end
           (cloud (listing [fr_1]) (Ok (serviceUrlMap (Some svc_1) [])))
           (gatewayRequest types.StringNull) fr_1
           "https://www.googleapis.com/compute/v1/projects/my-gcp-project/global"
           "https://www.googleapis.com/compute/v1/projects/my-gcp-project/global"
           {| computepb.thp_UrlMap :=
                Some "https://www.googleapis.com/compute/v1/projects/my-gcp-project/global/urlMaps/url-map-1" |}
           (serviceUrlMap (Some svc_1) [])
           {| computepb.bs_Id := Some 4711%N;
              computepb.bs_Name := Some "svc-1" |});
    reflexivity.
Defined.

(** C3: the backend service paths extracted from a URL map are exactly its
    default service when there is one, then the default service of each
    path matcher that has one, in the order of the matchers, then, for the
    collected route actions (the default of the map, then for each matcher
    its default and those of its route rules), the paths of the weighted
    backend services of every action that is there and carries no fault
    injection policy, in their order.  An action carrying a fault injection
    policy contributes nothing, whatever its weighted backend services. *)
Theorem candidate_extraction (urlMap : computepb.UrlMap) :
  eligibleBackendServicePaths urlMap = spec_candidatePaths urlMap
  /\ (forall policy services,
        contribution
          (Some {| computepb.FaultInjectionPolicy := Some policy;
                   computepb.WeightedBackendServices := services |}) = [])
  /\ (forall policy services,
        eligibleBackendServicePaths
          {| computepb.DefaultRouteAction :=
               Some {| computepb.FaultInjectionPolicy := Some policy;
                       computepb.WeightedBackendServices := services |};
             computepb.DefaultService := computepb.DefaultService urlMap;
             computepb.PathMatchers := computepb.PathMatchers urlMap |}
        = eligibleBackendServicePaths
            {| computepb.DefaultRouteAction := None;
               computepb.DefaultService := computepb.DefaultService urlMap;
               computepb.PathMatchers := computepb.PathMatchers urlMap |}).
Proof.
  split; [apply eligibleBackendServicePaths_spec|]. split.
  - reflexivity.
  - intros policy services. rewrite !eligibleBackendServicePaths_spec.
    reflexivity.
Qed.

(** C4: a forwarding rule matches exactly when its description decodes and
    the decoded record has the field k8sResource set to a value equal, byte
    for byte, to "/namespaces/{namespace}/gateways/{gateway}"; the JSON
    object GKE writes for that key does match.  A description that does not
    decode, one without the field, and a value that is a prefix, a suffix
    or a case variant of the key are no match, and the iteration goes over
    them without diagnostic. *)
Theorem correlation_match
  (data : BackendServiceDataSourceModel) (rule : computepb.ForwardingRule) :
  (matchesGateway data rule = true
   <-> exists frd,
         json_Unmarshal (computepb.GetDescription rule) = Some frd
         /\ K8sResource frd = Some (correlationKey data))
  /\ (forall name target,
        plain (correlationKey data) = true ->
        matchesGateway data
          (forwardingRule name (gatewayDescription (correlationKey data))
             target) = true)
  /\ (json_Unmarshal (computepb.GetDescription rule) = None ->
      matchesGateway data rule = false)
  /\ (json_Unmarshal (computepb.GetDescription rule)
      = Some {| K8sResource := None |} ->
      matchesGateway data rule = false)
  /\ (forall value,
        json_Unmarshal (computepb.GetDescription rule)
        = Some {| K8sResource := Some value |} ->
        value <> correlationKey data ->
        matchesGateway data rule = false)
  /\ (forall remaining acc w,
        iterateForwardingRules data remaining None acc w
        = (Continue (acc ++ filter (matchesGateway data) remaining), w))
  /\ matchesGateway (gatewayRequest types.StringNull) fr_1 = true
  /\ map (matchesGateway (gatewayRequest types.StringNull)) strayRules
     = [false; false; false; false; false; false; false]
  /\ run_Read (configured (cloud (listing strayRules) (Ok bareUrlMap)))
       (decoded (gatewayRequest types.StringNull))
     = emptySuccess [GlobalForwardingRules_List "my-gcp-project"].
Proof.
  split; [|split; [|split; [|split; [|split; [|split; [|split; [|split]]]]]]].
  - unfold matchesGateway, correlationKey.
    destruct (json_Unmarshal (computepb.GetDescription rule)) as [[[v|]]|];
      cbn [K8sResource].
    + rewrite String.eqb_eq. split.
      * intros ->. eexists. split; reflexivity.
      * intros [frd [E1 E2]]. injection E1 as <-. simpl in E2.
        now injection E2.
    + split; [discriminate|]. intros [frd [E1 E2]].
      injection E1 as <-. discriminate.
    + split; [discriminate|]. intros [frd [E1 E2]]. discriminate.
  - intros name target Hplain. unfold matchesGateway.
    change (computepb.GetDescription
              (forwardingRule name (gatewayDescription (correlationKey data))
                 target))
      with (gatewayDescription (correlationKey data)).
    rewrite (gatewayDescription_decodes_plain _ Hplain). cbn [K8sResource].
    apply String.eqb_refl.
  - unfold matchesGateway. intros ->. reflexivity.
  - unfold matchesGateway. intros ->. reflexivity.
  - unfold matchesGateway, correlationKey. intros value -> Hne.
    cbn [K8sResource]. now apply String.eqb_neq.
  - intros remaining acc w. apply iterateForwardingRules_run.
  - vm_compute. reflexivity.
  - vm_compute. reflexivity.
  - vm_compute. reflexivity.
Qed.

Lemma correlation_match_witness :
  matchesGateway (gatewayRequest types.StringNull)
    (forwardingRule "plain" "my load balancer" httpsTarget) = false
  /\ matchesGateway (gatewayRequest types.StringNull)
       (forwardingRule "empty" "{}" httpsTarget) = false
  /\ matchesGateway (gatewayRequest types.StringNull)
       (forwardingRule "prefix"
          (gatewayDescription "/namespaces/my-cool-app/gateways/my-gateway")
          httpsTarget) = false.
Proof.
  split; [|split].
  - apply (proj1 (proj2 (proj2 (correlation_match
                                  (gatewayRequest types.StringNull)
                                  (forwardingRule "plain" "my load balancer"
                                     httpsTarget))))).
    vm_compute. reflexivity.
  - apply (proj1 (proj2 (proj2 (proj2 (correlation_match
                                  (gatewayRequest types.StringNull)
                                  (forwardingRule "empty" "{}" httpsTarget)))))).
    vm_compute. reflexivity.
  - apply (proj1 (proj2 (proj2 (proj2 (proj2 (correlation_match
                                  (gatewayRequest types.StringNull)
                                  (forwardingRule "prefix"
                                     (gatewayDescription
                                        "/namespaces/my-cool-app/gateways/my-gateway")
                                     httpsTarget))))))
             "/namespaces/my-cool-app/gateways/my-gateway").
    + vm_compute. reflexivity.
    + vm_compute. discriminate.
Defined.

(** C7: within one execution of [Read], every client call goes to the
    regional variant of its client when the region in force is set, and to
    the global variant when it is null; this holds for the four kinds of
    resources, as the complete traces of a global and of a regional
    resolution show. *)
Theorem single_variant (d : BackendServiceDataSource) (req : ReadRequest) :
  match providerData d with
  | Some pd =>
      Forall
        (fun c =>
           regional c
           = negb (types.IsNull (effectiveRegion pd (snd (Config_Get req)))))
        (calls (snd (run_Read d req)))
  | None => calls (snd (run_Read d req)) = []
  end
  /\ calls (snd (run_Read
                   (configured (cloud (listing [fr_1])
                                  (Ok (serviceUrlMap (Some svc_1) []))))
                   (decoded (gatewayRequest types.StringNull))))
     = [GlobalForwardingRules_List "my-gcp-project";
        TargetHttpsProxies_Get "my-gcp-project" "proxy-1";
        UrlMaps_Get "my-gcp-project" "url-map-1";
        BackendServices_Get "my-gcp-project" "svc-1"]
  /\ calls (snd (run_Read
                   (configured (cloud (listing [fr_1])
                                  (Ok (serviceUrlMap (Some svc_1) []))))
                   (decoded (gatewayRequest (types.StringValue "us-central1")))))
     = [ForwardingRules_List "my-gcp-project" "us-central1";
        RegionTargetHttpsProxies_Get "my-gcp-project" "us-central1" "proxy-1";
        RegionUrlMaps_Get "my-gcp-project" "us-central1" "url-map-1";
        RegionBackendServices_Get "my-gcp-project" "us-central1" "svc-1"].
Proof.
  split; [|split; vm_compute; reflexivity].
  pose proof (Read_in_scope d req) as H.
  destruct (providerData d) as [pd|]; [|exact H].
  eapply Forall_impl; [|exact H].
  intros c [_ Hregion]. unfold regional, scope_region in *.
  rewrite Hregion.
  destruct (types.IsNull (effectiveRegion pd (snd (Config_Get req))));
    reflexivity.
Qed.



(** ** Every way [Read] can end: the resolution *)

Lemma paths_all_set_or_not (paths : list (option string)) :
  (exists ps, paths = map Some ps)
  \/ (exists before after, paths = map Some before ++ None :: after).
Proof.
  induction paths as [|[p|] l IH].
  - left. exists []. reflexivity.
  - destruct IH as [[ps ->]|[before [after ->]]].
    + left. exists (p :: ps). reflexivity.
    + right. exists (p :: before), after. reflexivity.
  - right. exists [], l. reflexivity.
Qed.

Lemma resolve_Outcome (pd : GKEGatewayProviderData)
  (data : BackendServiceDataSourceModel)
  (project : string) (region : types.String) (w : Run) :
  Outcome pd data project region w (resolve pd data project region w).
Proof.
  unfold resolve. unfold bind at 1. rewrite locateForwardingRule_run. cbv zeta.
  destruct (failure (listAnswer pd project region)) as [err|] eqn:Hfail.
  { destruct (is404 err) eqn:H404;
      [eapply scope_absent | eapply iteration_failed]; eassumption. }
  destruct (matchingRules data (listAnswer pd project region))
    as [|rule [|b rest]] eqn:Hmatch.
  { apply no_rule; assumption. }
  2: { eapply many_rules; assumption. }
  assert (Hloc : Located pd data project region rule) by (split; assumption).
  unfold bind at 1.
  destruct (strings.Contains (computepb.GetTarget rule) "/") eqn:Hsep.
  2: { rewrite (lookupTarget_panics _ _ _ _ _ Hsep).
       apply target_panic with (rule := rule); assumption. }
  destruct (Contains_Split _ _ Hsep) as [pre [kind [name Hsplit]]].
  rewrite (lookupTarget_run _ _ _ _ _ _ _ _ Hsplit).
  destruct (String.eqb kind "targetHttpsProxies") eqn:Hkind.
  2: { eapply unsupported; eassumption. }
  apply String.eqb_eq in Hkind. subst kind.
  assert (Htgt : Targeted pd data project region rule name)
    by (split; [assumption | exists pre; assumption]).
  cbv zeta.
  destruct (proxyAnswer pd project region name) as [proxy|err] eqn:Hproxy.
  2: { eapply proxy_failed; eassumption. }
  assert (Hprx : Proxied pd data project region rule name
                   (lastSegment (computepb.GetUrlMap proxy)))
    by (split; [assumption | exists proxy; split; [assumption | reflexivity]]).
  unfold bind at 1. rewrite lookupUrlMap_run. cbv zeta.
  destruct (urlMapAnswer pd project region
              (lastSegment (computepb.GetUrlMap proxy)))
    as [urlMap|err] eqn:HurlMap.
  2: { eapply urlMap_failed; eassumption. }
  assert (Hmap : Mapped pd data project region rule name
                   (lastSegment (computepb.GetUrlMap proxy)) urlMap)
    by (split; assumption).
  unfold bind at 1. rewrite selectBackendServicePath_run.
  destruct (paths_all_set_or_not (eligibleBackendServicePaths urlMap))
    as [[ps Hps]|[before [after Hnil]]].
  - rewrite Hps. destruct ps as [|p1 [|p2 ps]]; cbn [map].
    + eapply no_service; eassumption.
    + rewrite lookupBackendService_run. cbv zeta.
      destruct (backendServiceAnswer pd project region (lastSegment p1))
        as [backendService|err] eqn:Hservice.
      * eapply service_stored; eassumption.
      * eapply service_failed; eassumption.
    + change (Some p1 :: Some p2 :: map Some ps)
        with (map Some (p1 :: p2 :: ps)).
      rewrite backendServicesDebugMessage_lines.
      eapply many_services; eassumption.
  - rewrite Hnil.
    destruct before as [|p1 before]; [destruct after as [|q after]|];
      cbn [map app].
    + eapply path_panic; [eassumption | rewrite Hnil; reflexivity].
    + change (None :: q :: after) with (map Some [] ++ None :: q :: after).
      rewrite backendServicesDebugMessage_nil_path.
      eapply path_panic; [eassumption | rewrite Hnil; reflexivity].
    + destruct (map Some before ++ None :: after) as [|x l] eqn:E.
      { destruct before; discriminate. }
      rewrite <- E.
      change (Some p1 :: map Some before ++ None :: after)
        with (map Some (p1 :: before) ++ None :: after).
      rewrite backendServicesDebugMessage_nil_path.
      eapply path_panic; [eassumption | rewrite Hnil; reflexivity].
Qed.

Lemma AddError_appends (diags : diag.Diagnostics) (summary detail : string) :
  diag.HasError diags = false ->
  diag.AddError diags summary detail
  = diags ++ [diag.NewErrorDiagnostic summary detail].
Proof.
  intros Hno. unfold diag.AddError, diag.Append. cbn [fold_left].
  destruct (diag.Contains diags (diag.NewErrorDiagnostic summary detail))
    eqn:Hin; [|reflexivity].
  exfalso. unfold diag.Contains in Hin. apply existsb_exists in Hin.
  destruct Hin as [x [Hx Heq]].
  assert (Hex : diag.HasError diags = true).
  { unfold diag.HasError. apply existsb_exists. exists x. split; [exact Hx|].
    unfold diag.Equal in Heq. apply andb_prop in Heq as [Heq _].
    apply andb_prop in Heq as [Heq _]. cbn [diag.severity diag.NewErrorDiagnostic] in Heq.
    destruct (diag.severity x); [reflexivity | discriminate]. }
  rewrite Hno in Hex. discriminate.
Qed.

Lemma Split_components (s : string) (sep : ascii) :
  Forall (fun c => strings.Contains c sep = false) (strings.Split s sep).
Proof.
  induction s as [|c r IH]; cbn [strings.Split].
  - constructor; [reflexivity | constructor].
  - destruct (Ascii.eqb c sep) eqn:E.
    + constructor; [reflexivity | exact IH].
    + destruct (strings.Split r sep) as [|h t].
      * constructor; [cbn [strings.Contains]; rewrite E; reflexivity | constructor].
      * inversion IH as [|? ? Hh Ht]; subst.
        constructor; [|exact Ht].
        cbn [strings.Contains]. rewrite E. exact Hh.
Qed.

Lemma lastSegment_no_separator (path : string) :
  strings.Contains (lastSegment path) "/" = false.
Proof.
  unfold lastSegment.
  pose proof (Split_components path "/") as H.
  pose proof (Split_not_nil path "/") as Hne.
  destruct (exists_last Hne) as [l [x E]]. rewrite E in *.
  rewrite last_last. apply Forall_app in H as [_ H].
  inversion H; assumption.
Qed.

Lemma penultimate_no_separator (s : string) (pre : list string)
  (a b : string) :
  strings.Split s "/" = pre ++ [a; b] ->
  strings.Contains a "/" = false /\ strings.Contains b "/" = false.
Proof.
  intros E. pose proof (Split_components s "/") as H. rewrite E in H.
  apply Forall_app in H as [_ H].
  inversion H as [|? ? Ha H']; subst. inversion H' as [|? ? Hb _]; subst.
  split; assumption.
Qed.

(** A path that is not set comes from a weighted backend service without
    backend service, in a route action without fault injection policy. *)
Lemma unset_path_origin (urlMap : computepb.UrlMap) :
  In None (eligibleBackendServicePaths urlMap)
  <-> exists action wbs,
        In (Some action) (collectedRouteActions urlMap)
        /\ computepb.FaultInjectionPolicy action = None
        /\ In wbs (computepb.WeightedBackendServices action)
        /\ computepb.wbs_BackendService wbs = None.
Proof.
  rewrite eligibleBackendServicePaths_spec. unfold spec_candidatePaths.
  split.
  - intros H. apply in_app_or in H as [H|H].
    { destruct (computepb.DefaultService urlMap); simpl in H;
        [destruct H as [H|[]]; discriminate | contradiction]. }
    apply in_app_or in H as [H|H].
    { apply in_flat_map in H as [m [_ H]].
      destruct (computepb.pm_DefaultService m); simpl in H;
        [destruct H as [H|[]]; discriminate | contradiction]. }
    apply in_flat_map in H as [[action|] [Hin H]]; [|contradiction].
    unfold contribution in H.
    destruct (computepb.FaultInjectionPolicy action) eqn:Hf; [contradiction|].
    apply in_map_iff in H as [wbs [Hnone Hwbs]].
    exists action, wbs. repeat split; assumption.
  - intros [action [wbs [Hin [Hf [Hwbs Hnone]]]]].
    apply in_or_app. right. apply in_or_app. right.
    apply in_flat_map. exists (Some action). split; [exact Hin|].
    unfold contribution. rewrite Hf. apply in_map_iff.
    exists wbs. split; assumption.
Qed.

Lemma unset_path_position (paths : list (option string)) :
  In None paths ->
  exists before after, paths = map Some before ++ None :: after.
Proof.
  intros H. destruct (paths_all_set_or_not paths) as [[ps ->]|E]; [|exact E].
  apply in_map_iff in H as [x [Hx _]]. discriminate.
Qed.

(** ** What every execution of [Read] guarantees *)

(** X1: [Read] never leaves a partial result.  Whatever the data source,
    the configuration and the answers of the clients, it ends in one of
    three ways: with nothing but the diagnostics of the configuration and
    no state; with no state and exactly one more diagnostic, an error,
    after a [return]; or at its end, with the state stored for a fetched
    backend service and no diagnostic added. *)
Theorem no_partial_result (d : BackendServiceDataSource)
  (diags : diag.Diagnostics) (data : BackendServiceDataSourceModel) :
  let out := run_Read d {| Config_Get := (diags, data) |} in
  (State (resp (snd out)) = None
   /\ Diagnostics (resp (snd out)) = configDiagnostics diags)
  \/ (State (resp (snd out)) = None
      /\ fst out = Returned
      /\ diag.HasError (configDiagnostics diags) = false
      /\ exists summary detail,
           Diagnostics (resp (snd out))
           = configDiagnostics diags
               ++ [diag.NewErrorDiagnostic summary detail])
  \/ (fst out = Continue tt
      /\ Diagnostics (resp (snd out)) = configDiagnostics diags
      /\ diag.HasError (configDiagnostics diags) = false
      /\ exists backendService,
           State (resp (snd out)) = Some (storedModel data backendService)).
Proof.
  cbv zeta. rewrite Read_run. unfold configDiagnostics.
  destruct (diag.HasError (diag.Append [] diags)) eqn:Hno.
  { left. split; reflexivity. }
  assert (Herr : forall summary detail w,
            Diagnostics (resp w) = diag.Append [] diags ->
            State (resp w) = None ->
            State (resp (failed summary detail w)) = None
            /\ @Returned unit = Returned
            /\ false = false
            /\ exists s dt,
                 Diagnostics (resp (failed summary detail w))
                 = diag.Append [] diags ++ [diag.NewErrorDiagnostic s dt]).
  { intros summary detail w HD HS. cbn [failed resp State Diagnostics].
    rewrite HD, (AddError_appends _ _ _ Hno).
    repeat split; [exact HS|]. exists summary, detail. reflexivity. }
  destruct (providerData d) as [pd|]; [|left; split; reflexivity].
  destruct (types.IsNull (project pd) && types.IsNull (Project data)).
  { right. left. apply Herr; reflexivity. }
  destruct (types.IsUnknown (Project data)).
  { right. left. apply Herr; reflexivity. }
  destruct (types.IsUnknown (Region data)).
  { right. left. apply Herr; reflexivity. }
  destruct (resolve_Outcome pd data (effectiveProject pd data)
              (effectiveRegion pd data) (entered diags));
    try (left; split; reflexivity);
    try (right; left; apply Herr; reflexivity).
  right. right. repeat split. eexists. reflexivity.
Qed.

Ltac trace_of proxyName urlMapName serviceName n :=
  exists proxyName, urlMapName, serviceName, n;
  repeat split;
  try reflexivity; try assumption; try apply lastSegment_no_separator;
  try (let H := fresh in intros H; exfalso; apply H; reflexivity).

(** X2: the client calls of [Read] follow the pipeline.  Its trace is an
    initial part of: the listing of the forwarding rules, the fetch of one
    target HTTPS proxy, the fetch of one URL map, the fetch of one backend
    service, all for the project and the region in force.  No client is
    called twice, the names fetched contain no "/", and a state is stored
    only after the four calls. *)
Theorem calls_follow_the_pipeline (pd : GKEGatewayProviderData)
  (diags : diag.Diagnostics) (data : BackendServiceDataSourceModel) :
  let out := run_Read (configured pd) {| Config_Get := (diags, data) |} in
  exists proxyName urlMapName serviceName n,
    calls (snd out)
    = firstn n (pipelineCalls (effectiveProject pd data)
                  (effectiveRegion pd data) proxyName urlMapName serviceName)
    /\ strings.Contains proxyName "/" = false
    /\ strings.Contains urlMapName "/" = false
    /\ strings.Contains serviceName "/" = false
    /\ (State (resp (snd out)) <> None -> n = 4%nat).
Proof.
  cbv zeta. rewrite Read_run. cbn [configured providerData].
  destruct (diag.HasError (diag.Append [] diags));
    [trace_of EmptyString EmptyString EmptyString 0%nat|].
  destruct (types.IsNull (project pd) && types.IsNull (Project data));
    [trace_of EmptyString EmptyString EmptyString 0%nat|].
  destruct (types.IsUnknown (Project data));
    [trace_of EmptyString EmptyString EmptyString 0%nat|].
  destruct (types.IsUnknown (Region data));
    [trace_of EmptyString EmptyString EmptyString 0%nat|].
  destruct (resolve_Outcome pd data (effectiveProject pd data)
              (effectiveRegion pd data) (entered diags))
    as [ | | | | |
         | rule proxyName err Ht
         | rule proxyName urlMapName err Hp
         | rule proxyName urlMapName urlMap Hm
         | rule proxyName urlMapName urlMap p1 p2 ps Hm
         | rule proxyName urlMapName urlMap before after Hm
         | rule proxyName urlMapName urlMap path err Hm
         | rule proxyName urlMapName urlMap path backendService Hm ].
  1-6: trace_of EmptyString EmptyString EmptyString 1%nat.
  - destruct Ht as [_ [pre Hsplit]].
    destruct (penultimate_no_separator _ _ _ _ Hsplit) as [_ Hname].
    trace_of proxyName EmptyString EmptyString 2%nat.
  - destruct Hp as [[_ [pre Hsplit]] [proxy [_ ->]]].
    destruct (penultimate_no_separator _ _ _ _ Hsplit) as [_ Hname].
    trace_of proxyName (lastSegment (computepb.GetUrlMap proxy)) EmptyString
      3%nat.
  - destruct Hm as [[[_ [pre Hsplit]] [proxy [_ ->]]] _].
    destruct (penultimate_no_separator _ _ _ _ Hsplit) as [_ Hname].
    trace_of proxyName (lastSegment (computepb.GetUrlMap proxy)) EmptyString
      3%nat.
  - destruct Hm as [[[_ [pre Hsplit]] [proxy [_ ->]]] _].
    destruct (penultimate_no_separator _ _ _ _ Hsplit) as [_ Hname].
    trace_of proxyName (lastSegment (computepb.GetUrlMap proxy)) EmptyString
      3%nat.
  - destruct Hm as [[[_ [pre Hsplit]] [proxy [_ ->]]] _].
    destruct (penultimate_no_separator _ _ _ _ Hsplit) as [_ Hname].
    trace_of proxyName (lastSegment (computepb.GetUrlMap proxy)) EmptyString
      3%nat.
  - destruct Hm as [[[_ [pre Hsplit]] [proxy [_ ->]]] _].
    destruct (penultimate_no_separator _ _ _ _ Hsplit) as [_ Hname].
    trace_of proxyName (lastSegment (computepb.GetUrlMap proxy))
      (lastSegment path) 4%nat.
  - destruct Hm as [[[_ [pre Hsplit]] [proxy [_ ->]]] _].
    destruct (penultimate_no_separator _ _ _ _ Hsplit) as [_ Hname].
    trace_of proxyName (lastSegment (computepb.GetUrlMap proxy))
      (lastSegment path) 4%nat.
Qed.

(** X3: a configured [Read] panics for two reasons only.  An index out of
    range means that the one matching forwarding rule has a target without
    "/"; a nil dereference means that a URL map the client answered holds,
    in a route action without fault injection policy, a weighted backend
    service whose backend service is not set. *)
Theorem panics_have_a_cause (pd : GKEGatewayProviderData)
  (diags : diag.Diagnostics) (data : BackendServiceDataSourceModel)
  (p : panic) :
  let project := effectiveProject pd data in
  let region := effectiveRegion pd data in
  fst (run_Read (configured pd) {| Config_Get := (diags, data) |})
  = Panicked p ->
  (p = IndexOutOfRange (-1) 1
   /\ exists rule,
        matchingRules data (listAnswer pd project region) = [rule]
        /\ strings.Contains (computepb.GetTarget rule) "/" = false)
  \/ (p = NilDereference
      /\ exists urlMapName urlMap action wbs,
           urlMapAnswer pd project region urlMapName = Ok urlMap
           /\ In (Some action) (collectedRouteActions urlMap)
           /\ computepb.FaultInjectionPolicy action = None
           /\ In wbs (computepb.WeightedBackendServices action)
           /\ computepb.wbs_BackendService wbs = None).
Proof.
  cbv zeta. rewrite Read_run. cbn [configured providerData].
  destruct (diag.HasError (diag.Append [] diags)); [discriminate|].
  destruct (types.IsNull (project pd) && types.IsNull (Project data));
    [discriminate|].
  destruct (types.IsUnknown (Project data)); [discriminate|].
  destruct (types.IsUnknown (Region data)); [discriminate|].
  destruct (resolve_Outcome pd data (effectiveProject pd data)
              (effectiveRegion pd data) (entered diags))
    as [ | | | | rule Hloc Hsep | | | | |
         | rule proxyName urlMapName urlMap before after Hm Hnil | | ];
    try discriminate; cbn [fst]; intros E; injection E as <-.
  - left. split; [reflexivity|]. exists rule. split; [apply Hloc | exact Hsep].
  - right. split; [reflexivity|].
    assert (Hin : In None (eligibleBackendServicePaths urlMap)).
    { rewrite Hnil. apply in_or_app. right. left. reflexivity. }
    apply unset_path_origin in Hin as [action [wbs H]].
    exists urlMapName, urlMap, action, wbs. split; [apply Hm | exact H].
Qed.

Lemma panics_have_a_cause_witness :
  (IndexOutOfRange (-1) 1 = IndexOutOfRange (-1) 1
   /\ exists rule,
        matchingRules (gatewayRequest types.StringNull)
          (listAnswer (cloud (listing [bareTargetRule]) (Ok bareUrlMap))
             (effectiveProject (cloud (listing [bareTargetRule]) (Ok bareUrlMap))
                (gatewayRequest types.StringNull))
             (effectiveRegion (cloud (listing [bareTargetRule]) (Ok bareUrlMap))
                (gatewayRequest types.StringNull)))
        = [rule]
        /\ strings.Contains (computepb.GetTarget rule) "/" = false)
  \/ (IndexOutOfRange (-1) 1 = NilDereference
      /\ exists urlMapName urlMap action wbs,
           urlMapAnswer (cloud (listing [bareTargetRule]) (Ok bareUrlMap))
             (effectiveProject (cloud (listing [bareTargetRule]) (Ok bareUrlMap))
                (gatewayRequest types.StringNull))
             (effectiveRegion (cloud (listing [bareTargetRule]) (Ok bareUrlMap))
                (gatewayRequest types.StringNull))
             urlMapName
           = Ok urlMap
           /\ In (Some action) (collectedRouteActions urlMap)
           /\ computepb.FaultInjectionPolicy action = None
           /\ In wbs (computepb.WeightedBackendServices action)
           /\ computepb.wbs_BackendService wbs = None).
Proof.
  apply (panics_have_a_cause (cloud (listing [bareTargetRule]) (Ok bareUrlMap))
           [] (gatewayRequest types.StringNull) (IndexOutOfRange (-1) 1)).
  reflexivity.
Defined.

(** X4: when the pipeline reaches a URL map holding, in a route action
    without fault injection policy, a weighted backend service whose
    backend service is not set, [Read] panics on the nil path: no
    diagnostic, no state, and the lookup of the URL map is the last call. *)
Theorem unset_backend_service_panics
  (pd : GKEGatewayProviderData) (data : BackendServiceDataSourceModel)
  (rule : computepb.ForwardingRule) (pre : list string) (proxyName : string)
  (proxy : computepb.TargetHttpsProxy) (urlMap : computepb.UrlMap)
  (action : computepb.HttpRouteAction)
  (wbs : computepb.WeightedBackendService) :
  let project := effectiveProject pd data in
  let region := effectiveRegion pd data in
  settled pd data = true ->
  failure (listAnswer pd project region) = None ->
  matchingRules data (listAnswer pd project region) = [rule] ->
  strings.Split (computepb.GetTarget rule) "/"
  = pre ++ ["targetHttpsProxies"; proxyName] ->
  proxyAnswer pd project region proxyName = Ok proxy ->
  urlMapAnswer pd project region (lastSegment (computepb.GetUrlMap proxy))
  = Ok urlMap ->
  In (Some action) (collectedRouteActions urlMap) ->
  computepb.FaultInjectionPolicy action = None ->
  In wbs (computepb.WeightedBackendServices action) ->
  computepb.wbs_BackendService wbs = None ->
  run_Read (configured pd) (decoded data)
  = (Panicked NilDereference,
     {| resp := {| Diagnostics := []; State := None |};
        calls := [listCall project region;
                  proxyCall project region proxyName;
                  urlMapCall project region
                    (lastSegment (computepb.GetUrlMap proxy))] |}).
Proof.
  intros project region Hsettled Hdone Hsole Htarget Hproxy HurlMap
    Hin Hfault Hwbs Hunset.
  assert (Hnone : In None (eligibleBackendServicePaths urlMap)).
  { apply unset_path_origin. exists action, wbs. repeat split; assumption. }
  apply unset_path_position in Hnone as [before [after Hnil]].
  rewrite (Read_settled _ _ Hsettled).
  rewrite (resolve_urlMap pd data rule Hdone Hsole pre proxyName proxy urlMap
             Htarget Hproxy HurlMap).
  unfold bind at 1. rewrite selectBackendServicePath_run, Hnil.
  destruct before as [|p1 before]; [destruct after as [|q after]|];
    cbn [map app].
  - reflexivity.
  - change (None :: q :: after) with (map Some [] ++ None :: q :: after).
    rewrite backendServicesDebugMessage_nil_path. reflexivity.
  - destruct (map Some before ++ None :: after) as [|x l] eqn:E.
    { destruct before; discriminate. }
    rewrite <- E.
    change (Some p1 :: map Some before ++ None :: after)
      with (map Some (p1 :: before) ++ None :: after).
    rewrite backendServicesDebugMessage_nil_path. reflexivity.
Qed.

Lemma unset_backend_service_panics_witness :
  run_Read (configured (cloud (listing [fr_1]) (Ok unsetWeightUrlMap)))
    (decoded (gatewayRequest types.StringNull))
  = (Panicked NilDereference,
     {| resp := {| Diagnostics := []; State := None |};
        calls := [GlobalForwardingRules_List "my-gcp-project";
                  TargetHttpsProxies_Get "my-gcp-project" "proxy-1";
                  UrlMaps_Get "my-gcp-project" "url-map-1"] |}).
Proof.
  apply (unset_backend_service_panics
           (cloud (listing [fr_1]) (Ok unsetWeightUrlMap))
           (gatewayRequest types.StringNull) fr_1
           ["https:"; EmptyString; "www.googleapis.com"; "compute"; "v1";
            "projects"; "my-gcp-project"; "global"]
           "proxy-1" proxy_1 unsetWeightUrlMap
           {| computepb.FaultInjectionPolicy := None;
              computepb.WeightedBackendServices :=
                [ {| computepb.wbs_BackendService := Some svc_1;
                     computepb.Weight := Some 90%N |};
                  {| computepb.wbs_BackendService := None;
                     computepb.Weight := Some 10%N |} ] |}
           {| computepb.wbs_BackendService := None;
              computepb.Weight := Some 10%N |});
    try reflexivity; simpl; auto.
Defined.

(** ** Failing lookups *)

(** X5: when fetching the target HTTPS proxy fails, with any error (a 404
    is not set aside here, unlike in the listing), [Read] returns with the
    one error diagnostic "Error looking up HTTPS target proxy" followed by
    the name of the proxy, the text of the error in its detail; no URL map
    is looked up. *)
Theorem proxy_lookup_failure
  (pd : GKEGatewayProviderData) (data : BackendServiceDataSourceModel)
  (rule : computepb.ForwardingRule) (pre : list string) (proxyName : string)
  (err : error) :
  let project := effectiveProject pd data in
  let region := effectiveRegion pd data in
  settled pd data = true ->
  failure (listAnswer pd project region) = None ->
  matchingRules data (listAnswer pd project region) = [rule] ->
  strings.Split (computepb.GetTarget rule) "/"
  = pre ++ ["targetHttpsProxies"; proxyName] ->
  proxyAnswer pd project region proxyName = Err err ->
  run_Read (configured pd) (decoded data)
  = failure_with ("Error looking up HTTPS target proxy " ++ proxyName)
      ("Error calling Google API: " ++ error_text err)
      [listCall project region; proxyCall project region proxyName].
Proof.
  intros project region Hsettled Hdone Hsole Htarget Hproxy.
  rewrite (Read_settled _ _ Hsettled).
  rewrite (resolve_sole_rule pd data rule Hdone Hsole).
  unfold bind at 1. rewrite (lookupTarget_run _ _ _ _ _ _ _ _ Htarget).
  cbn [String.eqb Ascii.eqb Bool.eqb]. cbv zeta.
  fold project region. rewrite Hproxy. reflexivity.
Qed.

Lemma proxy_lookup_failure_witness :
  run_Read
    (configured (cloudAnswering (listing [fr_1]) (Err notFound)
                   (Ok bareUrlMap) (fun _ => Err notFound)))
    (decoded (gatewayRequest (types.StringValue "us-central1")))
  = failure_with ("Error looking up HTTPS target proxy " ++ "proxy-1")
      ("Error calling Google API: " ++ error_text notFound)
      [ForwardingRules_List "my-gcp-project" "us-central1";
       RegionTargetHttpsProxies_Get "my-gcp-project" "us-central1" "proxy-1"].
Proof.
  apply (proxy_lookup_failure
           (cloudAnswering (listing [fr_1]) (Err notFound)
              (Ok bareUrlMap) (fun _ => Err notFound))
           (gatewayRequest (types.StringValue "us-central1")) fr_1
           ["https:"; EmptyString; "www.googleapis.com"; "compute"; "v1";
            "projects"; "my-gcp-project"; "global"]
           "proxy-1" notFound);
    reflexivity.
Defined.

(** X6: when fetching the URL map of the proxy fails, with any error,
    [Read] returns with the one error diagnostic "Error looking up URL map"
    followed by the last component of the proxy's URL map reference; no
    backend service is looked up. *)
Theorem urlMap_lookup_failure
  (pd : GKEGatewayProviderData) (data : BackendServiceDataSourceModel)
  (rule : computepb.ForwardingRule) (pre : list string) (proxyName : string)
  (proxy : computepb.TargetHttpsProxy) (err : error) :
  let project := effectiveProject pd data in
  let region := effectiveRegion pd data in
  let urlMapName := lastSegment (computepb.GetUrlMap proxy) in
  settled pd data = true ->
  failure (listAnswer pd project region) = None ->
  matchingRules data (listAnswer pd project region) = [rule] ->
  strings.Split (computepb.GetTarget rule) "/"
  = pre ++ ["targetHttpsProxies"; proxyName] ->
  proxyAnswer pd project region proxyName = Ok proxy ->
  urlMapAnswer pd project region urlMapName = Err err ->
  run_Read (configured pd) (decoded data)
  = failure_with ("Error looking up URL map " ++ urlMapName)
      ("Error calling Google API: " ++ error_text err)
      [listCall project region;
       proxyCall project region proxyName;
       urlMapCall project region urlMapName].
Proof.
  intros project region urlMapName Hsettled Hdone Hsole Htarget Hproxy HurlMap.
  rewrite (Read_settled _ _ Hsettled).
  rewrite (resolve_sole_rule pd data rule Hdone Hsole).
  unfold bind at 1. rewrite (lookupTarget_run _ _ _ _ _ _ _ _ Htarget).
  cbn [String.eqb Ascii.eqb Bool.eqb]. cbv zeta.
  fold project region. rewrite Hproxy.
  unfold bind at 1. rewrite lookupUrlMap_run. cbv zeta.
  fold urlMapName. rewrite HurlMap. reflexivity.
Qed.

Lemma urlMap_lookup_failure_witness :
  run_Read
    (configured (cloudAnswering (listing [fr_1]) (Ok proxy_1)
                   (Err notFound) (fun _ => Err notFound)))
    (decoded (gatewayRequest types.StringNull))
  = failure_with ("Error looking up URL map " ++ "url-map-1")
      ("Error calling Google API: " ++ error_text notFound)
      [GlobalForwardingRules_List "my-gcp-project";
       TargetHttpsProxies_Get "my-gcp-project" "proxy-1";
       UrlMaps_Get "my-gcp-project" "url-map-1"].
Proof.
  apply (urlMap_lookup_failure
           (cloudAnswering (listing [fr_1]) (Ok proxy_1)
              (Err notFound) (fun _ => Err notFound))
           (gatewayRequest types.StringNull) fr_1
           ["https:"; EmptyString; "www.googleapis.com"; "compute"; "v1";
            "projects"; "my-gcp-project"; "global"]
           "proxy-1" proxy_1 notFound);
    reflexivity.
Defined.

(** X7: when the URL map yields one backend service path and fetching that
    backend service fails, with any error, [Read] returns with the one
    error diagnostic "Error looking up backend service" followed by the
    last component of the path, and stores no state. *)
Theorem backendService_lookup_failure
  (pd : GKEGatewayProviderData) (data : BackendServiceDataSourceModel)
  (rule : computepb.ForwardingRule) (pre : list string) (proxyName : string)
  (proxy : computepb.TargetHttpsProxy) (urlMap : computepb.UrlMap)
  (path : string) (err : error) :
  let project := effectiveProject pd data in
  let region := effectiveRegion pd data in
  let urlMapName := lastSegment (computepb.GetUrlMap proxy) in
  settled pd data = true ->
  failure (listAnswer pd project region) = None ->
  matchingRules data (listAnswer pd project region) = [rule] ->
  strings.Split (computepb.GetTarget rule) "/"
  = pre ++ ["targetHttpsProxies"; proxyName] ->
  proxyAnswer pd project region proxyName = Ok proxy ->
  urlMapAnswer pd project region urlMapName = Ok urlMap ->
  eligibleBackendServicePaths urlMap = [Some path] ->
  backendServiceAnswer pd project region (lastSegment path) = Err err ->
  run_Read (configured pd) (decoded data)
  = failure_with ("Error looking up backend service " ++ lastSegment path)
      ("Error calling Google API: " ++ error_text err)
      (pipelineCalls project region proxyName urlMapName (lastSegment path)).
Proof.
  intros project region urlMapName Hsettled Hdone Hsole Htarget Hproxy HurlMap
    Hone Hservice.
  rewrite (Read_settled _ _ Hsettled).
  rewrite (resolve_urlMap pd data rule Hdone Hsole pre proxyName proxy urlMap
             Htarget Hproxy HurlMap).
  unfold bind at 1. rewrite selectBackendServicePath_run, Hone.
  rewrite lookupBackendService_run. cbv zeta.
  fold project region. rewrite Hservice. reflexivity.
Qed.

Lemma backendService_lookup_failure_witness :
  run_Read
    (configured (cloudAnswering (listing [fr_1]) (Ok proxy_1)
                   (Ok (serviceUrlMap (Some svc_1) []))
                   (fun _ => Err notFound)))
    (decoded (gatewayRequest types.StringNull))
  = failure_with ("Error looking up backend service " ++ lastSegment svc_1)
      ("Error calling Google API: " ++ error_text notFound)
      (pipelineCalls "my-gcp-project" types.StringNull "proxy-1" "url-map-1"
         (lastSegment svc_1)).
Proof.
  apply (backendService_lookup_failure
           (cloudAnswering (listing [fr_1]) (Ok proxy_1)
              (Ok (serviceUrlMap (Some svc_1) []))
              (fun _ => Err notFound))
           (gatewayRequest types.StringNull) fr_1
           ["https:"; EmptyString; "www.googleapis.com"; "compute"; "v1";
            "projects"; "my-gcp-project"; "global"]
           "proxy-1" proxy_1 (serviceUrlMap (Some svc_1) []) svc_1 notFound);
    reflexivity.
Defined.

(** ** Before the resolution *)

Lemma HasError_app (a b : diag.Diagnostics) :
  diag.HasError (a ++ b) = diag.HasError a || diag.HasError b.
Proof. apply existsb_app. Qed.

Lemma Contains_error (diags : diag.Diagnostics) (d : diag.Diagnostic) :
  diag.Contains diags d = true ->
  diag.severity d = diag.SeverityError ->
  diag.HasError diags = true.
Proof.
  intros Hin Hsev. apply existsb_exists in Hin as [x [Hx Heq]].
  apply existsb_exists. exists x. split; [exact Hx|].
  unfold diag.Equal in Heq. apply andb_prop in Heq as [Heq _].
  apply andb_prop in Heq as [Heq _]. rewrite Hsev in Heq.
  destruct (diag.severity x); [reflexivity | discriminate].
Qed.

Lemma HasError_Append (diags new : diag.Diagnostics) :
  diag.HasError (diag.Append diags new)
  = diag.HasError diags || diag.HasError new.
Proof.
  unfold diag.Append. revert diags.
  induction new as [|d new IH]; intros diags; cbn [fold_left].
  - cbn. now rewrite orb_false_r.
  - rewrite IH. cbn [diag.HasError existsb].
    destruct (diag.Contains diags d) eqn:Hin.
    + destruct (diag.severity d) eqn:Hsev; cbn [diag.Severity_eqb orb].
      * rewrite (Contains_error _ _ Hin Hsev). reflexivity.
      * reflexivity.
    + fold (diag.HasError (diags ++ [d])). rewrite HasError_app.
      cbn [diag.HasError existsb]. rewrite orb_false_r.
      fold (diag.HasError new). now rewrite orb_assoc.
Qed.

(** X8: when reading the configuration gave an error diagnostic, [Read]
    returns at once.  The response holds the diagnostics of the
    configuration, each once, and no state; no client is called and the
    provider data is not looked at, so that even a data source that was
    never configured does not panic. *)
Theorem config_errors_stop_Read (d : BackendServiceDataSource)
  (diags : diag.Diagnostics) (data : BackendServiceDataSourceModel) :
  diag.HasError diags = true ->
  run_Read d {| Config_Get := (diags, data) |}
  = (Returned,
     {| resp := {| Diagnostics := configDiagnostics diags; State := None |};
        calls := [] |}).
Proof.
  intros H. rewrite Read_run.
  rewrite HasError_Append, H. reflexivity.
Qed.

Lemma config_errors_stop_Read_witness :
  run_Read {| providerData := None |}
    {| Config_Get :=
         ([warning; invalidGateway; warning],
          gatewayRequest types.StringNull) |}
  = (Returned,
     {| resp :=
          {| Diagnostics :=
               configDiagnostics [warning; invalidGateway; warning];
             State := None |};
        calls := [] |}).
Proof.
  apply (config_errors_stop_Read {| providerData := None |}
           [warning; invalidGateway; warning]
           (gatewayRequest types.StringNull)).
  reflexivity.
Defined.

(** X9: [Read] calls no client for an unknown project or region.  When the
    project of the data source is unknown it returns with the error
    diagnostic "Unknown project", whatever the provider's project; when a
    project is known and the region of the data source is unknown, with
    "Unknown region". *)
Theorem unknown_values_rejected
  (pd : GKEGatewayProviderData) (data : BackendServiceDataSourceModel) :
  (types.IsUnknown (Project data) = true ->
   run_Read (configured pd) (decoded data)
   = failure_with "Unknown project"
       "The project field on the data source cannot be set to an unknown value"
       [])
  /\ (types.IsUnknown (Region data) = true ->
      types.IsUnknown (Project data) = false ->
      types.IsNull (project pd) && types.IsNull (Project data) = false ->
      run_Read (configured pd) (decoded data)
      = failure_with "Unknown region"
          "The region field on the data source cannot be set to an unknown value"
          []).
Proof.
  unfold decoded. split.
  - intros Hp. rewrite Read_run.
    cbn [diag.Append fold_left diag.HasError existsb configured providerData].
    destruct (Project data); try discriminate.
    rewrite andb_false_r. reflexivity.
  - intros Hr Hp Hset. rewrite Read_run.
    cbn [diag.Append fold_left diag.HasError existsb configured providerData].
    rewrite Hset, Hp, Hr. reflexivity.
Qed.

Lemma unknown_values_rejected_witness :
  run_Read (configured defaultsCloud) (decoded unknownProjectRequest)
  = failure_with "Unknown project"
      "The project field on the data source cannot be set to an unknown value"
      []
  /\ run_Read (configured defaultsCloud)
       (decoded (gatewayRequest types.StringUnknown))
     = failure_with "Unknown region"
         "The region field on the data source cannot be set to an unknown value"
         [].
Proof.
  split.
  - exact (proj1 (unknown_values_rejected defaultsCloud unknownProjectRequest)
             eq_refl).
  - exact (proj2 (unknown_values_rejected defaultsCloud
                    (gatewayRequest types.StringUnknown))
             eq_refl eq_refl eq_refl).
Defined.

(** ** What the resolution depends on *)

(** X10: of the listing of the forwarding rules, [Read] uses only how the
    iteration ended and which rules match, in their order.  Two listings
    that agree on these give the same response, the same trace and the same
    end: rules of other gateways, wherever they stand in the listing and
    whatever their targets, change nothing. *)
Theorem only_matching_rules_matter
  (pd : GKEGatewayProviderData) (req : ReadRequest)
  (it1 it2 : ForwardingRuleIterator) :
  failure it1 = failure it2 ->
  matchingRules (snd (Config_Get req)) it1
  = matchingRules (snd (Config_Get req)) it2 ->
  run_Read (configured (withForwardingRules pd it1)) req
  = run_Read (configured (withForwardingRules pd it2)) req.
Proof.
  destruct req as [[diags data]]. cbn [Config_Get snd]. intros Hfail Hmatch.
  rewrite !Read_run. cbn [configured providerData withForwardingRules project].
  destruct (diag.HasError (diag.Append [] diags)); [reflexivity|].
  destruct (types.IsNull (project pd) && types.IsNull (Project data));
    [reflexivity|].
  destruct (types.IsUnknown (Project data)); [reflexivity|].
  destruct (types.IsUnknown (Region data)); [reflexivity|].
  change (effectiveProject (withForwardingRules pd it1) data)
    with (effectiveProject pd data).
  change (effectiveProject (withForwardingRules pd it2) data)
    with (effectiveProject pd data).
  change (effectiveRegion (withForwardingRules pd it1) data)
    with (effectiveRegion pd data).
  change (effectiveRegion (withForwardingRules pd it2) data)
    with (effectiveRegion pd data).
  unfold resolve. unfold bind at 1 5. rewrite !locateForwardingRule_run.
  cbv zeta.
  assert (L : forall it,
            listAnswer (withForwardingRules pd it) (effectiveProject pd data)
              (effectiveRegion pd data) = it).
  { intros it. unfold listAnswer.
    destruct (types.IsNull (effectiveRegion pd data)); reflexivity. }
  rewrite !L, Hfail, Hmatch.
  destruct (failure it2) as [err|]; [destruct (is404 err); reflexivity|].
  destruct (matchingRules data it2) as [|rule [|b rest]]; reflexivity.
Qed.

Lemma only_matching_rules_matter_witness :
  run_Read
    (configured (withForwardingRules
                   (cloud (listing []) (Ok (serviceUrlMap (Some svc_1) [])))
                   (listing (strayRules ++ [fr_1] ++ strayRules))))
    (decoded (gatewayRequest types.StringNull))
  = run_Read
      (configured (withForwardingRules
                     (cloud (listing []) (Ok (serviceUrlMap (Some svc_1) [])))
                     (listing [fr_1])))
      (decoded (gatewayRequest types.StringNull)).
Proof.
  apply (only_matching_rules_matter
           (cloud (listing []) (Ok (serviceUrlMap (Some svc_1) [])))
           (decoded (gatewayRequest types.StringNull))
           (listing (strayRules ++ [fr_1] ++ strayRules))
           (listing [fr_1]));
    vm_compute; reflexivity.
Defined.

(** ** The key of a gateway *)

Lemma key_tail_injective (ns1 ns2 gw1 gw2 : string) :
  strings.Contains ns1 "/" = false ->
  strings.Contains ns2 "/" = false ->
  (ns1 ++ "/gateways/" ++ gw1)%string = (ns2 ++ "/gateways/" ++ gw2)%string ->
  ns1 = ns2 /\ gw1 = gw2.
Proof.
  revert ns2. induction ns1 as [|c1 n1 IH]; intros [|c2 n2] H1 H2 E.
  - cbn [append] in E. injection E as E. split; [reflexivity | exact E].
  - cbn [append] in E. injection E as Ec _. subst c2.
    cbn [strings.Contains] in H2. rewrite Ascii.eqb_refl in H2. discriminate.
  - cbn [append] in E. injection E as Ec _. subst c1.
    cbn [strings.Contains] in H1. rewrite Ascii.eqb_refl in H1. discriminate.
  - cbn [append] in E. injection E as Ec E. subst c2.
    cbn [strings.Contains] in H1, H2.
    apply orb_false_elim in H1 as [_ H1]. apply orb_false_elim in H2 as [_ H2].
    destruct (IH n2 H1 H2 E) as [-> ->]. split; reflexivity.
Qed.

(** X11: a forwarding rule written for a gateway is matched by the requests
    for that gateway and by no other.  For namespaces without "/" (those
    of Kubernetes have none), the rule whose description is the JSON object
    carrying the key of [namespace'] and [gateway'] matches a request for
    [namespace] and [gateway] exactly when both names are the same.
    Without the condition on the namespaces two different pairs of names
    can share their key. *)
Theorem gateway_rule_matches_its_gateway_only
  (namespace gateway namespace' gateway' name target : string) :
  (strings.Contains namespace "/" = false ->
   strings.Contains namespace' "/" = false ->
   plain (correlationKey (requestFor namespace' gateway')) = true ->
   matchesGateway (requestFor namespace gateway)
     (forwardingRule name
        (gatewayDescription (correlationKey (requestFor namespace' gateway')))
        target) = true
   <-> namespace = namespace' /\ gateway = gateway')
  /\ correlationKey (requestFor "a/gateways/b" "c")
     = correlationKey (requestFor "a" "b/gateways/c").
Proof.
  split; [|reflexivity].
  intros Hns Hns' Hplain. unfold matchesGateway.
  change (computepb.GetDescription
            (forwardingRule name
               (gatewayDescription
                  (correlationKey (requestFor namespace' gateway')))
               target))
    with (gatewayDescription (correlationKey (requestFor namespace' gateway'))).
  rewrite (gatewayDescription_decodes_plain _ Hplain). cbn [K8sResource].
  rewrite String.eqb_eq. unfold correlationKey, requestFor.
  cbn [Namespace Gateway types.ValueString]. split.
  - intros E. cbn [append] in E.
    injection E as E.
    destruct (key_tail_injective _ _ _ _ Hns' Hns E) as [-> ->].
    split; reflexivity.
  - intros [-> ->]. reflexivity.
Qed.

Lemma gateway_rule_matches_its_gateway_only_witness :
  matchesGateway (requestFor "my-cool-app" "my-gateway-name")
    (forwardingRule "fr-1"
       (gatewayDescription
          (correlationKey (requestFor "my-cool-app" "my-gateway-name")))
       httpsTarget) = true
  <-> "my-cool-app" = "my-cool-app" /\ "my-gateway-name" = "my-gateway-name".
Proof.
  apply (proj1 (gateway_rule_matches_its_gateway_only
                  "my-cool-app" "my-gateway-name"
                  "my-cool-app" "my-gateway-name" "fr-1" httpsTarget));
    reflexivity.
Defined.

(** ** Configuring the provider and the data source *)

Lemma HasError_AddError (diags : diag.Diagnostics) (summary detail : string) :
  diag.HasError (diag.AddError diags summary detail) = true.
Proof.
  unfold diag.AddError. rewrite HasError_Append. apply orb_true_r.
Qed.

Lemma handed_provider_data (p : GKEGatewayProvider)
  (env : compute.REST) (req : ConfigureRequest) :
  match provider.DataSourceData (fst (Provider_Configure p env req)) with
  | any_GKEGatewayProviderData (Some pd) =>
      project pd = GKEGatewayProviderModel.Project (snd (Provider_Config_Get req))
      /\ region pd = GKEGatewayProviderModel.Region (snd (Provider_Config_Get req))
      /\ types.IsUnknown (project pd) = false
      /\ types.IsUnknown (region pd) = false
  | any_nil => True
  | _ => False
  end.
Proof.
  destruct req as [[configDiags data]].
  unfold Provider_Configure. cbn [Provider_Config_Get snd].
  destruct (diag.HasError (diag.Append [] configDiags)); [exact I|].
  destruct (types.IsUnknown (GKEGatewayProviderModel.Project data)) eqn:Hp;
    [exact I|].
  destruct (types.IsUnknown (GKEGatewayProviderModel.Region data)) eqn:Hr;
    [exact I|].
  destruct env as [c1 c2 c3 c4 c5 c6 c7 c8]. cbn.
  destruct c1; [|exact I]. destruct c2; [|exact I]. destruct c3; [|exact I].
  destruct c4; [|exact I]. destruct c5; [|exact I]. destruct c6; [|exact I].
  destruct c7; [|exact I]. destruct c8; [|exact I].
  cbn. repeat split; assumption.
Qed.

(** X12: the provider hands provider data to the data sources exactly when
    its [Configure] reports no error.  When it does, the same data goes to
    the resources, its project and region are those of the configuration
    and neither is unknown, every constructor has been invoked, in the
    order of the source, and the clients are the ones constructed.
    Otherwise nothing is handed over and the response holds an error. *)
Theorem provider_data_only_without_error (p : GKEGatewayProvider)
  (env : compute.REST) (req : ConfigureRequest) :
  let resp := fst (Provider_Configure p env req) in
  let data := snd (Provider_Config_Get req) in
  match provider.DataSourceData resp with
  | any_GKEGatewayProviderData (Some pd) =>
      diag.HasError (provider.Diagnostics resp) = false
      /\ provider.ResourceData resp = provider.DataSourceData resp
      /\ project pd = GKEGatewayProviderModel.Project data
      /\ region pd = GKEGatewayProviderModel.Region data
      /\ types.IsUnknown (project pd) = false
      /\ types.IsUnknown (region pd) = false
      /\ env = workingREST pd
      /\ snd (Provider_Configure p env req) = constructorsInOrder
  | any_nil =>
      diag.HasError (provider.Diagnostics resp) = true
      /\ provider.ResourceData resp = any_nil
  | _ => False
  end.
Proof.
  destruct req as [[configDiags data]]. cbv zeta.
  unfold Provider_Configure. cbn [Provider_Config_Get snd].
  destruct (diag.HasError (diag.Append [] configDiags)) eqn:Hno.
  { cbn. split; [exact Hno | reflexivity]. }
  destruct (types.IsUnknown (GKEGatewayProviderModel.Project data)) eqn:Hp.
  { cbn. split; [apply HasError_AddError | reflexivity]. }
  destruct (types.IsUnknown (GKEGatewayProviderModel.Region data)) eqn:Hr.
  { cbn. split; [apply HasError_AddError | reflexivity]. }
  destruct env as [c1 c2 c3 c4 c5 c6 c7 c8]. cbn.
  destruct c1; [|cbn; split; [apply HasError_AddError | reflexivity]].
  destruct c2; [|cbn; split; [apply HasError_AddError | reflexivity]].
  destruct c3; [|cbn; split; [apply HasError_AddError | reflexivity]].
  destruct c4; [|cbn; split; [apply HasError_AddError | reflexivity]].
  destruct c5; [|cbn; split; [apply HasError_AddError | reflexivity]].
  destruct c6; [|cbn; split; [apply HasError_AddError | reflexivity]].
  destruct c7; [|cbn; split; [apply HasError_AddError | reflexivity]].
  destruct c8; [|cbn; split; [apply HasError_AddError | reflexivity]].
  cbn. repeat split; assumption.
Qed.

(** X13: when setting up a client fails, [Configure] of the provider
    reports the first constructor that fails, in the order of the source:
    one error diagnostic "Unable to configure provider" whose detail names
    that client and carries the text of its error.  The constructors after
    it are not invoked and no provider data is handed over. *)
Theorem first_failing_constructor (p : GKEGatewayProvider)
  (env : compute.REST) (configDiags : diag.Diagnostics)
  (data : GKEGatewayProviderModel.t) (c : Constructor) (err : error) :
  diag.HasError configDiags = false ->
  types.IsUnknown (GKEGatewayProviderModel.Project data) = false ->
  types.IsUnknown (GKEGatewayProviderModel.Region data) = false ->
  attempt env c = Some err ->
  forallb (fun c' => match attempt env c' with None => true | Some _ => false end)
    (constructorsBefore c) = true ->
  Provider_Configure p env {| Provider_Config_Get := (configDiags, data) |}
  = ({| provider.Diagnostics :=
          configDiagnostics configDiags
            ++ [diag.NewErrorDiagnostic "Unable to configure provider"
                  (setupMessage c ++ error_text err)];
        provider.DataSourceData := any_nil;
        provider.ResourceData := any_nil |},
     constructorsBefore c ++ [c]).
Proof.
  intros Hno Hp Hr Hfail Hbefore.
  assert (Hno' : diag.HasError (diag.Append [] configDiags) = false)
    by (rewrite HasError_Append, Hno; reflexivity).
  unfold Provider_Configure. cbn [Provider_Config_Get].
  rewrite Hno', Hp, Hr. unfold configureError, configDiagnostics.
  destruct env as [c1 c2 c3 c4 c5 c6 c7 c8].
  destruct c;
    cbn [attempt constructorsBefore constructorsInOrder upTo Constructor_eqb
         forallb compute.NewBackendServicesRESTClient
         compute.NewForwardingRulesRESTClient
         compute.NewGlobalForwardingRulesRESTClient
         compute.NewRegionBackendServicesRESTClient
         compute.NewRegionTargetHttpsProxiesRESTClient
         compute.NewRegionUrlMapsRESTClient
         compute.NewTargetHttpsProxiesRESTClient
         compute.NewUrlMapsRESTClient setupMessage app]
      in Hfail, Hbefore |- *;
    repeat match goal with
           | H : context [failed_with ?r] |- _ =>
               destruct r; cbn [failed_with andb] in H; try discriminate
           end;
    injection Hfail as <-;
    rewrite (AddError_appends _ _ _ Hno'); reflexivity.
Qed.

Lemma first_failing_constructor_witness :
  Provider_Configure {| version := "dev" |}
    (brokenREST (cloud (listing [fr_1]) (Ok bareUrlMap)))
    {| Provider_Config_Get :=
         ([warning],
          {| GKEGatewayProviderModel.Project := types.StringValue "my-gcp-project";
             GKEGatewayProviderModel.Region := types.StringNull |}) |}
  = ({| provider.Diagnostics :=
          configDiagnostics [warning]
            ++ [diag.NewErrorDiagnostic "Unable to configure provider"
                  (setupMessage RegionTargetHttpsProxiesREST
                     ++ error_text noCredentials)];
        provider.DataSourceData := any_nil;
        provider.ResourceData := any_nil |},
     constructorsBefore RegionTargetHttpsProxiesREST
       ++ [RegionTargetHttpsProxiesREST]).
Proof.
  apply (first_failing_constructor {| version := "dev" |}
           (brokenREST (cloud (listing [fr_1]) (Ok bareUrlMap)))
           [warning]
           {| GKEGatewayProviderModel.Project :=
                types.StringValue "my-gcp-project";
              GKEGatewayProviderModel.Region := types.StringNull |}
           RegionTargetHttpsProxiesREST noCredentials);
    reflexivity.
Defined.

Lemma configureAll_providerData (inputs : list any)
  (d : BackendServiceDataSource) (diags : diag.Diagnostics) :
  providerData
    (fst (fold_left
            (fun '(d, diags) input => DataSource_Configure d input diags)
            inputs (d, diags)))
  = lastProviderData inputs (providerData d).
Proof.
  revert d diags. induction inputs as [|a l IH]; intros d diags.
  - reflexivity.
  - cbn [fold_left lastProviderData].
    destruct a as [|q|T]; cbn [DataSource_Configure]; rewrite IH; reflexivity.
Qed.

Lemma configureAll_diagnostics (inputs : list any)
  (d : BackendServiceDataSource) (diags : diag.Diagnostics) :
  diag.HasError
    (snd (fold_left
            (fun '(d, diags) input => DataSource_Configure d input diags)
            inputs (d, diags)))
  = diag.HasError diags || existsb isOther inputs.
Proof.
  revert d diags. induction inputs as [|a l IH]; intros d diags.
  - cbn. now rewrite orb_false_r.
  - cbn [fold_left existsb].
    destruct a as [|q|T]; cbn [DataSource_Configure isOther]; rewrite IH.
    + reflexivity.
    + reflexivity.
    + rewrite HasError_AddError. cbn. now rewrite orb_true_r.
Qed.

(** X14: however often [Configure] of the data source is called, the data
    source holds the provider data of the last call that carried a
    [*GKEGatewayProviderData]; calls without provider data and calls with a
    value of another type leave it as it was.  The responses hold an error
    exactly when some call carried a value of another type. *)
Theorem Configure_keeps_last_provider_data
  (d : BackendServiceDataSource) (inputs : list any) :
  providerData (fst (configureAll d inputs))
  = lastProviderData inputs (providerData d)
  /\ diag.HasError (snd (configureAll d inputs)) = existsb isOther inputs.
Proof.
  unfold configureAll. split.
  - apply configureAll_providerData.
  - rewrite configureAll_diagnostics. reflexivity.
Qed.

(** X15: a data source whose provider data is nil panics in [Read] as soon
    as the configuration is read without error: a nil dereference, before
    any client call.  This is the state of a new data source after calls of
    [Configure] that carried no provider data. *)
Theorem unconfigured_Read_panics
  (inputs : list any) (diags : diag.Diagnostics)
  (data : BackendServiceDataSourceModel) :
  lastProviderData inputs None = None ->
  diag.HasError diags = false ->
  run_Read (fst (configureAll (NewBackendServiceDataSource tt) inputs))
    {| Config_Get := (diags, data) |}
  = (Panicked NilDereference,
     {| resp := {| Diagnostics := configDiagnostics diags; State := None |};
        calls := [] |}).
Proof.
  intros Hlast Hno. rewrite Read_run. unfold configureAll.
  rewrite configureAll_providerData, HasError_Append, Hno.
  cbn [orb providerData NewBackendServiceDataSource diag.HasError existsb].
  rewrite Hlast. reflexivity.
Qed.

Lemma unconfigured_Read_panics_witness :
  run_Read
    (fst (configureAll (NewBackendServiceDataSource tt)
            [any_nil; any_other "string"; any_nil]))
    {| Config_Get := ([warning], gatewayRequest types.StringNull) |}
  = (Panicked NilDereference,
     {| resp := {| Diagnostics := configDiagnostics [warning]; State := None |};
        calls := [] |}).
Proof.
  apply (unconfigured_Read_panics [any_nil; any_other "string"; any_nil]
           [warning] (gatewayRequest types.StringNull));
    reflexivity.
Defined.

(** X16: from the configuration of the provider to the calls of [Read].
    Let the data source be a new one, configured with what the provider's
    [Configure] handed over.  Then every client call of [Read] is made for
    the project written in the data source, or else in the provider, and
    for the region written in the data source, or else in the provider;
    a global client is called only when neither writes a region.  No call
    is ever made for a null or unknown project, or for an unknown
    region. *)
Theorem calls_use_configured_scope (p : GKEGatewayProvider)
  (env : compute.REST) (preq : ConfigureRequest) (req : ReadRequest) :
  let pdata := snd (Provider_Config_Get preq) in
  let data := snd (Config_Get req) in
  let d :=
    fst (DataSource_Configure (NewBackendServiceDataSource tt)
           (provider.DataSourceData (fst (Provider_Configure p env preq))) [])
  in
  Forall
    (fun c =>
       Some (call_project c)
       = configuredValue (Project data) (GKEGatewayProviderModel.Project pdata)
       /\ call_region c
          = configuredValue (Region data) (GKEGatewayProviderModel.Region pdata))
    (calls (snd (run_Read d req))).
Proof.
  cbv zeta.
  pose proof (handed_provider_data p env preq) as Hp.
  destruct (provider.DataSourceData (fst (Provider_Configure p env preq)))
    as [|[pd|]|T]; try contradiction.
  - destruct req as [[diags data]]. cbn [DataSource_Configure fst].
    rewrite Read_run. cbn [NewBackendServiceDataSource providerData].
    destruct (diag.HasError (diag.Append [] diags)); apply Forall_nil.
  - destruct Hp as [Hproj [Hreg [Hpu Hru]]].
    cbn [DataSource_Configure fst]. rewrite <- Hproj, <- Hreg.
    pose proof (Read_in_scope {| providerData := Some pd |} req) as Hscope.
    cbn [providerData] in Hscope.
    destruct req as [[diags data]]. cbn [Config_Get snd] in *.
    rewrite Read_run in *. cbn [providerData] in *.
    destruct (diag.HasError (diag.Append [] diags)); [apply Forall_nil|].
    destruct (types.IsNull (project pd) && types.IsNull (Project data)) eqn:Hn;
      [apply Forall_nil|].
    destruct (types.IsUnknown (Project data)) eqn:Hu; [apply Forall_nil|].
    destruct (types.IsUnknown (Region data)) eqn:Hv; [apply Forall_nil|].
    eapply Forall_impl; [|exact Hscope].
    intros c [Hcp Hcr]. rewrite Hcp, Hcr.
    unfold effectiveProject, effectiveRegion, scope_region, configuredValue.
    destruct (Project data), (project pd), (Region data), (region pd);
      try discriminate; split; reflexivity.
Qed.

(** ** When [Read] resolves a backend service *)

(** X17: [Read] stores a state exactly when the chain resolves without
    choice.  For a configuration read without diagnostic, the state [st] is
    stored if and only if a project is set, nothing is unknown, the listing
    ends without error with a single matching rule, its target names an
    HTTPS proxy that is found, the URL map of the proxy is found and yields
    a single backend service path, and the backend service named by the
    last component of that path is found; [st] is then the configuration
    with the decimal id and the name of that service. *)
Theorem stored_iff_chain_resolves
  (pd : GKEGatewayProviderData) (data st : BackendServiceDataSourceModel) :
  let project := effectiveProject pd data in
  let region := effectiveRegion pd data in
  State (resp (snd (run_Read (configured pd) (decoded data)))) = Some st
  <-> settled pd data = true
      /\ exists rule proxyName urlMapName urlMap path backendService,
           Mapped pd data project region rule proxyName urlMapName urlMap
           /\ eligibleBackendServicePaths urlMap = [Some path]
           /\ backendServiceAnswer pd project region (lastSegment path)
              = Ok backendService
           /\ st = storedModel data backendService.
Proof.
  cbv zeta. split.
  - unfold decoded, settled. rewrite Read_run.
    cbn [diag.Append fold_left diag.HasError existsb configured providerData].
    destruct (types.IsNull (project pd) && types.IsNull (Project data));
      [discriminate|].
    destruct (types.IsUnknown (Project data)); [discriminate|].
    destruct (types.IsUnknown (Region data)); [discriminate|].
    destruct (resolve_Outcome pd data (effectiveProject pd data)
                (effectiveRegion pd data) (entered []))
      as [ | | | | | | | | | | |
           | rule proxyName urlMapName urlMap path backendService Hm Hone Hs ];
      try discriminate.
    cbn [snd stored resp State]. intros E. injection E as <-.
    split; [reflexivity|].
    exists rule, proxyName, urlMapName, urlMap, path, backendService.
    split; [exact Hm|]. split; [exact Hone|]. split; [exact Hs | reflexivity].
  - intros [Hsettled [rule [proxyName [urlMapName [urlMap [path [backendService
      [Hm [Hone [Hs ->]]]]]]]]]].
    destruct Hm as [[[[Hdone Hsole] [pre Hsplit]] [proxy [Hproxy ->]]] HurlMap].
    rewrite (Read_settled _ _ Hsettled).
    rewrite (resolve_urlMap pd data rule Hdone Hsole pre proxyName proxy urlMap
               Hsplit Hproxy HurlMap).
    unfold bind at 1. rewrite selectBackendServicePath_run, Hone.
    rewrite lookupBackendService_run. cbv zeta. rewrite Hs. reflexivity.
Qed.

(** X18: the provider sets up no client for a configuration it rejects.
    When reading the configuration gave an error, or the project or the
    region of the provider is unknown, [Configure] invokes no constructor,
    hands no provider data over and leaves an error in its response. *)
Theorem no_client_for_rejected_configuration (p : GKEGatewayProvider)
  (env : compute.REST) (configDiags : diag.Diagnostics)
  (data : GKEGatewayProviderModel.t) :
  diag.HasError configDiags
  || types.IsUnknown (GKEGatewayProviderModel.Project data)
  || types.IsUnknown (GKEGatewayProviderModel.Region data) = true ->
  let out :=
    Provider_Configure p env {| Provider_Config_Get := (configDiags, data) |}
  in
  snd out = []
  /\ provider.DataSourceData (fst out) = any_nil
  /\ provider.ResourceData (fst out) = any_nil
  /\ diag.HasError (provider.Diagnostics (fst out)) = true.
Proof.
  intros H. cbv zeta. unfold Provider_Configure. cbn [Provider_Config_Get].
  rewrite HasError_Append. cbn [diag.HasError existsb orb].
  fold (diag.HasError configDiags).
  destruct (diag.HasError configDiags) eqn:Hno.
  { cbn. rewrite HasError_Append, Hno. repeat split. }
  destruct (types.IsUnknown (GKEGatewayProviderModel.Project data)).
  { cbn. repeat split. apply HasError_AddError. }
  destruct (types.IsUnknown (GKEGatewayProviderModel.Region data)).
  { cbn. repeat split. apply HasError_AddError. }
  discriminate.
Qed.

Lemma no_client_for_rejected_configuration_witness :
  snd (Provider_Configure {| version := "dev" |}
         (workingREST (cloud (listing [fr_1]) (Ok bareUrlMap)))
         (providerConfig (types.StringValue "my-gcp-project")
            types.StringUnknown))
  = []
  /\ provider.DataSourceData
       (fst (Provider_Configure {| version := "dev" |}
               (workingREST (cloud (listing [fr_1]) (Ok bareUrlMap)))
               (providerConfig (types.StringValue "my-gcp-project")
                  types.StringUnknown)))
     = any_nil
  /\ provider.ResourceData
       (fst (Provider_Configure {| version := "dev" |}
               (workingREST (cloud (listing [fr_1]) (Ok bareUrlMap)))
               (providerConfig (types.StringValue "my-gcp-project")
                  types.StringUnknown)))
     = any_nil
  /\ diag.HasError
       (provider.Diagnostics
          (fst (Provider_Configure {| version := "dev" |}
                  (workingREST (cloud (listing [fr_1]) (Ok bareUrlMap)))
                  (providerConfig (types.StringValue "my-gcp-project")
                     types.StringUnknown))))
     = true.
Proof.
  apply (no_client_for_rejected_configuration {| version := "dev" |}
           (workingREST (cloud (listing [fr_1]) (Ok bareUrlMap)))
           []
           {| GKEGatewayProviderModel.Project :=
                types.StringValue "my-gcp-project";
              GKEGatewayProviderModel.Region := types.StringUnknown |}).
  reflexivity.
Defined.
